(** * pymongo-schema: schema export and the type lattice

    A shallow embedding of [pymongo_schema/export.py] (the pre-processing
    classes [_DiffPreProcessing] and [_SchemaPreProcessing]) and of
    [pymongo_schema/mongo_sql_types.py] ([TYPES_TREE], [common_parent_type]),
    followed by the properties the specification states about them.

    Python objects are modelled by the type [value] of JSON-like documents.
    A [dict] is an association list in iteration order; Python guarantees
    that its keys are pairwise distinct, which is the predicate
    [unique_keys] below.  Exceptions are modelled by the [result] monad. *)

From Stdlib Require Import String Ascii ZArith List Bool Lia Arith.
From Stdlib Require Import Permutation Sorted PrimFloat DecimalString OrderedTypeEx.
Import ListNotations.

Local Open Scope string_scope.
Local Open Scope Z_scope.

Set Warnings "-register-all".

(** ** Python values *)

Inductive value : Type :=
| VNone
| VBool (b : bool)
| VInt (n : Z)
| VFloat (f : float)
| VStr (s : string)
| VList (l : list value)
| VDict (kvs : list (string * value)).

Definition dict := list (string * value).

(** ** Exceptions

    [Unsupported] is not a Python exception: it marks the inputs on which
    Python's behaviour lies outside this model (ordering of occurrence
    counts that are not integers, [str] of a float or of a container).
    No theorem below concludes anything from it. *)

Inductive exn : Type :=
| KeyError (k : string)
| TypeError
| AttributeError
| LookupError (name : string)
| TreeError
| IndexError
| RecursionError
| Unsupported.

Inductive result (A : Type) : Type :=
| Ok (a : A)
| Raise (e : exn).

Arguments Ok {A} a.
Arguments Raise {A} e.

Definition bind {A B : Type} (m : result A) (f : A -> result B) : result B :=
  match m with
  | Ok a => f a
  | Raise e => Raise e
  end.

Notation "x <- m ;; k" := (bind m (fun x => k))
  (at level 61, m at next level, right associativity).
Notation "' p <- m ;; k" := (bind m (fun x => match x with p => k end))
  (at level 61, p pattern, m at next level, right associativity).

(** A [for] loop that appends one result per element and stops at the
    first exception. *)
Fixpoint mapM {A B : Type} (f : A -> result B) (l : list A) : result (list B) :=
  match l with
  | [] => Ok []
  | x :: l' => y <- f x ;; ys <- mapM f l' ;; Ok (y :: ys)
  end.

(** ** Primitive operations on values *)

Definition keys (d : dict) : list string := map fst d.

Definition unique_keys (d : dict) : Prop := NoDup (keys d).

Fixpoint lookup (k : string) (d : dict) : option value :=
  match d with
  | [] => None
  | (k', v) :: d' => if (k' =? k)%string then Some v else lookup k d'
  end.

(** [d[k] = v] on a dict under construction: overwrites in place, else
    appends. *)
Fixpoint dict_set (d : dict) (k : string) (v : value) : dict :=
  match d with
  | [] => [(k, v)]
  | (k', v') :: d' =>
      if (k' =? k)%string then (k', v) :: d' else (k', v') :: dict_set d' k v
  end.

(** [v[k]] for a string [k]. *)
Definition getitem (v : value) (k : string) : result value :=
  match v with
  | VDict d =>
      match lookup k d with
      | Some x => Ok x
      | None => Raise (KeyError k)
      end
  | _ => Raise TypeError
  end.

(** [v.get(k, default)]. *)
Definition get (v : value) (k : string) (default : value) : result value :=
  match v with
  | VDict d =>
      match lookup k d with
      | Some x => Ok x
      | None => Ok default
      end
  | _ => Raise AttributeError
  end.

(** [v.items()]. *)
Definition items (v : value) : result dict :=
  match v with
  | VDict d => Ok d
  | _ => Raise AttributeError
  end.

(** The elements a [for] loop over [v] visits. *)
Definition iterate (v : value) : result (list value) :=
  match v with
  | VList l => Ok l
  | VDict d => Ok (map VStr (keys d))
  | VStr s => Ok (map (fun c => VStr (String c EmptyString)) (list_ascii_of_string s))
  | _ => Raise TypeError
  end.

(** [isinstance(v, dict)]. *)
Definition is_dict (v : value) : bool :=
  match v with
  | VDict _ => true
  | _ => false
  end.

(** [k in s] on strings: [k] occurs in [s]. *)
Fixpoint substringb (k s : string) : bool :=
  String.prefix k s ||
  match s with
  | EmptyString => false
  | String _ s' => substringb k s'
  end.

(** [v == k] for a string [k]. *)
Definition str_eqb (k : string) (v : value) : bool :=
  match v with
  | VStr s => (s =? k)%string
  | _ => false
  end.

(** [k in v] for a string [k]. *)
Definition contains (k : string) (v : value) : result bool :=
  match v with
  | VDict d => Ok (existsb (String.eqb k) (keys d))
  | VList l => Ok (existsb (str_eqb k) l)
  | VStr s => Ok (substringb k s)
  | _ => Raise TypeError
  end.

(** Truth value of an object, as tested by [not], [or] and [if]. *)
Definition truthy (v : value) : bool :=
  match v with
  | VNone => false
  | VBool b => b
  | VInt n => negb (n =? 0)
  | VFloat f => negb (PrimFloat.eqb f 0%float)
  | VStr s => negb (s =? "")%string
  | VList l => match l with [] => false | _ => true end
  | VDict d => match d with [] => false | _ => true end
  end.

(** [a or b]. *)
Definition py_or (a b : value) : value := if truthy a then a else b.

(** An integer, or a bool used as one. *)
Definition as_int (v : value) : option Z :=
  match v with
  | VInt n => Some n
  | VBool b => Some (if b then 1 else 0)
  | _ => None
  end.

(** The decimal text of an integer. *)
Definition string_of_Z (n : Z) : string := NilZero.string_of_int (Z.to_int n).

(** [str(v)]. *)
Definition py_str (v : value) : result string :=
  match v with
  | VNone => Ok "None"
  | VBool b => Ok (if b then "True" else "False")
  | VInt n => Ok (string_of_Z n)
  | VStr s => Ok s
  | _ => Raise Unsupported
  end.

(** [s + v] for a string [s]. *)
Definition str_add (s : string) (v : value) : result string :=
  match v with
  | VStr t => Ok (s ++ t)
  | _ => Raise TypeError
  end.

(** [n * s] on strings and on lists. *)
Fixpoint str_repeat (n : nat) (s : string) : string :=
  match n with
  | O => ""
  | S n' => s ++ str_repeat n' s
  end.

Fixpoint list_repeat {A : Type} (n : nat) (l : list A) : list A :=
  match n with
  | O => []
  | S n' => l ++ list_repeat n' l
  end.

(** [100 * v]. *)
Definition times_100 (v : value) : result value :=
  match v with
  | VInt n => Ok (VInt (100 * n))
  | VBool b => Ok (VInt (100 * (if b then 1 else 0)))
  | VFloat f => Ok (VFloat (PrimFloat.mul 100%float f))
  | VStr s => Ok (VStr (str_repeat 100 s))
  | VList l => Ok (VList (list_repeat 100 l))
  | VNone | VDict _ => Raise TypeError
  end.

(** [-v], as an integer sort key. *)
Definition neg_int (v : value) : result Z :=
  match v with
  | VInt n => Ok (- n)
  | VBool b => Ok (- (if b then 1 else 0))
  | VFloat _ => Raise Unsupported
  | _ => Raise TypeError
  end.

(** [c] is one of the letters [A] to [Z]. *)
Definition is_upper (c : ascii) : bool :=
  let n := nat_of_ascii c in (65 <=? n)%nat && (n <=? 90)%nat.

Definition lower_ascii (c : ascii) : ascii :=
  if is_upper c then ascii_of_nat (nat_of_ascii c + 32) else c.

(** [s.lower()], on the letters [A] to [Z]. *)
Fixpoint lower (s : string) : string :=
  match s with
  | EmptyString => EmptyString
  | String c s' => String (lower_ascii c) (lower s')
  end.

(** [s.split('.')]. *)
Fixpoint split_dot (s : string) : list string :=
  match s with
  | EmptyString => [EmptyString]
  | String c s' =>
      if (c =? ".")%char then EmptyString :: split_dot s'
      else match split_dot s' with
           | h :: t => String c h :: t
           | [] => [String c EmptyString]
           end
  end.

(** ['.'.join(l)]. *)
Definition join_dot (l : list string) : string := String.concat "." l.

(** ** [sorted]

    Python's sort is stable: elements with equal keys keep their relative
    order.  For a total preorder on keys the result of a stable sort is
    unique, so an insertion sort that places an element before the first
    one not below it computes the same list. *)

Section Sorted.
Context {A : Type}.
Variable leb : A -> A -> bool.

Fixpoint insert_sorted (x : A) (l : list A) : list A :=
  match l with
  | [] => [x]
  | y :: l' => if leb x y then x :: l else y :: insert_sorted x l'
  end.

Fixpoint sorted_by (l : list A) : list A :=
  match l with
  | [] => []
  | x :: l' => insert_sorted x (sorted_by l')
  end.
End Sorted.

(** ** [mongo_sql_types.py] *)

Module mongo_sql_types.

(** A node of an [ete3] tree read with [format=8]: every node, leaf or
    internal, carries a name. *)
Inductive tree : Type :=
| Node (name : string) (children : list tree).

(** [TYPES_TREE = Tree(TYPES_TREE_STR, format=8)], the Newick string
    <<
    (((float, ((boolean) integer) biginteger) number,
      (oid, dbref) string, date, timestamp, unknown) general_scalar,
     object) mixed_scalar_object;
    >> *)
Definition TYPES_TREE : tree :=
  Node "mixed_scalar_object"
    [ Node "general_scalar"
        [ Node "number"
            [ Node "float" [];
              Node "biginteger" [ Node "integer" [ Node "boolean" [] ] ] ];
          Node "string" [ Node "oid" []; Node "dbref" [] ];
          Node "date" [];
          Node "timestamp" [];
          Node "unknown" [] ];
      Node "object" [] ].

(** The names of all nodes, root first. *)
Fixpoint nodes (t : tree) : list string :=
  match t with
  | Node name children => name :: flat_map nodes children
  end.

(** The names on the way from the root down to the node called
    [target].  This function and the next three serve the model of
    [get_common_ancestor] below. *)
Fixpoint node_path (target : string) (t : tree) : option (list string) :=
  match t with
  | Node name children =>
      if (name =? target)%string then Some [name]
      else
        let fix first (ts : list tree) : option (list string) :=
          match ts with
          | [] => None
          | c :: ts' =>
              match node_path target c with
              | Some p => Some p
              | None => first ts'
              end
          end in
        match first children with
        | Some p => Some (name :: p)
        | None => None
        end
  end.

(** The longest list that starts both [p] and [q]. *)
Fixpoint common_prefix (p q : list string) : list string :=
  match p, q with
  | a :: p', b :: q' =>
      if (a =? b)%string then a :: common_prefix p' q' else []
  | _, _ => []
  end.

(** The part of the way from the root that all the paths share. *)
Fixpoint common_path (ps : list (list string)) : option (list string) :=
  match ps with
  | [] => None
  | p :: ps' =>
      match common_path ps' with
      | None => Some p
      | Some q => Some (common_prefix p q)
      end
  end.

(** The node a path leads to. *)
Fixpoint last_name (p : list string) : option string :=
  match p with
  | [] => None
  | [a] => Some a
  | _ :: p' => last_name p'
  end.

(** Modelled from the spec: [Tree.get_common_ancestor] (followed by [.name]) of
    the [ete3] library, which is not part of the sources.  It "returns
    the name of the lowest common ancestor of all listed types in the
    fixed taxonomy" and "fails with a lookup error if any listed type
    name has no node in the lattice". *)
Definition get_common_ancestor (t : tree) (names : list string)
  : result string :=
  paths <- mapM (fun n => match node_path n t with
                          | Some p => Ok p
                          | None => Raise (LookupError n)
                          end) names ;;
  match common_path paths with
  | Some p =>
      match last_name p with
      | Some a => Ok a
      | None => Raise TreeError
      end
  | None => Raise TreeError
  end.

(** [common_parent_type], with the tree it queries made explicit. *)
Definition common_parent_type_in (lattice : tree) (type_list : list string)
  : result string :=
  match type_list with
  | [] => Ok "null"
  | [t] => Ok t
  | _ => get_common_ancestor lattice type_list
  end.

Definition common_parent_type (type_list : list string) : result string :=
  common_parent_type_in TYPES_TREE type_list.

End mongo_sql_types.

(** Nesting depth of a value; it bounds the recursion of the flattening. *)
Fixpoint height (v : value) : nat :=
  match v with
  | VDict d => S (fold_right (fun kv h => Nat.max (height (snd kv)) h) O d)
  | VList l => S (fold_right (fun x h => Nat.max (height x) h) O l)
  | _ => O
  end.

(** ** [export.py] *)

Definition row := list value.

(** A [pandas.DataFrame] built from a list of rows and a header. *)
Record DataFrame : Type := mkDataFrame {
  columns : list string;
  rows : list row
}.

(** *** [class _DiffPreProcessing] *)

Module _DiffPreProcessing.

Definition category : string := "diff".

(** [d['prev_schema'] or d['new_schema']]. *)
Definition prev_or_new (d : value) : result value :=
  prev <- getitem d "prev_schema" ;;
  if truthy prev then Ok prev else getitem d "new_schema".

(** The row appended to [table] for one record [d]. *)
Definition table_row (d : value) : result row :=
  h <- getitem d "hierarchy" ;;
  ' (db, coll, hierarchy) <-
    (if negb (truthy h) then
       db <- prev_or_new d ;;
       Ok (db, VStr "", [])
     else
       hierarchy <- (match h with
                     | VStr s => Ok (split_dot s)
                     | _ => Raise AttributeError
                     end) ;;
       match hierarchy with
       | [] => Raise IndexError
       | db :: hierarchy =>
           match hierarchy with
           | [] =>
               coll <- prev_or_new d ;;
               Ok (VStr db, coll, hierarchy)
           | coll :: hierarchy => Ok (VStr db, VStr coll, hierarchy)
           end
       end) ;;
  prev <- getitem d "prev_schema" ;;
  new <- getitem d "new_schema" ;;
  Ok [db; coll; VStr (join_dot hierarchy); prev; new].

Definition header : list string :=
  ["Database"; "Collection"; "Hierarchy"; "Previous Schema"; "New Schema"].

Definition convert_to_dataframe (data : value) : result DataFrame :=
  ds <- iterate data ;;
  table <- mapM table_row ds ;;
  Ok (mkDataFrame header table).

End _DiffPreProcessing.

(** *** [class _SchemaPreProcessing] *)

Module _SchemaPreProcessing.

Definition category : string := "schema".

Definition bookkeeping (k : string) : bool :=
  existsb (String.eqb k)
    ["count"; "types_count"; "prop_in_object"; "array_types_count"].

Fixpoint filter_data (data : value) : value :=
  match data with
  | VDict d =>
      VDict (fold_left
               (fun schema_filtered kv =>
                  if negb (bookkeeping (fst kv))
                  then dict_set schema_filtered (fst kv) (filter_data (snd kv))
                  else schema_filtered)
               d [])
  | _ => data
  end.

(** [re.sub('[^.:]', '', s)]. *)
Fixpoint keep_separators (s : string) : string :=
  match s with
  | EmptyString => EmptyString
  | String c s' =>
      if (c =? ".")%char || (c =? ":")%char
      then String c (keep_separators s')
      else keep_separators s'
  end.

(** [re.sub(c, r, s)] for a pattern matching the single character [c]. *)
Fixpoint replace_char (c : ascii) (r : string) (s : string) : string :=
  match s with
  | EmptyString => EmptyString
  | String a s' =>
      if (a =? c)%char then r ++ replace_char c r s'
      else String a (replace_char c r s')
  end.

Definition _field_compact_name (field : string) (field_schema : value)
    (field_prefix : string) : string :=
  let separators := keep_separators field_prefix in
  let separators := replace_char "." " . " separators in
  let separators := replace_char ":" " : " separators in
  separators ++ field.

Definition _field_depth (field : string) (field_schema : value)
    (field_prefix : string) : Z :=
  let separators := keep_separators field_prefix in
  Z.of_nat (String.length separators).

Definition _field_type (field : string) (field_schema : value)
    (field_prefix : string) : result value :=
  f_type <- getitem field_schema "type" ;;
  if str_eqb "ARRAY" f_type then
    array_type <- getitem field_schema "array_type" ;;
    s <- str_add "ARRAY(" array_type ;;
    Ok (VStr (s ++ ")"))
  else Ok f_type.

Fixpoint format_types_count_fuel (fuel : nat)
    (types_count array_types_count : value) : result string :=
  match fuel with
  | O => Raise RecursionError
  | S fuel' =>
      its <- items types_count ;;
      keyed <- mapM (fun x => match as_int (snd x) with
                              | Some c => Ok (c, x)
                              | None => Raise Unsupported
                              end) its ;;
      let types_count :=
        map snd (sorted_by (fun a b => fst b <=? fst a) keyed) in
      type_count_list <-
        mapM (fun x =>
                let '(type_name, count) := x in
                if (type_name =? "ARRAY")%string then
                  array_type_name <-
                    format_types_count_fuel fuel' array_types_count VNone ;;
                  c <- py_str count ;;
                  Ok ("ARRAY(" ++ array_type_name ++ ") : " ++ c)
                else
                  c <- py_str count ;;
                  Ok (type_name ++ " : " ++ c))
             types_count ;;
      Ok (String.concat ", " type_count_list)
  end.

(** The recursive call passes [None] for [array_types_count], and
    [None.items()] raises: three activations are the most there can be. *)
Definition _format_types_count (types_count array_types_count : value)
  : result string :=
  format_types_count_fuel 3 types_count array_types_count.

(** One entry of the row: [column_functions[column](f, f_schema, f_prefix)]
    or [field_schema.get(column, None)]. *)
Definition column_value (field : string) (field_schema : value)
    (field_prefix : string) (column : string) : result value :=
  let column := lower column in
  if (column =? "field_full_name")%string then
    Ok (VStr (field_prefix ++ field))
  else if (column =? "field_compact_name")%string then
    Ok (VStr (_field_compact_name field field_schema field_prefix))
  else if (column =? "field_name")%string then
    Ok (VStr field)
  else if (column =? "depth")%string then
    Ok (VInt (_field_depth field field_schema field_prefix))
  else if (column =? "type")%string then
    _field_type field field_schema field_prefix
  else if (column =? "percentage")%string then
    p <- getitem field_schema "prop_in_object" ;;
    times_100 p
  else if (column =? "types_count")%string then
    tc <- getitem field_schema "types_count" ;;
    atc <- get field_schema "array_types_count" VNone ;;
    s <- _format_types_count tc atc ;;
    Ok (VStr s)
  else get field_schema column VNone.

Definition _field_schema_to_columns (field : string) (field_schema : value)
    (field_prefix : string) (columns_to_get : list string) : result row :=
  mapM (column_value field field_schema field_prefix) columns_to_get.

(** The key [(-x[1]['count'], x[0])] of a field. *)
Definition sort_key (x : string * value) : result (Z * string) :=
  c <- getitem (snd x) "count" ;;
  n <- neg_int c ;;
  Ok (n, fst x).

(** Lexicographic comparison of two keys. *)
Definition key_leb (a b : Z * string) : bool :=
  (fst a <? fst b) || ((fst a =? fst b) && String.leb (snd a) (snd b)).

(** [sorted(list(object_schema.items()), key=...)]. *)
Definition sorted_fields (its : dict) : result dict :=
  keyed <- mapM (fun x => k <- sort_key x ;; Ok (k, x)) its ;;
  Ok (map snd (sorted_by (fun a b => key_leb (fst a) (fst b)) keyed)).

(** The body of the loop over [sorted_fields]: the field's own line, then
    the lines of its nested object, computed by [self]. *)
Definition field_lines (self : value -> string -> result (list row))
    (columns_to_get : list string) (field_prefix : string)
    (x : string * value) : result (list row) :=
  let '(field, field_schema) := x in
  line_columns <-
    _field_schema_to_columns field field_schema field_prefix columns_to_get ;;
  tc <- getitem field_schema "types_count" ;;
  has_array <- contains "ARRAY" tc ;;
  array_of_object <-
    (if has_array then
       atc <- getitem field_schema "array_types_count" ;;
       contains "OBJECT" atc
     else Ok false) ;;
  if array_of_object then
    o <- getitem field_schema "object" ;;
    nested <- self o (field_prefix ++ field ++ ":") ;;
    Ok (line_columns :: nested)
  else
    tc <- getitem field_schema "types_count" ;;
    has_object <- contains "OBJECT" tc ;;
    if has_object then
      o <- getitem field_schema "object" ;;
      nested <- self o (field_prefix ++ field ++ ".") ;;
      Ok (line_columns :: nested)
    else Ok [line_columns].

Fixpoint line_tuples_fuel (fuel : nat) (object_schema : value)
    (columns_to_get : list string) (field_prefix : string)
  : result (list row) :=
  match fuel with
  | O => Raise RecursionError
  | S fuel' =>
      its <- items object_schema ;;
      sorted_fields <- sorted_fields its ;;
      blocks <-
        mapM (field_lines
                (fun o p => line_tuples_fuel fuel' o columns_to_get p)
                columns_to_get field_prefix)
             sorted_fields ;;
      Ok (concat blocks)
  end.

(** Every recursive call descends into a sub-schema of its argument, so
    [height object_schema] activations can nest at most. *)
Definition _object_schema_to_line_tuples (object_schema : value)
    (columns_to_get : list string) (field_prefix : string)
  : result (list row) :=
  line_tuples_fuel (S (height object_schema)) object_schema
    columns_to_get field_prefix.

(** [sorted(list(d.items()))]: pairs are compared by their first
    component, the key; the keys of a dict are distinct, so two pairs
    never tie on it. *)
Definition sorted_items (d : dict) : dict :=
  sorted_by (fun a b => String.leb (fst a) (fst b)) d.

Definition collection_lines (columns_to_get : list string)
    (database : string) (x : string * value) : result (list row) :=
  let '(collection, collection_schema) := x in
  o <- getitem collection_schema "object" ;;
  collection_line_tuples <-
    _object_schema_to_line_tuples o columns_to_get "" ;;
  Ok (map (fun line => VStr database :: VStr collection :: line)
          collection_line_tuples).

Definition database_lines (columns_to_get : list string)
    (x : string * value) : result (list row) :=
  let '(database, database_schema) := x in
  colls <- items database_schema ;;
  per_collection <-
    mapM (collection_lines columns_to_get database) (sorted_items colls) ;;
  Ok (concat per_collection).

Definition convert_to_dataframe (data : value) (columns_to_get : list string)
  : result DataFrame :=
  dbs <- items data ;;
  per_database <- mapM (database_lines columns_to_get) (sorted_items dbs) ;;
  let line_tuples := concat per_database in
  let header := "Database" :: "Collection" :: columns_to_get in
  Ok (mkDataFrame header line_tuples).

End _SchemaPreProcessing.

(** ** The rest of [mongo_sql_types.py] *)

(** The type of a Python value, as [type(value)] returns it: the types
    [TYPE_TO_STR] names, and any other class, known by its name. *)
Inductive pytype : Type :=
| list_type
| dict_type
| NoneType
| bool_type
| int_type
| Int64
| float_type
| str_type
| unicode_type
| datetime
| Timestamp
| DBRef
| ObjectId
| other_type (name : string).

Definition pytype_eqb (a b : pytype) : bool :=
  match a, b with
  | list_type, list_type | dict_type, dict_type | NoneType, NoneType
  | bool_type, bool_type | int_type, int_type | Int64, Int64
  | float_type, float_type | str_type, str_type | unicode_type, unicode_type
  | datetime, datetime | Timestamp, Timestamp | DBRef, DBRef
  | ObjectId, ObjectId => true
  | other_type n, other_type m => (n =? m)%string
  | _, _ => false
  end.

(** The module-level dict [TYPE_TO_STR], as the module creates it. *)
Definition TYPE_TO_STR : list (pytype * string) :=
  [ (list_type, "ARRAY"); (dict_type, "OBJECT"); (NoneType, "null");
    (bool_type, "boolean"); (int_type, "integer"); (Int64, "biginteger");
    (float_type, "float");
    (str_type, "string"); (unicode_type, "string");
    (datetime, "date"); (Timestamp, "timestamp");
    (DBRef, "dbref"); (ObjectId, "oid") ].

(** What the process holds: the current content of [TYPE_TO_STR] and the
    types [logger.warning] was called about, oldest first. *)
Record registry : Type := mkRegistry {
  type_to_str : list (pytype * string);
  warned : list pytype
}.

Definition initial_registry : registry := mkRegistry TYPE_TO_STR [].

(** [TYPE_TO_STR[value_type]], or [None] where it raises [KeyError]. *)
Fixpoint type_to_str_get (d : list (pytype * string)) (value_type : pytype)
  : option string :=
  match d with
  | [] => None
  | (t, s) :: d' =>
      if pytype_eqb t value_type then Some s else type_to_str_get d' value_type
  end.

(** [type_name(value)], where [value_type] is [type(value)]: the type
    string and the state of the process afterwards. *)
Definition type_name (st : registry) (value_type : pytype) : string * registry :=
  match type_to_str_get (type_to_str st) value_type with
  | Some mongo_type => (mongo_type, st)
  | None =>
      ("unknown",
       mkRegistry (type_to_str st ++ [(value_type, "unknown")])%list
                  (warned st ++ [value_type])%list)
  end.

Definition MONGO_TO_PSQL_TYPE : list (string * string) :=
  [ ("boolean", "BOOLEAN"); ("integer", "INT"); ("biginteger", "BIGINT");
    ("float", "REAL"); ("number", "DOUBLE PRECISION"); ("date", "TIMESTAMP");
    ("string", "TEXT"); ("oid", "TEXT") ].

Fixpoint psql_get (d : list (string * string)) (k : string) : option string :=
  match d with
  | [] => None
  | (k', v) :: d' => if (k' =? k)%string then Some v else psql_get d' k
  end.

(** [psql_type(mongo_type_str)]. *)
Definition psql_type (mongo_type_str : string) : result string :=
  match psql_get MONGO_TO_PSQL_TYPE mongo_type_str with
  | Some psql_type_str => Ok psql_type_str
  | None => Raise (KeyError mongo_type_str)
  end.

(** ** The rest of [export.py] *)

(** [s.endswith(suffix)]. *)
Fixpoint ends_with (s suffix : string) : bool :=
  (s =? suffix)%string ||
  match s with
  | EmptyString => false
  | String _ s' => ends_with s' suffix
  end.

(** [s.split(sep)] for a separator of one character. *)
Fixpoint split_on (sep : ascii) (s : string) : list string :=
  match s with
  | EmptyString => [EmptyString]
  | String c s' =>
      if (c =? sep)%char then EmptyString :: split_on sep s'
      else match split_on sep s' with
           | h :: t => String c h :: t
           | [] => [String c EmptyString]
           end
  end.

(** [BaseOutput.open], up to the call of the opener: the name of the file
    to open, or [None] when the output goes to [sys.stdout]. *)
Definition BaseOutput_open (output_format : string) (filename : value)
  : result (option string) :=
  if negb (truthy filename) then Ok None
  else
    match filename with
    | VStr name =>
        if negb (ends_with name ("." ++ output_format))
        then Ok (Some (name ++ "." ++ output_format))
        else Ok (Some name)
    | _ => Raise AttributeError
    end.

(** *** Classes and [rec_find_right_subclass] *)

(** The value of a class attribute: a string, a list of strings, or an
    object of another kind (a property, a method), which equals no
    string. *)
Inductive attribute : Type :=
| StrAttr (s : string)
| ListAttr (l : list string)
| ObjAttr.

(** A class: its name, what [getattr] finds on it (inherited attributes
    included) and [__subclasses__()], in the order of definition. *)
Inductive class : Type :=
| Class (name : string) (attributes : list (string * attribute))
        (subclasses : list class).

Definition class_name (c : class) : string :=
  match c with Class name _ _ => name end.

Definition __subclasses__ (c : class) : list class :=
  match c with Class _ _ subclasses => subclasses end.

Fixpoint attribute_get (d : list (string * attribute)) (a : string)
  : option attribute :=
  match d with
  | [] => None
  | (k, v) :: d' => if (k =? a)%string then Some v else attribute_get d' a
  end.

(** [getattr(c, a)]. *)
Definition getattr (c : class) (a : string) : result attribute :=
  match c with
  | Class _ attributes _ =>
      match attribute_get attributes a with
      | Some v => Ok v
      | None => Raise AttributeError
      end
  end.

(** [x == v] for an attribute value [x] and a string [v]. *)
Definition attribute_eqb (x : attribute) (v : string) : bool :=
  match x with
  | StrAttr s => (s =? v)%string
  | _ => false
  end.

(** [rec_find_right_subclass(attribute_value, attribute, start_class)].
    The recursive call names no attribute: below the first level the
    default, ['output_format'], is the one compared. *)
Fixpoint rec_find_right_subclass (attribute_value attribute : string)
    (start_class : class) : result (option class) :=
  match start_class with
  | Class _ _ subclasses =>
      (fix loop (l : list class) : result (option class) :=
         match l with
         | [] => Ok None
         | subclass :: l' =>
             x <- getattr subclass attribute ;;
             if attribute_eqb x attribute_value then Ok (Some subclass)
             else
               rec_res <- rec_find_right_subclass attribute_value
                            "output_format" subclass ;;
               match rec_res with
               | Some c => Ok (Some c)
               | None => loop l'
               end
         end) subclasses
  end.

(** The classes of the module that have an [output_format]. *)
Definition JsonOutput : class :=
  Class "JsonOutput" [("output_format", StrAttr "json")] [].

Definition YamlOutput : class :=
  Class "YamlOutput" [("output_format", StrAttr "yaml")] [].

Definition HierarchicalOutput : class :=
  Class "HierarchicalOutput" [("output_format", ObjAttr)]
    [JsonOutput; YamlOutput].

Definition ListOutput_default_columns : list string :=
  ["Field_full_name"; "Depth"; "Field_name"; "Type"].

Definition wide_default_columns : list string :=
  ["Field_compact_name"; "Field_name"; "Full_name"; "Description"; "Count";
   "Percentage"; "Types_count"].

Definition TsvOutput : class :=
  Class "TsvOutput"
    [("output_format", StrAttr "tsv");
     ("default_columns", ListAttr ListOutput_default_columns)] [].

Definition HtmlOutput : class :=
  Class "HtmlOutput"
    [("output_format", StrAttr "html");
     ("default_columns", ListAttr wide_default_columns)] [].

Definition MdOutput : class :=
  Class "MdOutput"
    [("output_format", StrAttr "md");
     ("default_columns", ListAttr wide_default_columns)] [].

Definition XlsxOutput : class :=
  Class "XlsxOutput"
    [("output_format", StrAttr "xlsx");
     ("default_columns", ListAttr ListOutput_default_columns)] [].

Definition ListOutput : class :=
  Class "ListOutput"
    [("output_format", ObjAttr);
     ("default_columns", ListAttr ListOutput_default_columns)]
    [TsvOutput; HtmlOutput; MdOutput; XlsxOutput].

Definition BaseOutput : class :=
  Class "BaseOutput" [("output_format", ObjAttr)]
    [HierarchicalOutput; ListOutput].

(** The classes of the module that have a [category]. *)
Definition DiffPreProcessing_class : class :=
  Class "_DiffPreProcessing" [("category", StrAttr "diff")] [].

Definition SchemaPreProcessing_class : class :=
  Class "_SchemaPreProcessing" [("category", StrAttr "schema")] [].

Definition OutputPreProcessing : class :=
  Class "OutputPreProcessing" [("category", ObjAttr)]
    [DiffPreProcessing_class; SchemaPreProcessing_class].

(** [OutputPreProcessing(category)]: [__new__] hands the class found to
    [object.__new__], which refuses [None]. *)
Definition OutputPreProcessing_new (category : string) : result class :=
  found <- rec_find_right_subclass category "category" OutputPreProcessing ;;
  match found with
  | Some cls => Ok cls
  | None => Raise TypeError
  end.

(** [data_processor.filter_data(data)]: overridden by
    [_SchemaPreProcessing], inherited from [OutputPreProcessing], where it
    returns [data], by the other classes. *)
Definition processor_filter_data (data_processor : class) (data : value)
  : value :=
  if (class_name data_processor =? "_SchemaPreProcessing")%string
  then _SchemaPreProcessing.filter_data data
  else data.

(** [data_processor.convert_to_dataframe(data, columns_to_get=...)]: the
    diff strategy takes the columns as one of its [**kwargs] and does not
    read them. *)
Definition processor_convert_to_dataframe (data_processor : class)
    (data : value) (columns_to_get : list string) : result DataFrame :=
  if (class_name data_processor =? "_SchemaPreProcessing")%string
  then _SchemaPreProcessing.convert_to_dataframe data columns_to_get
  else _DiffPreProcessing.convert_to_dataframe data.

(** [HierarchicalOutput.__init__]: the value of [self.data]. *)
Definition HierarchicalOutput_init (data : value) (category : string)
    (without_counts : bool) : result value :=
  data_processor <- OutputPreProcessing_new category ;;
  if without_counts then Ok (processor_filter_data data_processor data)
  else Ok data.

(** [columns_to_get.split(" ") if columns_to_get else self.default_columns]. *)
Definition columns_argument (self : class) (columns_to_get : value)
  : result (list string) :=
  if truthy columns_to_get then
    match columns_to_get with
    | VStr s => Ok (split_on " " s)
    | _ => Raise AttributeError
    end
  else
    x <- getattr self "default_columns" ;;
    match x with
    | ListAttr l => Ok l
    | _ => Raise TypeError
    end.

(** [ListOutput.__init__]: the value of [self.data_df]. *)
Definition ListOutput_init (self : class) (data : value) (category : string)
    (columns_to_get : value) : result DataFrame :=
  data_processor <- OutputPreProcessing_new category ;;
  cols <- columns_argument self columns_to_get ;;
  processor_convert_to_dataframe data_processor data cols.

(** What an output object holds once built: the data of a hierarchical
    output, or the data frame of a list output. *)
Inductive output_maker : Type :=
| HierarchicalMaker (cls : class) (data : value)
| ListMaker (cls : class) (data_df : DataFrame).

Definition supported_formats : list string :=
  ["tsv"; "xlsx"; "json"; "yaml"; "html"; "md"].

(** [set(output_formats) - {'tsv', 'xlsx', 'json', 'yaml', 'html', 'md'}],
    listed in the order of [output_formats]. *)
Definition wrong_formats (output_formats : list string) : list string :=
  filter (fun f => negb (existsb (String.eqb f) supported_formats))
         output_formats.

(** [rec_find_right_subclass(output_format)(output_dict, ...)]: calling
    [None] raises [TypeError]; a class below [HierarchicalOutput] runs its
    [__init__], any other that of [ListOutput]. *)
Definition make_output (output_format : string) (output_dict : value)
    (columns_to_get : value) (without_counts : bool) (category : string)
  : result output_maker :=
  found <- rec_find_right_subclass output_format "output_format" BaseOutput ;;
  match found with
  | None => Raise TypeError
  | Some cls =>
      if existsb (fun c => (class_name c =? class_name cls)%string)
                 (__subclasses__ HierarchicalOutput)
      then
        data <- HierarchicalOutput_init output_dict category without_counts ;;
        Ok (HierarchicalMaker cls data)
      else
        data_df <- ListOutput_init cls output_dict category columns_to_get ;;
        Ok (ListMaker cls data_df)
  end.

(** The class of an output object. *)
Definition maker_class (m : output_maker) : class :=
  match m with
  | HierarchicalMaker cls _ => cls
  | ListMaker cls _ => cls
  end.

(** *** Opening, writing and closing *)

(** An exception that leaves [write_output_dict]: one of the exceptions of
    the code, or one raised inside a library or by the file system, known
    by the name of its class. *)
Inductive raised : Type :=
| Raised (e : exn)
| LibraryError (name : string).

(** What [write_data] is handed as [file_descr]: [sys.stdout], the file
    object that [open] or [codecs.open] returned for a name, or, for
    [XlsxOutput], the name itself. *)
Inductive file_descr : Type :=
| Stdout
| FileObject (name : string)
| FileName (name : string).

(** The calls whose outcome the code does not decide: opening and closing
    a file, and what the [write_data] methods hand to [json], [yaml],
    [pandas], [jinja2] and [openpyxl].  The bodies of
    [HtmlOutput.write_data] and [MdOutput.write_data] are one call each;
    [to_excel_existing] stands for the branch of [XlsxOutput.write_data]
    that prints that the file exists and loads its workbook, [to_excel]
    for the other.  What is printed or written is the libraries' doing
    and is not recorded. *)
Inductive library_call : Type :=
| open_w (name : string)
| codecs_open_w (name : string)
| close_file (name : string)
| json_dump (data : value) (file : file_descr)
| yaml_safe_dump (data : value) (file : file_descr)
| to_csv (data_df : DataFrame) (file : file_descr)
| render_html (data_df : DataFrame) (file : file_descr)
| render_md (data_df : DataFrame) (file : file_descr)
| to_excel_existing (data_df : DataFrame) (name : string)
| to_excel (data_df : DataFrame) (name : string).

(** The world the code runs in: for each such call, the class of the
    exception it raises, or [None] when it returns; and
    [os.path.isfile]. *)
Record environment : Type := mkEnvironment {
  raises : library_call -> option string;
  isfile : string -> bool
}.

Definition call (env : environment) (c : library_call) : option raised :=
  option_map LibraryError (raises env c).

Inductive opened : Type :=
| Opened (file : file_descr)
| NotOpened (e : raised).

(** [self.opener()(filename)] for a file name: [XlsxOutput] returns the
    name; [JsonOutput], [HtmlOutput] and [MdOutput] use [codecs.open]; the
    other classes inherit [open] with [mode='w']. *)
Definition opener (env : environment) (cls : class) (filename : string)
  : opened :=
  if (class_name cls =? "XlsxOutput")%string then Opened (FileName filename)
  else
    let c :=
      if existsb (String.eqb (class_name cls))
           ["JsonOutput"; "HtmlOutput"; "MdOutput"]
      then codecs_open_w filename
      else open_w filename in
    match raises env c with
    | Some name => NotOpened (LibraryError name)
    | None => Opened (FileObject filename)
    end.

(** The rest of [BaseOutput.open] up to the [yield]: with no file name
    the opener is [_stdout_opener], for every class. *)
Definition open_file (env : environment) (cls : class)
    (target : option string) : opened :=
  match target with
  | None => Opened Stdout
  | Some filename => opener env cls filename
  end.

(** [self.write_data(file_descr)]: the exception it raises, if any.
    [XlsxOutput.write_data] calls [os.path.isfile(file_descr)] first,
    which raises [TypeError] on anything but a name. *)
Definition write_data (env : environment) (self : output_maker)
    (file : file_descr) : option raised :=
  match self with
  | HierarchicalMaker cls data =>
      if (class_name cls =? "JsonOutput")%string
      then call env (json_dump data file)
      else call env (yaml_safe_dump data file)
  | ListMaker cls data_df =>
      if (class_name cls =? "TsvOutput")%string
      then call env (to_csv data_df file)
      else if (class_name cls =? "HtmlOutput")%string
      then call env (render_html data_df file)
      else if (class_name cls =? "MdOutput")%string
      then call env (render_md data_df file)
      else
        match file with
        | FileName name =>
            if isfile env name
            then call env (to_excel_existing data_df name)
            else call env (to_excel data_df name)
        | _ => Some (Raised TypeError)
        end
  end.

(** [self.closer(file_descr)]: [close] is called on a file object, and an
    [AttributeError] is passed over; a name has no [close], and with no
    file name the closer is [_stdout_closer]. *)
Definition closer (env : environment) (file : file_descr) : option raised :=
  match file with
  | FileObject name =>
      match raises env (close_file name) with
      | Some e =>
          if (e =? "AttributeError")%string then None
          else Some (LibraryError e)
      | None => None
      end
  | _ => None
  end.

(** How [write_output_dict] ends: with the [ValueError] about unsupported
    formats, before anything is written; with every format written; or
    with an exception after the outputs of the formats before it were
    written.  An output is listed with the file name [BaseOutput.open]
    made for it, [None] for standard output. *)
Inductive written : Type :=
| ValueError (wrong : list string)
| Completed (outputs : list (option string * output_maker))
| Interrupted (outputs : list (option string * output_maker)) (e : raised).

(** The loop of [write_output_dict].  The body of the [with] statement is
    [write_data]; the [finally] of [BaseOutput.open] runs the closer
    whether it raised or not, and what the closer raises is what leaves. *)
Fixpoint write_outputs (env : environment) (output_formats : list string)
    (output_dict : value) (output_filename columns_to_get : value)
    (without_counts : bool) (category : string)
    (done : list (option string * output_maker)) : written :=
  match output_formats with
  | [] => Completed done
  | output_format :: rest =>
      match make_output output_format output_dict columns_to_get
              without_counts category with
      | Raise e => Interrupted done (Raised e)
      | Ok output_maker =>
          match BaseOutput_open output_format output_filename with
          | Raise e => Interrupted done (Raised e)
          | Ok target =>
              match open_file env (maker_class output_maker) target with
              | NotOpened e => Interrupted done e
              | Opened file =>
                  match closer env file, write_data env output_maker file with
                  | Some e, _ => Interrupted done e
                  | None, Some e => Interrupted done e
                  | None, None =>
                      write_outputs env rest output_dict output_filename
                        columns_to_get without_counts category
                        (done ++ [(target, output_maker)])%list
                  end
              end
          end
      end
  end.

(** [write_output_dict(output_dict, arg)], with the entries of [arg] as
    arguments. *)
Definition write_output_dict (env : environment) (output_dict : value)
    (output_formats : list string) (output_filename columns_to_get : value)
    (without_counts : bool) (category : string) : written :=
  match wrong_formats output_formats with
  | [] =>
      write_outputs env output_formats output_dict output_filename
        columns_to_get without_counts category []
  | wrong => ValueError wrong
  end.

(** * Vocabulary of the properties *)

Import mongo_sql_types.

Import _SchemaPreProcessing.

(** ** Rows of the diff strategy *)

(** How one record's hierarchy path [h] and labels [p] (previous schema)
    and [n] (new schema) determine the database, collection and remaining
    hierarchy of its row. *)
Definition diff_columns (h p n db coll : value) (rest : string) : Prop :=
  (truthy h = false /\ db = py_or p n /\ coll = VStr "" /\ rest = "")
  \/ (exists s d0, h = VStr s /\ s <> "" /\ split_dot s = [d0]
        /\ db = VStr d0 /\ coll = py_or p n /\ rest = "")
  \/ (exists s d0 c0 r0, h = VStr s /\ split_dot s = d0 :: c0 :: r0
        /\ db = VStr d0 /\ coll = VStr c0 /\ rest = join_dot r0).

(** ** Text of a [types_count] mapping *)

(** A [types_count] mapping, from type names to occurrence counts, as the
    Python dict it is. *)
Definition types_count_dict (tc : list (string * Z)) : value :=
  VDict (map (fun x => (fst x, VInt (snd x))) tc).


(** [a] may stand before [b]: its count is not smaller. *)
Definition count_geb (a b : string * Z) : bool := snd b <=? snd a.

(** ** Filtering *)

(** One iteration of the loop of [filter_data]. *)
Definition filter_step (schema_filtered : dict) (kv : string * value) : dict :=
  if negb (bookkeeping (fst kv))
  then dict_set schema_filtered (fst kv) (filter_data (snd kv))
  else schema_filtered.

(** The entries kept, each with its value filtered in turn. *)
Definition kept_entries (d : dict) : dict :=
  map (fun kv => (fst kv, filter_data (snd kv)))
      (filter (fun kv => negb (bookkeeping (fst kv))) d).

(** No dict of [v], reached through dicts, has a bookkeeping key. *)
Fixpoint no_bookkeeping (v : value) : bool :=
  match v with
  | VDict d =>
      forallb (fun kv => negb (bookkeeping (fst kv)) && no_bookkeeping (snd kv)) d
  | _ => true
  end.

(** The value found in [v] by following the keys of [path] through nested
    dicts: [v[k1][k2]...], when every step is a dict that has the key. *)
Fixpoint lookup_path (path : list string) (v : value) : option value :=
  match path with
  | [] => Some v
  | k :: path' =>
      match v with
      | VDict d =>
          match lookup k d with
          | Some w => lookup_path path' w
          | None => None
          end
      | _ => None
      end
  end.

(** ** Fields of an object schema *)

(** The occurrence count of a field, when its schema records one. *)
Definition field_count (field_schema : value) : option Z :=
  match getitem field_schema "count" with
  | Ok c => as_int c
  | Raise _ => None
  end.


(** The key of a field, for fields that have one. *)
Definition key_of (x : string * value) : Z * string :=
  match sort_key x with
  | Ok k => k
  | Raise _ => (0, "")
  end.

(** The types recorded under the attribute [attr] of a field schema
    include [k]. *)
Definition has_type (k attr : string) (field_schema : value) : bool :=
  match getitem field_schema attr with
  | Ok tc =>
      match contains k tc with
      | Ok b => b
      | Raise _ => false
      end
  | Raise _ => false
  end.

(** The field holds arrays, and objects are among their elements. *)
Definition array_of_object (field_schema : value) : bool :=
  has_type "ARRAY" "types_count" field_schema
  && has_type "OBJECT" "array_types_count" field_schema.

(** The field holds objects. *)
Definition plain_object (field_schema : value) : bool :=
  has_type "OBJECT" "types_count" field_schema.

(** The field schema records its types as the data model has them: a
    [types_count] dict and, when ['ARRAY'] is one of its keys, an
    [array_types_count] dict. *)
Definition types_recorded (field_schema : value) : Prop :=
  exists tc,
    getitem field_schema "types_count" = Ok (VDict tc)
    /\ (In "ARRAY" (keys tc) ->
        exists atc, getitem field_schema "array_types_count" = Ok (VDict atc)).

(** A field with object samples and array-of-object samples. *)
Definition mixed_field : value :=
  VDict [("count", VInt 2);
         ("types_count", VDict [("OBJECT", VInt 1); ("ARRAY", VInt 1)]);
         ("array_types_count", VDict [("OBJECT", VInt 1)]);
         ("object",
          VDict [("x", VDict [("count", VInt 2);
                              ("types_count", VDict [("integer", VInt 2)])])])].

(** ** Counting fields *)

(** The number of fields of an object schema at all nesting levels: each
    field counts for one, plus the fields of its nested object when the
    field holds objects or arrays of objects. *)
Fixpoint total_fields (object_schema : value) : nat :=
  match object_schema with
  | VDict its =>
      fold_right
        (fun x acc =>
           S ((if array_of_object (snd x) || plain_object (snd x) then
                 match snd x with
                 | VDict attrs =>
                     fold_right
                       (fun kv r =>
                          if (fst kv =? "object")%string
                          then total_fields (snd kv) else r)
                       O attrs
                 | _ => O
                 end
               else O) + acc)%nat)
        O its
  | _ => O
  end.

(** The fields below one field. *)
Definition nested_fields (field_schema : value) : nat :=
  if array_of_object field_schema || plain_object field_schema then
    match getitem field_schema "object" with
    | Ok o => total_fields o
    | Raise _ => O
    end
  else O.

(** The fields of all collections of all databases of a full schema. *)
Definition collection_fields (x : string * value) : nat :=
  match getitem (snd x) "object" with
  | Ok o => total_fields o
  | Raise _ => O
  end.

Definition database_fields (x : string * value) : nat :=
  match snd x with
  | VDict colls => list_sum (map collection_fields colls)
  | _ => O
  end.

Definition schema_fields (data : value) : nat :=
  match data with
  | VDict dbs => list_sum (map database_fields dbs)
  | _ => O
  end.

(** ** Well-formed schemas *)

Definition is_ok {A : Type} (r : result A) : bool :=
  match r with
  | Ok _ => true
  | Raise _ => false
  end.

(** [types_recorded], as a test. *)
Definition types_ok (field_schema : value) : bool :=
  match getitem field_schema "types_count" with
  | Ok (VDict tc) =>
      if existsb (String.eqb "ARRAY") (keys tc) then
        match getitem field_schema "array_types_count" with
        | Ok (VDict _) => true
        | _ => false
        end
      else true
  | _ => false
  end.

(** An object schema whose fields, at all levels, have an integer count,
    record their types, provide the requested columns and carry the nested
    object their types announce. *)
Fixpoint well_formed (cols : list string) (object_schema : value) : bool :=
  match object_schema with
  | VDict its =>
      forallb
        (fun x =>
           match field_count (snd x) with Some _ => true | None => false end
           && types_ok (snd x)
           && is_ok (_field_schema_to_columns "" (snd x) "" cols)
           && (if array_of_object (snd x) || plain_object (snd x) then
                 match snd x with
                 | VDict attrs =>
                     fold_right
                       (fun kv r =>
                          if (fst kv =? "object")%string
                          then well_formed cols (snd kv) else r)
                       false attrs
                 | _ => false
                 end
               else true))
        its
  | _ => false
  end.

Definition well_formed_schema (cols : list string) (data : value) : bool :=
  match data with
  | VDict dbs =>
      forallb
        (fun db =>
           match snd db with
           | VDict colls =>
               forallb
                 (fun c =>
                    match getitem (snd c) "object" with
                    | Ok o => well_formed cols o
                    | Raise _ => false
                    end)
                 colls
           | _ => false
           end)
        dbs
  | _ => false
  end.

(** ** A schema to run on *)

(** A field holding values of one scalar type. *)
Definition scalar_field (count : Z) (type : string) : value :=
  VDict [("count", VInt count);
         ("type", VStr type);
         ("types_count", VDict [(type, VInt count)]);
         ("prop_in_object", VFloat 1)].

(** A collection with a scalar field and an array-of-object field that
    has two sub-fields. *)
Definition example_collection : value :=
  VDict [("object",
          VDict [("tags",
                  VDict [("count", VInt 7);
                         ("type", VStr "ARRAY");
                         ("array_type", VStr "OBJECT");
                         ("types_count", VDict [("ARRAY", VInt 7)]);
                         ("array_types_count", VDict [("OBJECT", VInt 9)]);
                         ("prop_in_object", VFloat 0.75);
                         ("object",
                          VDict [("label", scalar_field 9 "string");
                                 ("weight", scalar_field 9 "float")])]);
                 ("name", scalar_field 10 "string")])].

Definition example_schema : value :=
  VDict [("shop", VDict [("items", example_collection)]);
         ("blog", VDict [("posts", example_collection)])].

(** A field that holds objects as well as arrays of scalars. *)
Definition scalar_array_and_object_field : value :=
  VDict [("count", VInt 2);
         ("types_count", VDict [("ARRAY", VInt 1); ("OBJECT", VInt 1)]);
         ("array_types_count", VDict [("integer", VInt 3)]);
         ("object", VDict [("x", scalar_field 1 "string")])].

(** ** Order of rows *)




(** The keys of every dict in [v] are pairwise distinct. *)
Fixpoint distinct_keys (v : value) : Prop :=
  match v with
  | VDict d =>
      NoDup (map fst d)
      /\ fold_right (fun kv P => distinct_keys (snd kv) /\ P) True d
  | VList l => fold_right (fun x P => distinct_keys x /\ P) True l
  | _ => True
  end.



(** ** Names and depths of nested fields *)

(** The number of separators in a prefix. *)
Definition depth_of (field_prefix : string) : Z :=
  Z.of_nat (String.length (keep_separators field_prefix)).

(** The separators of a prefix, in order, each between two blanks. *)
Fixpoint separator_marks (field_prefix : string) : string :=
  match field_prefix with
  | EmptyString => EmptyString
  | String c s' =>
      if (c =? ".")%char || (c =? ":")%char
      then String " " (String c (String " " (separator_marks s')))
      else separator_marks s'
  end.

(** [line] is the row of some field that sits at [p] or below it. *)
Definition line_under (cols : list string) (p : string) (line : row) : Prop :=
  exists q f fs, _field_schema_to_columns f fs (p ++ q) cols = Ok line.

(** The rows of a data frame, when one was built. *)
Definition frame_rows (r : result DataFrame) : result (list row) :=
  df <- r ;; Ok (rows df).

(** ** Class trees *)

(** Nesting depth of a class tree. *)
Fixpoint class_height (c : class) : nat :=
  match c with
  | Class _ _ subclasses =>
      S (fold_right (fun s h => Nat.max (class_height s) h) O subclasses)
  end.

(** The classes below [c], depth first, in the order of definition. *)
Fixpoint descendants (c : class) : list class :=
  match c with
  | Class _ _ subclasses => flat_map (fun s => s :: descendants s) subclasses
  end.

(** The class has the value [attribute_value] for [attribute]. *)
Definition has_attribute_value (attribute attribute_value : string) (c : class)
  : bool :=
  match getattr c attribute with
  | Ok x => attribute_eqb x attribute_value
  | Raise _ => false
  end.

(** The classes below [start_class], depth first, each with the attribute
    it is looked at for: [attribute] for the direct subclasses,
    ['output_format'] for the classes below them. *)
Definition candidates (attribute : string) (start_class : class)
  : list (class * string) :=
  flat_map (fun s => (s, attribute)
                     :: map (fun c => (c, "output_format")) (descendants s))
           (__subclasses__ start_class).

(** The candidate is the one looked for. *)
Definition right_candidate (attribute_value : string) (x : class * string)
  : bool :=
  has_attribute_value (snd x) attribute_value (fst x).

(** ** Formats and files *)




(** The string has no ['.']. *)
Fixpoint dot_free (s : string) : bool :=
  match s with
  | EmptyString => true
  | String c s' => negb (c =? ".")%char && dot_free s'
  end.

(** ** Calls of [type_name] *)

(** The state of the process after [type_name] was called on values of
    the types [ts], in turn, starting from [st]. *)
Definition after_calls (st : registry) (ts : list pytype) : registry :=
  fold_left (fun st t => snd (type_name st t)) ts st.

(** The type is a key of [TYPE_TO_STR] as the module creates it. *)
Definition mapped (t : pytype) : bool :=
  match type_to_str_get TYPE_TO_STR t with
  | Some _ => true
  | None => false
  end.

(** The types [psql_type] has a PSQL type for, through [type_name]. *)
Definition psql_types : list pytype :=
  [bool_type; int_type; Int64; float_type; str_type; unicode_type;
   datetime; ObjectId].

(** * Properties *)

(** ** The [result] monad and loops *)

Lemma bind_ok {A B : Type} (m : result A) (f : A -> result B) (b : B) :
  bind m f = Ok b -> exists a, m = Ok a /\ f a = Ok b.
Proof.
  destruct m as [a|e]; simpl; intros H; [eauto | discriminate].
Qed.

Ltac bind_inv H :=
  let a := fresh "a" in
  let Ha := fresh "Ha" in
  apply bind_ok in H; destruct H as (a & Ha & H).

Lemma mapM_ok {A B : Type} (f : A -> result B) (l : list A) (ys : list B) :
  mapM f l = Ok ys -> Forall2 (fun x y => f x = Ok y) l ys.
Proof.
  revert ys; induction l as [|x l IH]; simpl; intros ys H.
  - injection H as <-. constructor.
  - bind_inv H. bind_inv H. injection H as <-. constructor; auto.
Qed.

Lemma mapM_of_Forall2 {A B : Type} (f : A -> result B) (l : list A) (ys : list B) :
  Forall2 (fun x y => f x = Ok y) l ys -> mapM f l = Ok ys.
Proof.
  induction 1 as [|x y l ys Hxy _ IH]; simpl; [reflexivity|].
  rewrite Hxy, IH. reflexivity.
Qed.

Lemma mapM_ext_in {A B : Type} (f g : A -> result B) (l : list A) :
  (forall x, In x l -> f x = g x) -> mapM f l = mapM g l.
Proof.
  induction l as [|x l IH]; simpl; intros H; [reflexivity|].
  rewrite (H x) by auto. rewrite IH by auto. reflexivity.
Qed.

Lemma mapM_pure {A B : Type} (f : A -> B) (l : list A) :
  mapM (fun x => Ok (f x)) l = Ok (map f l).
Proof.
  induction l as [|x l IH]; simpl; [reflexivity|]. rewrite IH. reflexivity.
Qed.

(** ** [common_parent_type] *)

(** C7. [common_parent_type] returns ['null'] for the empty list and, for a
    one-element list [[t]], [t] itself.  The lattice is not consulted:
    the answer is the same whatever tree is queried, and a type without a
    node (such as ['ARRAY']) is returned unchanged although any query that
    does reach the lattice with it fails. *)
Theorem common_parent_type_empty_singleton :
  common_parent_type [] = Ok "null"
  /\ (forall t, common_parent_type [t] = Ok t)
  /\ (forall lattice, common_parent_type_in lattice [] = Ok "null")
  /\ (forall lattice t, common_parent_type_in lattice [t] = Ok t)
  /\ (~ In "ARRAY" (nodes TYPES_TREE)
      /\ common_parent_type ["ARRAY"] = Ok "ARRAY"
      /\ common_parent_type ["ARRAY"; "integer"] = Raise (LookupError "ARRAY")).
Proof.
  repeat split; try reflexivity.
  intros H. simpl in H.
  repeat (destruct H as [H|H]; [discriminate|]). exact H.
Qed.

(** ** [_field_type] *)

(** C10. For a field schema whose ['type'] is ['ARRAY'], the type column
    reads the key ['array_type'] of the field schema and renders
    ['ARRAY(<that value>)'] (a value that is not a string cannot be
    appended to ['ARRAY('] and raises [TypeError]).  When the key is absent
    the computation raises [KeyError], also through the ['type'] column of
    a row; no sentinel is produced, unlike the lookup of an unrecognised
    column, which yields [None]. *)
Theorem field_type_array_reads_array_type :
  forall (field field_prefix : string) (fs : dict),
    lookup "type" fs = Some (VStr "ARRAY") ->
    (forall t, lookup "array_type" fs = Some (VStr t) ->
       _field_type field (VDict fs) field_prefix = Ok (VStr ("ARRAY(" ++ t ++ ")")))
    /\ (forall v, lookup "array_type" fs = Some v -> (forall t, v <> VStr t) ->
        _field_type field (VDict fs) field_prefix = Raise TypeError)
    /\ (lookup "array_type" fs = None ->
        _field_type field (VDict fs) field_prefix = Raise (KeyError "array_type")
        /\ _field_schema_to_columns field (VDict fs) field_prefix ["Type"]
           = Raise (KeyError "array_type")
        /\ _field_schema_to_columns field (VDict fs) field_prefix ["array_type"]
           = Ok [VNone]).
Proof.
  intros field field_prefix fs Htype. split; [|split].
  - intros t Ht. unfold _field_type. simpl. rewrite Htype. simpl.
    rewrite Ht. simpl. reflexivity.
  - intros v Hv Hns. unfold _field_type. simpl. rewrite Htype. simpl.
    rewrite Hv. simpl. destruct v; try reflexivity.
    exfalso. exact (Hns s eq_refl).
  - intros Hnone.
    assert (E : _field_type field (VDict fs) field_prefix
                = Raise (KeyError "array_type")).
    { unfold _field_type. simpl. rewrite Htype. simpl. rewrite Hnone.
      reflexivity. }
    repeat split.
    + exact E.
    + unfold _field_schema_to_columns, mapM, column_value.
      change (lower "Type") with "type". simpl. rewrite E. reflexivity.
    + unfold _field_schema_to_columns, mapM, column_value.
      change (lower "array_type") with "array_type". simpl.
      rewrite Hnone. reflexivity.
Qed.

Lemma field_type_array_reads_array_type_witness :
  (_field_type "tags" (VDict [("type", VStr "ARRAY"); ("array_type", VStr "string")]) ""
   = Ok (VStr "ARRAY(string)"))
  /\ (_field_type "tags" (VDict [("type", VStr "ARRAY")]) "" = Raise (KeyError "array_type")).
Proof.
  split.
  - exact (proj1 (field_type_array_reads_array_type "tags" ""
             [("type", VStr "ARRAY"); ("array_type", VStr "string")] eq_refl)
             "string" eq_refl).
  - exact (proj1 (proj2 (proj2 (field_type_array_reads_array_type "tags" ""
             [("type", VStr "ARRAY")] eq_refl)) eq_refl)).
Defined.

(** ** The diff strategy *)

Lemma split_dot_not_nil (s : string) : split_dot s <> [].
Proof.
  destruct s as [|c s]; simpl; [discriminate|].
  destruct (c =? ".")%char; [discriminate|].
  destruct (split_dot s); discriminate.
Qed.

Lemma prev_or_new_eq (d p n : value) :
  getitem d "prev_schema" = Ok p -> getitem d "new_schema" = Ok n ->
  _DiffPreProcessing.prev_or_new d = Ok (py_or p n).
Proof.
  intros Hp Hn. unfold _DiffPreProcessing.prev_or_new, py_or.
  rewrite Hp. simpl. destruct (truthy p); auto.
Qed.

Lemma table_row_ok (d : value) (s : string) (p n : value) :
  getitem d "hierarchy" = Ok (VStr s) ->
  getitem d "prev_schema" = Ok p -> getitem d "new_schema" = Ok n ->
  exists r, _DiffPreProcessing.table_row d = Ok r.
Proof.
  intros Hh Hp Hn. unfold _DiffPreProcessing.table_row.
  rewrite Hh. cbn [bind]. rewrite (prev_or_new_eq d p n Hp Hn).
  destruct (negb (truthy (VStr s))).
  - cbn [bind]. rewrite Hp, Hn. cbn [bind]. eauto.
  - cbn [bind]. destruct (split_dot s) as [|d0 [|c0 r0]] eqn:E.
    + exfalso. exact (split_dot_not_nil s E).
    + cbn [bind]. rewrite Hp, Hn. cbn [bind]. eauto.
    + cbn [bind]. rewrite Hp, Hn. cbn [bind]. eauto.
Qed.

Lemma table_row_columns (d : value) (r : row) :
  _DiffPreProcessing.table_row d = Ok r ->
  exists h p n db coll rest,
    getitem d "hierarchy" = Ok h /\ getitem d "prev_schema" = Ok p
    /\ getitem d "new_schema" = Ok n
    /\ r = [db; coll; VStr rest; p; n]
    /\ diff_columns h p n db coll rest.
Proof.
  unfold _DiffPreProcessing.table_row. intros H.
  apply bind_ok in H. destruct H as (h & Hh & H).
  apply bind_ok in H. destruct H as ([[db coll] hier] & Hsplit & H).
  apply bind_ok in H. destruct H as (p & Hp & H).
  apply bind_ok in H. destruct H as (n & Hn & H).
  injection H as <-.
  exists h, p, n, db, coll, (join_dot hier). repeat split; auto.
  assert (Hor := fun x Hx => prev_or_new_eq d p x Hp Hx).
  destruct (truthy h) eqn:Ht; cbn [negb] in Hsplit.
  - destruct h; try discriminate Hsplit. cbn [bind] in Hsplit.
    destruct (split_dot s) as [|d0 [|c0 r0]] eqn:E; try discriminate Hsplit.
    + rewrite (Hor n Hn) in Hsplit. injection Hsplit as <- <- <-.
      right; left. exists s, d0. repeat split; auto.
      intros ->. discriminate Ht.
    + injection Hsplit as <- <- <-.
      right; right. exists s, d0, c0, r0. repeat split; auto.
  - rewrite (Hor n Hn) in Hsplit. injection Hsplit as <- <- <-.
    left. repeat split; auto.
Qed.

(** C4, as stated, fails: a one-segment path has fewer than two segments,
    yet the collection of its row is the record's previous-schema label,
    not the empty string. *)
Lemma diff_one_segment_collection_not_empty :
  (length (split_dot "db") < 2)%nat
  /\ _DiffPreProcessing.convert_to_dataframe
       (VList [VDict [("hierarchy", VStr "db");
                      ("prev_schema", VStr "users");
                      ("new_schema", VNone)]])
     = Ok (mkDataFrame _DiffPreProcessing.header
             [[VStr "db"; VStr "users"; VStr ""; VStr "users"; VNone]])
  /\ VStr "users" <> VStr "".
Proof.
  repeat split; [simpl; lia | discriminate].
Qed.

(** C4, amended.  The diff strategy turns each record into the row
    database / collection / remaining hierarchy / previous / new.  The
    hierarchy path is split on ['.']: with two segments or more, the first
    is the database, the second the collection and the others, joined by
    ['.'], the remaining hierarchy.  With exactly one segment, that segment
    is the database and the collection is the previous-schema label, or the
    new-schema label when the previous one is falsy.  With an empty path,
    that label is the database and the collection is the empty string.
    Records that carry the three keys and a string path always convert. *)
Theorem diff_rows_from_hierarchy :
  forall data : list value,
    (Forall (fun d => exists s p n,
               getitem d "hierarchy" = Ok (VStr s)
               /\ getitem d "prev_schema" = Ok p
               /\ getitem d "new_schema" = Ok n) data ->
     exists df, _DiffPreProcessing.convert_to_dataframe (VList data) = Ok df)
    /\ (forall df,
          _DiffPreProcessing.convert_to_dataframe (VList data) = Ok df ->
          columns df = ["Database"; "Collection"; "Hierarchy";
                        "Previous Schema"; "New Schema"]
          /\ Forall2 (fun d r =>
                        exists h p n db coll rest,
                          getitem d "hierarchy" = Ok h
                          /\ getitem d "prev_schema" = Ok p
                          /\ getitem d "new_schema" = Ok n
                          /\ r = [db; coll; VStr rest; p; n]
                          /\ diff_columns h p n db coll rest)
                     data (rows df)).
Proof.
  intros data. unfold _DiffPreProcessing.convert_to_dataframe. cbn [iterate bind].
  split.
  - intros Hwf.
    assert (exists table, mapM _DiffPreProcessing.table_row data = Ok table) as [table Ht].
    { induction Hwf as [|d l (s & p & n & Hh & Hp & Hn) _ [t IH]]; simpl.
      - eauto.
      - destruct (table_row_ok d s p n Hh Hp Hn) as [r Hr].
        rewrite Hr, IH. simpl. eauto. }
    rewrite Ht. simpl. eauto.
  - intros df H. apply bind_ok in H. destruct H as (table & Ht & H).
    injection H as <-. simpl. split; [reflexivity|].
    apply mapM_ok in Ht.
    induction Ht as [|d r l rs Hr _ IH]; constructor; auto.
    apply table_row_columns. exact Hr.
Qed.

Lemma diff_rows_from_hierarchy_witness :
  exists df,
    _DiffPreProcessing.convert_to_dataframe
      (VList [VDict [("hierarchy", VStr "db.users.name");
                     ("prev_schema", VStr "string");
                     ("new_schema", VStr "integer")]]) = Ok df.
Proof.
  apply (proj1 (diff_rows_from_hierarchy
                  [VDict [("hierarchy", VStr "db.users.name");
                          ("prev_schema", VStr "string");
                          ("new_schema", VStr "integer")]])).
  constructor; [|constructor].
  exists "db.users.name", (VStr "string"), (VStr "integer").
  repeat split; reflexivity.
Defined.

(** ** [sorted] is a stable sort *)

Section SortedFacts.
Context {A : Type}.
Variable leb : A -> A -> bool.

Lemma insert_sorted_perm (x : A) (l : list A) :
  Permutation (x :: l) (insert_sorted leb x l).
Proof.
  induction l as [|y l IH]; simpl; [apply Permutation_refl|].
  destruct (leb x y); [apply Permutation_refl|].
  eapply perm_trans; [apply perm_swap|]. apply perm_skip. exact IH.
Qed.

Lemma sorted_by_perm (l : list A) : Permutation l (sorted_by leb l).
Proof.
  induction l as [|x l IH]; simpl; [constructor|].
  eapply perm_trans; [apply perm_skip; exact IH|].
  apply insert_sorted_perm.
Qed.

Lemma sorted_by_In (l : list A) (x : A) : In x (sorted_by leb l) <-> In x l.
Proof.
  split; apply Permutation_in;
    [apply Permutation_sym|]; apply sorted_by_perm.
Qed.



Hypothesis leb_total : forall a b, leb a b = true \/ leb b a = true.
Hypothesis leb_trans :
  forall a b c, leb a b = true -> leb b c = true -> leb a c = true.

Let R (a b : A) : Prop := leb a b = true.


End SortedFacts.


Lemma sorted_by_map {A B : Type} (leb : A -> A -> bool) (leb' : B -> B -> bool)
    (g : A -> B) (l : list A) :
  (forall a b, leb' (g a) (g b) = leb a b) ->
  sorted_by leb' (map g l) = map g (sorted_by leb l).
Proof.
  intros Hg. induction l as [|x l IH]; [reflexivity|].
  cbn [map sorted_by]. rewrite IH. generalize (sorted_by leb l) as s.
  induction s as [|y s IHs]; [reflexivity|].
  cbn [map insert_sorted]. rewrite Hg. destruct (leb x y); [reflexivity|].
  cbn [map]. rewrite IHs. reflexivity.
Qed.

(** ** [_format_types_count] *)

Lemma format_types_count_fuel_S (n : nat) (types_count array_types_count : value) :
  format_types_count_fuel (S n) types_count array_types_count =
  (its <- items types_count ;;
   keyed <- mapM (fun x => match as_int (snd x) with
                           | Some c => Ok (c, x)
                           | None => Raise Unsupported
                           end) its ;;
   type_count_list <-
     mapM (fun x =>
             let '(type_name, count) := x in
             if (type_name =? "ARRAY")%string then
               array_type_name <-
                 format_types_count_fuel n array_types_count VNone ;;
               c <- py_str count ;;
               Ok ("ARRAY(" ++ array_type_name ++ ") : " ++ c)
             else
               c <- py_str count ;;
               Ok (type_name ++ " : " ++ c))
          (map snd (sorted_by (fun a b => fst b <=? fst a) keyed)) ;;
   Ok (String.concat ", " type_count_list)).
Proof. reflexivity. Qed.

(** With no [array_types_count] to pass on, two activations suffice. *)
Lemma format_types_count_fuel_none (n : nat) (types_count : value) :
  format_types_count_fuel (S (S n)) types_count VNone
  = format_types_count_fuel 2 types_count VNone.
Proof.
  rewrite !format_types_count_fuel_S.
  destruct (items types_count) as [its|e]; [|reflexivity]. cbn [bind].
  match goal with |- context [mapM ?f its] => destruct (mapM f its) as [keyed|e] end;
    [|reflexivity].
  cbn [bind]. f_equal.
Qed.

(** Three activations are as good as any larger number. *)
Lemma format_types_count_fuel_enough (n : nat) (types_count array_types_count : value) :
  format_types_count_fuel (S (S (S n))) types_count array_types_count
  = _format_types_count types_count array_types_count.
Proof.
  unfold _format_types_count.
  rewrite (format_types_count_fuel_S (S (S n))), (format_types_count_fuel_S 2).
  rewrite format_types_count_fuel_none. reflexivity.
Qed.

Lemma format_types_count_no_recursion_error (types_count array_types_count : value) :
  _format_types_count types_count array_types_count <> Raise RecursionError.
Proof.
  assert (H1 : forall x, format_types_count_fuel 1 VNone x <> Raise RecursionError)
    by (intros x; discriminate).
  assert (Hstep : forall n atc,
             format_types_count_fuel n atc VNone <> Raise RecursionError ->
             forall tc, format_types_count_fuel (S n) tc atc <> Raise RecursionError).
  { intros n atc Hn tc. rewrite format_types_count_fuel_S.
    destruct (items tc) as [its|e] eqn:Hi; cbn [bind].
    2:{ destruct tc; inversion Hi; discriminate. }
    match goal with |- context [mapM ?f its] =>
      assert (Hk : mapM f its <> Raise RecursionError);
      [|destruct (mapM f its) as [keyed|e]; [|cbn [bind]; congruence]] end.
    { clear. induction its as [|x its IH]; cbn [mapM]; [discriminate|].
      destruct (as_int (snd x)); cbn [bind]; [|discriminate].
      match goal with |- context [mapM ?f its] =>
        destruct (mapM f its); cbn [bind]; [discriminate | exact IH] end. }
    cbn [bind].
    match goal with |- context [mapM ?f ?l] =>
      assert (Hm : mapM f l <> Raise RecursionError);
      [|destruct (mapM f l); cbn [bind]; [discriminate | congruence]] end.
    generalize (map snd (sorted_by (fun a b => fst b <=? fst a) keyed)) as l.
    induction l as [|[t c] l IH]; cbn [mapM]; [discriminate|].
    match goal with |- context [bind ?m _] =>
      assert (Hx : m <> Raise RecursionError); [|destruct m; cbn [bind]; [|congruence]] end.
    { destruct (t =? "ARRAY")%string.
      - destruct (format_types_count_fuel n atc VNone); cbn [bind]; [|congruence].
        destruct c; cbn; discriminate.
      - destruct c; cbn; discriminate. }
    match goal with |- context [mapM ?f l] =>
      destruct (mapM f l); cbn [bind]; [discriminate | exact IH] end. }
  unfold _format_types_count.
  apply Hstep. apply Hstep. apply H1.
Qed.

Lemma mapM_keyed_counts (tc : list (string * Z)) :
  mapM (fun x : string * value =>
          match as_int (snd x) with
          | Some c => Ok (c, x)
          | None => Raise Unsupported
          end)
       (map (fun x => (fst x, VInt (snd x))) tc)
  = Ok (map (fun x => (snd x, (fst x, VInt (snd x)))) tc).
Proof.
  induction tc as [|x tc IH]; [reflexivity|].
  cbn [map mapM snd as_int bind]. rewrite IH. reflexivity.
Qed.




Lemma mapM_raise_some {A B : Type} (e : exn) (f : A -> result B) (l : list A) :
  (forall x, In x l -> f x = Raise e \/ exists y, f x = Ok y) ->
  (exists x, In x l /\ f x = Raise e) ->
  mapM f l = Raise e.
Proof.
  induction l as [|x l IH]; intros Hall (x0 & Hin & Hx0); [destruct Hin|].
  cbn [mapM]. destruct (Hall x (or_introl eq_refl)) as [E|[y E]]; rewrite E; cbn [bind].
  - reflexivity.
  - rewrite IH; [reflexivity | intros z Hz; apply Hall; right; exact Hz |].
    destruct Hin as [->|Hin]; [congruence|]. exists x0. split; assumption.
Qed.

Lemma format_types_count_fuel_raise (n : nat) (tc : list (string * Z))
    (atc : value) (e : exn) :
  In "ARRAY" (map fst tc) ->
  format_types_count_fuel n atc VNone = Raise e ->
  format_types_count_fuel (S n) (types_count_dict tc) atc = Raise e.
Proof.
  intros Harr Hinner. unfold types_count_dict.
  rewrite format_types_count_fuel_S. cbn [items bind].
  rewrite mapM_keyed_counts. cbn [bind].
  rewrite (sorted_by_map count_geb _ (fun x => (snd x, (fst x, VInt (snd x)))))
    by reflexivity.
  rewrite map_map. cbn [snd].
  assert (Hin : In "ARRAY" (map fst (sorted_by count_geb tc))).
  { apply in_map_iff in Harr. destruct Harr as (x & Hx & Hin).
    apply in_map_iff. exists x. split; [exact Hx|]. apply sorted_by_In. exact Hin. }
  revert Hin. generalize (sorted_by count_geb tc) as s. intros s Hin.
  rewrite (mapM_raise_some e); [reflexivity | |].
  - intros y Hy. apply in_map_iff in Hy. destruct Hy as (x & <- & _).
    cbn [fst snd]. destruct (fst x =? "ARRAY")%string.
    + left. rewrite Hinner. reflexivity.
    + right. eexists. reflexivity.
  - apply in_map_iff in Hin. destruct Hin as (x & Hx & Hin).
    exists (fst x, VInt (snd x)). split.
    + apply in_map_iff. exists x. split; [reflexivity | exact Hin].
    + rewrite Hx. cbn [String.eqb]. rewrite Hinner. reflexivity.
Qed.



(** ** Induction on the nesting of values *)

Lemma height_dict_entry (d : dict) (kv : string * value) :
  In kv d -> (height (snd kv) < height (VDict d))%nat.
Proof.
  cbn [height]. induction d as [|x d IH]; intros Hin; [destruct Hin|].
  cbn [fold_right]. destruct Hin as [->|Hin]; [lia|].
  specialize (IH Hin). lia.
Qed.

Lemma height_lookup (d : dict) (k : string) (v : value) :
  lookup k d = Some v -> (height v < height (VDict d))%nat.
Proof.
  intros H. apply (height_dict_entry d (k, v)).
  induction d as [|[k' v'] d IH]; [discriminate|]. cbn [lookup] in H.
  destruct (k' =? k)%string eqn:E.
  - injection H as ->. apply String.eqb_eq in E. subst. left; reflexivity.
  - right. auto.
Qed.

Lemma height_getitem (v w : value) (k : string) :
  getitem v k = Ok w -> (height w < height v)%nat.
Proof.
  destruct v; try discriminate. cbn [getitem].
  destruct (lookup k kvs) eqn:E; [|discriminate].
  intros H; injection H as <-. eapply height_lookup; eauto.
Qed.

Lemma value_height_ind (P : value -> Prop) :
  (forall v, (forall w, (height w < height v)%nat -> P w) -> P v) ->
  forall v, P v.
Proof.
  intros Hstep v.
  assert (H : forall n w, (height w < n)%nat -> P w).
  { induction n as [|n IH]; intros w Hw; [lia|].
    apply Hstep. intros u Hu. apply IH. lia. }
  apply (H (S (height v))). lia.
Qed.

(** ** Dicts under construction *)

Lemma dict_set_fresh (d : dict) (k : string) (v : value) :
  ~ In k (keys d) -> dict_set d k v = (d ++ [(k, v)])%list.
Proof.
  induction d as [|[k' v'] d IH]; intros Hk; [reflexivity|].
  cbn [dict_set]. destruct (k' =? k)%string eqn:E.
  - apply String.eqb_eq in E. exfalso. apply Hk. left. exact E.
  - cbn [app]. rewrite IH; [reflexivity|]. intros H. apply Hk. right. exact H.
Qed.

Lemma dict_set_keys (d : dict) (k : string) (v : value) :
  keys (dict_set d k v) = if existsb (String.eqb k) (keys d)
                          then keys d else (keys d ++ [k])%list.
Proof.
  induction d as [|[k' v'] d IH]; [reflexivity|].
  cbn [dict_set keys map fst existsb]. rewrite (String.eqb_sym k k').
  destruct (k' =? k)%string; cbn [orb]; [reflexivity|].
  cbn [map fst]. fold (keys (dict_set d k v)). rewrite IH. fold (keys d).
  destruct (existsb (String.eqb k) (keys d)); reflexivity.
Qed.

Lemma existsb_eqb_In (k : string) (l : list string) :
  existsb (String.eqb k) l = true <-> In k l.
Proof.
  rewrite existsb_exists. split.
  - intros (x & Hx & E). apply String.eqb_eq in E. subst. exact Hx.
  - intros H. exists k. split; [exact H | apply String.eqb_refl].
Qed.

Lemma dict_set_NoDup (d : dict) (k : string) (v : value) :
  NoDup (keys d) -> NoDup (keys (dict_set d k v)).
Proof.
  intros Hd. rewrite dict_set_keys.
  destruct (existsb (String.eqb k) (keys d)) eqn:E; [exact Hd|].
  apply NoDup_app; [exact Hd | repeat constructor; intros [] |].
  intros x Hx [<-|[]].
  apply existsb_eqb_In in Hx. congruence.
Qed.

Lemma dict_set_Forall (Q : string * value -> Prop) (d : dict) (k : string) (v : value) :
  Forall Q d -> Q (k, v) -> Forall Q (dict_set d k v).
Proof.
  intros Hd Hq. induction Hd as [|[k' v'] d Hx Hd IH]; cbn [dict_set].
  - constructor; [exact Hq | constructor].
  - destruct (k' =? k)%string eqn:E.
    + apply String.eqb_eq in E. subst. constructor; assumption.
    + constructor; assumption.
Qed.

Lemma lookup_In (d : dict) (k : string) (v : value) :
  lookup k d = Some v -> In (k, v) d.
Proof.
  induction d as [|[k' v'] d IH]; [discriminate|]. cbn [lookup].
  destruct (k' =? k)%string eqn:E.
  - intros H; injection H as ->. apply String.eqb_eq in E. subst. left; reflexivity.
  - intros H. right. auto.
Qed.

Lemma lookup_None (d : dict) (k : string) :
  lookup k d = None <-> ~ In k (keys d).
Proof.
  induction d as [|[k' v'] d IH]; cbn [lookup keys map fst In].
  - split; [intros _ [] | reflexivity].
  - destruct (k' =? k)%string eqn:E.
    + apply String.eqb_eq in E. split; [discriminate | intros H; exfalso; auto].
    + apply String.eqb_neq in E. rewrite IH. unfold keys. tauto.
Qed.


(** ** [filter_data] *)

Lemma filter_data_dict (d : dict) :
  filter_data (VDict d) = VDict (fold_left filter_step d []).
Proof. reflexivity. Qed.

Lemma filter_data_not_dict (v : value) : is_dict v = false -> filter_data v = v.
Proof. destruct v; try reflexivity. discriminate. Qed.

Lemma filter_fold_unique (d acc : dict) :
  unique_keys d -> (forall k, In k (keys acc) -> ~ In k (keys d)) ->
  fold_left filter_step d acc = (acc ++ kept_entries d)%list.
Proof.
  unfold unique_keys. revert acc.
  induction d as [|[k v] d IH]; intros acc Hu Hdisj.
  - cbn. rewrite app_nil_r. reflexivity.
  - cbn [keys map fst] in Hu. inversion Hu as [|? ? Hk Hd]; subst.
    cbn [fold_left]. unfold filter_step at 2, kept_entries.
    cbn [fst snd filter]. destruct (negb (bookkeeping k)) eqn:E.
    + rewrite dict_set_fresh.
      2:{ intros H. apply (Hdisj k H). left. reflexivity. }
      rewrite IH; [|exact Hd|].
      * rewrite <- app_assoc. reflexivity.
      * intros k' Hk'. unfold keys in Hk'. rewrite map_app in Hk'.
        apply in_app_or in Hk'. destruct Hk' as [Hk'|[<-|[]]]; [|exact Hk].
        intros H. apply (Hdisj k' Hk'). right. exact H.
    + rewrite IH; [reflexivity | exact Hd |].
      intros k' Hk' H. apply (Hdisj k' Hk'). right. exact H.
Qed.

Lemma filter_data_unique (d : dict) :
  unique_keys d -> filter_data (VDict d) = VDict (kept_entries d).
Proof.
  intros Hu. rewrite filter_data_dict, (filter_fold_unique d []); auto.
Qed.

(** What the loop of [filter_data] maintains. *)
Lemma filter_fold_invariant (Q : string * value -> Prop) (d acc : dict) :
  (forall kv, In kv d -> bookkeeping (fst kv) = false ->
              Q (fst kv, filter_data (snd kv))) ->
  unique_keys acc -> Forall Q acc ->
  unique_keys (fold_left filter_step d acc)
  /\ Forall Q (fold_left filter_step d acc).
Proof.
  revert acc. induction d as [|kv d IH]; intros acc Hq Hu Ha; [auto|].
  cbn [fold_left]. apply IH.
  - intros x Hx. apply Hq. right. exact Hx.
  - unfold filter_step. destruct (negb (bookkeeping (fst kv))); [|exact Hu].
    apply dict_set_NoDup. exact Hu.
  - unfold filter_step. destruct (bookkeeping (fst kv)) eqn:E; [exact Ha|].
    apply dict_set_Forall; [exact Ha|]. apply Hq; [left; reflexivity | exact E].
Qed.

Lemma filter_fold_keeps (d acc : dict) (k : string) :
  In k (keys acc) \/ (In k (keys d) /\ bookkeeping k = false) ->
  In k (keys (fold_left filter_step d acc)).
Proof.
  revert acc. induction d as [|[k' v'] d IH]; intros acc H.
  - destruct H as [H|[[] _]]. exact H.
  - cbn [fold_left]. apply IH.
    assert (Hset : forall x, In k (keys acc) \/ k = k' -> In k (keys (dict_set acc k' x))).
    { intros x Hx. rewrite dict_set_keys.
      destruct (existsb (String.eqb k') (keys acc)) eqn:E.
      - destruct Hx as [Hx| ->]; [exact Hx | apply existsb_eqb_In; exact E].
      - apply in_or_app. destruct Hx as [Hx| ->]; [left; exact Hx | right; left; reflexivity]. }
    unfold filter_step. cbn [fst snd].
    destruct H as [H|[[E|H] Hb]].
    + left. destruct (negb (bookkeeping k')); [apply Hset|]; auto.
    + cbn [fst] in E. subst k'. rewrite Hb. left. apply Hset. auto.
    + right. auto.
Qed.

Lemma filter_data_no_bookkeeping (v : value) : no_bookkeeping (filter_data v) = true.
Proof.
  induction v as [v IH] using value_height_ind.
  destruct v; try reflexivity.
  rewrite filter_data_dict. cbn [no_bookkeeping]. apply forallb_forall.
  apply Forall_forall.
  apply (filter_fold_invariant
           (fun kv => negb (bookkeeping (fst kv)) && no_bookkeeping (snd kv) = true)
           kvs []); [|constructor|constructor].
  intros kv Hkv Hb. cbn [fst snd]. rewrite Hb. cbn.
  apply IH. apply height_dict_entry. exact Hkv.
Qed.

Lemma filter_data_idempotent (v : value) :
  filter_data (filter_data v) = filter_data v.
Proof.
  induction v as [v IH] using value_height_ind.
  destruct v; try reflexivity.
  rewrite filter_data_dict.
  destruct (filter_fold_invariant
              (fun kv => bookkeeping (fst kv) = false
                         /\ filter_data (snd kv) = snd kv) kvs [])
    as [Hu Hq]; [|constructor|constructor|].
  { intros kv Hkv Hb. cbn [fst snd]. split; [exact Hb|].
    apply IH. apply height_dict_entry. exact Hkv. }
  rewrite filter_data_unique by exact Hu. f_equal.
  unfold kept_entries. revert Hq. generalize (fold_left filter_step kvs []) as d.
  induction 1 as [|[k x] d [Hb Hx] _ IHd]; [reflexivity|].
  cbn [filter fst snd] in *. rewrite Hb. cbn [negb map fst snd].
  rewrite Hx. f_equal. exact IHd.
Qed.

Lemma bookkeeping_iff (k : string) :
  bookkeeping k = true
  <-> In k ["count"; "types_count"; "prop_in_object"; "array_types_count"].
Proof. unfold bookkeeping. apply existsb_eqb_In. Qed.

Lemma kept_entries_keys (d : dict) :
  keys (kept_entries d) = filter (fun k => negb (bookkeeping k)) (keys d).
Proof.
  unfold kept_entries, keys. induction d as [|[k v] d IH]; [reflexivity|].
  cbn [filter map fst]. destruct (negb (bookkeeping k)); cbn [map fst]; rewrite IH;
    reflexivity.
Qed.

Lemma kept_entries_lookup (d : dict) (k : string) :
  lookup k (kept_entries d)
  = if bookkeeping k then None else option_map filter_data (lookup k d).
Proof.
  unfold kept_entries. induction d as [|[k' v] d IH].
  - cbn [filter map lookup option_map]. destruct (bookkeeping k); reflexivity.
  - cbn [filter fst lookup]. destruct (k' =? k)%string eqn:E.
    + apply String.eqb_eq in E. subst k'.
      destruct (bookkeeping k) eqn:Hb; cbn [negb].
      * rewrite IH. reflexivity.
      * cbn [map fst snd lookup]. rewrite String.eqb_refl. reflexivity.
    + destruct (negb (bookkeeping k')); [|exact IH].
      cbn [map fst snd lookup]. rewrite E. exact IH.
Qed.

(** C5.  [filter_data] returns a non-dict value unchanged.  Of a dict it
    returns a new dict that holds, in the same order, the entries whose key
    is none of ['count'], ['types_count'], ['prop_in_object'] and
    ['array_types_count'], each with its value filtered in the same way;
    so no dict nested in the result carries one of the four keys, and every
    other key is kept at its place in the structure.  The function builds
    its result in a fresh dict and writes to nothing else: the input is an
    immutable term here, as it is left untouched there. *)
Theorem filter_data_removes_bookkeeping :
  forall data : value,
    (is_dict data = false -> filter_data data = data)
    /\ no_bookkeeping (filter_data data) = true
    /\ (forall d, data = VDict d -> unique_keys d ->
          exists d',
            filter_data data = VDict d'
            /\ d' = map (fun kv => (fst kv, filter_data (snd kv)))
                        (filter (fun kv => negb (bookkeeping (fst kv))) d)
            /\ keys d' = filter (fun k => negb (bookkeeping k)) (keys d)
            /\ (forall k v, lookup k d = Some v -> bookkeeping k = false ->
                            lookup k d' = Some (filter_data v))
            /\ (forall k, bookkeeping k = true -> lookup k d' = None))
    /\ (forall k, bookkeeping k = true
                  <-> In k ["count"; "types_count"; "prop_in_object";
                            "array_types_count"]).
Proof.
  intros data. split; [apply filter_data_not_dict|].
  split; [apply filter_data_no_bookkeeping|].
  split; [|apply bookkeeping_iff].
  intros d -> Hu. exists (kept_entries d).
  split; [apply filter_data_unique; exact Hu|].
  split; [reflexivity|].
  split; [apply kept_entries_keys|].
  split.
  - intros k v Hl Hb. rewrite kept_entries_lookup, Hb, Hl. reflexivity.
  - intros k Hb. rewrite kept_entries_lookup, Hb. reflexivity.
Qed.

Lemma filter_data_removes_bookkeeping_witness :
  exists d',
    filter_data
      (VDict [("name", VDict [("type", VStr "string"); ("count", VInt 3);
                              ("types_count", VDict [("string", VInt 3)]);
                              ("prop_in_object", VFloat 1)])])
    = VDict d'
    /\ keys d' = ["name"].
Proof.
  destruct (proj1 (proj2 (proj2 (filter_data_removes_bookkeeping
    (VDict [("name", VDict [("type", VStr "string"); ("count", VInt 3);
                            ("types_count", VDict [("string", VInt 3)]);
                            ("prop_in_object", VFloat 1)])]))))
    _ eq_refl) as (d' & H1 & _ & H3 & _).
  - repeat constructor. intros [].
  - exists d'. split; [exact H1 | exact H3].
Defined.

Lemma distinct_keys_unique (d : dict) : distinct_keys (VDict d) -> unique_keys d.
Proof. intros [H _]. exact H. Qed.

Lemma distinct_keys_entry (d : dict) (kv : string * value) :
  distinct_keys (VDict d) -> In kv d -> distinct_keys (snd kv).
Proof.
  intros [_ H]. induction d as [|x d IH]; intros Hin; [destruct Hin|].
  cbn [fold_right] in H. destruct H as [Hx Hd].
  destruct Hin as [->|Hin]; [exact Hx | exact (IH Hd Hin)].
Qed.

Lemma filter_data_keeps_path (path : list string) :
  forall x v,
    distinct_keys x ->
    Forall (fun k => bookkeeping k = false) path ->
    lookup_path path x = Some v ->
    lookup_path path (filter_data x) = Some (filter_data v).
Proof.
  induction path as [|k path IH]; intros x v Hd Hall Hl.
  - cbn [lookup_path] in *. injection Hl as <-. reflexivity.
  - cbn [lookup_path] in Hl. destruct x as [| | | | | |d]; try discriminate Hl.
    destruct (lookup k d) as [w|] eqn:E; [|discriminate Hl].
    rewrite (filter_data_unique d (distinct_keys_unique d Hd)).
    cbn [lookup_path]. rewrite kept_entries_lookup, (Forall_inv Hall), E.
    cbn [option_map]. apply IH; [|exact (Forall_inv_tail Hall)|exact Hl].
    apply (distinct_keys_entry d (k, w) Hd). apply lookup_In. exact E.
Qed.

(** C6.  [filter_data] is idempotent, and it removes no key that is none
    of the four bookkeeping keys, at any level: a key of a dict is a key
    of the result, and wherever a path of such keys leads to a value in
    the input (whose dicts have distinct keys, as every dict has), the
    same path leads, in the result, to that value filtered, which is the
    value itself when it is not a dict. *)
Theorem filter_data_idempotent_keeps_keys :
  forall x : value,
    filter_data (filter_data x) = filter_data x
    /\ (forall d k,
          x = VDict d -> In k (keys d) ->
          ~ In k ["count"; "types_count"; "prop_in_object"; "array_types_count"] ->
          exists d', filter_data x = VDict d' /\ In k (keys d'))
    /\ (forall path v,
          distinct_keys x ->
          Forall (fun k => ~ In k ["count"; "types_count"; "prop_in_object";
                                   "array_types_count"]) path ->
          lookup_path path x = Some v ->
          lookup_path path (filter_data x) = Some (filter_data v)
          /\ (is_dict v = false -> lookup_path path (filter_data x) = Some v)).
Proof.
  intros x. split; [apply filter_data_idempotent|]. split.
  - intros d k -> Hk Hnb. exists (fold_left filter_step d []).
    split; [apply filter_data_dict|].
    apply filter_fold_keeps. right. split; [exact Hk|].
    destruct (bookkeeping k) eqn:E; [|reflexivity].
    apply bookkeeping_iff in E. contradiction.
  - intros path v Hd Hall Hl.
    assert (H : lookup_path path (filter_data x) = Some (filter_data v)).
    { apply filter_data_keeps_path; [exact Hd| |exact Hl].
      eapply Forall_impl; [|exact Hall]. intros k Hk. cbn beta in Hk.
      destruct (bookkeeping k) eqn:E; [|reflexivity].
      apply bookkeeping_iff in E. contradiction. }
    split; [exact H|]. intros Hv. rewrite H, (filter_data_not_dict v Hv).
    reflexivity.
Qed.

Lemma filter_data_idempotent_keeps_keys_witness :
  lookup_path ["name"; "object"; "first"; "type"]
    (filter_data
       (VDict [("name",
                VDict [("count", VInt 2); ("type", VStr "OBJECT");
                       ("object",
                        VDict [("first",
                                VDict [("count", VInt 2);
                                       ("type", VStr "string")])])])]))
  = Some (VStr "string").
Proof.
  apply (proj2 (proj2 (proj2 (filter_data_idempotent_keeps_keys
           (VDict [("name",
                    VDict [("count", VInt 2); ("type", VStr "OBJECT");
                           ("object",
                            VDict [("first",
                                    VDict [("count", VInt 2);
                                           ("type", VStr "string")])])])])))
           ["name"; "object"; "first"; "type"] (VStr "string")
           ltac:(cbn; repeat split; repeat constructor; cbn; intuition discriminate)
           ltac:(repeat constructor; cbn; intuition discriminate)
           eq_refl)
        eq_refl).
Defined.

(** ** Common ancestors in the lattice *)

Lemma common_prefix_comm (p q : list string) :
  common_prefix p q = common_prefix q p.
Proof.
  revert q. induction p as [|a p IH]; intros [|b q]; try reflexivity.
  cbn [common_prefix]. rewrite (String.eqb_sym b a).
  destruct (a =? b)%string eqn:E; [|reflexivity].
  apply String.eqb_eq in E. subst. rewrite IH. reflexivity.
Qed.

Lemma common_prefix_assoc (p q r : list string) :
  common_prefix p (common_prefix q r) = common_prefix (common_prefix p q) r.
Proof.
  revert q r. induction p as [|a p IH]; intros [|b q] [|c r]; try reflexivity.
  - cbn [common_prefix]. destruct (a =? b)%string; reflexivity.
  - cbn [common_prefix].
    destruct (String.eqb_spec b c) as [->|Hbc].
    + cbn [common_prefix]. destruct (a =? c)%string eqn:Eac; [|reflexivity].
      cbn [common_prefix]. rewrite Eac, IH. reflexivity.
    + destruct (String.eqb_spec a b) as [->|Hab]; [|reflexivity].
      cbn [common_prefix]. apply String.eqb_neq in Hbc. rewrite Hbc. reflexivity.
Qed.

Lemma common_path_perm (ps ps' : list (list string)) :
  Permutation ps ps' -> common_path ps = common_path ps'.
Proof.
  induction 1 as [|x l l' _ IH|x y l|l l' l'' _ IH1 _ IH2].
  - reflexivity.
  - cbn [common_path]. rewrite IH. reflexivity.
  - cbn [common_path]. destruct (common_path l) as [q|].
    + f_equal. rewrite !common_prefix_assoc, (common_prefix_comm y x). reflexivity.
    + f_equal. apply common_prefix_comm.
  - congruence.
Qed.

(** Every path starts at the root. *)
Lemma node_path_root (target : string) (t : tree) (p : list string) :
  node_path target t = Some p ->
  exists tl, p = (match t with Node name _ => name end) :: tl.
Proof.
  destruct t as [name children]. cbn [node_path].
  destruct (name =? target)%string.
  - intros H; injection H as <-. eauto.
  - match goal with |- context [match ?m with Some _ => _ | None => _ end] =>
      destruct m end; [|discriminate].
    intros H; injection H as <-. eauto.
Qed.

Lemma common_path_root (r : string) (ps : list (list string)) :
  ps <> [] -> Forall (fun p => exists tl, p = r :: tl) ps ->
  exists tl, common_path ps = Some (r :: tl).
Proof.
  intros Hne H. induction H as [|p ps [tl ->] Hps IH]; [contradiction|].
  cbn [common_path]. destruct ps as [|q ps].
  - cbn. eauto.
  - destruct IH as [tl' ->]; [discriminate|].
    cbn [common_prefix]. rewrite String.eqb_refl. eauto.
Qed.

Lemma last_name_cons (a : string) (p : list string) :
  exists b, last_name (a :: p) = Some b.
Proof.
  revert a. induction p as [|c p IH]; intros a; cbn [last_name]; eauto.
Qed.

Lemma types_tree_node_path (t : string) :
  In t (nodes TYPES_TREE) -> exists p, node_path t TYPES_TREE = Some p.
Proof.
  intros H. cbn in H.
  repeat (destruct H as [<-|H]; [eexists; reflexivity|]). destruct H.
Qed.

Lemma get_common_ancestor_perm (l l' : list string) :
  l <> [] -> Forall (fun t => In t (nodes TYPES_TREE)) l -> Permutation l l' ->
  exists r, get_common_ancestor TYPES_TREE l = Ok r
            /\ get_common_ancestor TYPES_TREE l' = Ok r.
Proof.
  intros Hne Hl Hp.
  set (path := fun n => match node_path n TYPES_TREE with
                        | Some p => p
                        | None => []
                        end).
  assert (HmapM : forall k, Forall (fun t => In t (nodes TYPES_TREE)) k ->
            mapM (fun n => match node_path n TYPES_TREE with
                           | Some p => Ok p
                           | None => Raise (LookupError n)
                           end) k = Ok (map path k)).
  { induction 1 as [|t k Ht _ IH]; [reflexivity|].
    cbn [mapM map]. rewrite IH. unfold path.
    destruct (types_tree_node_path t Ht) as [p ->]. reflexivity. }
  assert (Hl' : Forall (fun t => In t (nodes TYPES_TREE)) l').
  { rewrite Forall_forall in *. intros t Ht. apply Hl.
    eapply Permutation_in; [apply Permutation_sym; exact Hp | exact Ht]. }
  unfold get_common_ancestor. rewrite (HmapM l Hl), (HmapM l' Hl').
  cbn [bind].
  rewrite <- (common_path_perm (map path l) (map path l'))
    by (apply Permutation_map; exact Hp).
  destruct (common_path_root "mixed_scalar_object" (map path l)) as [tl ->].
  - destruct l; [contradiction | discriminate].
  - apply Forall_forall. intros p Hin. apply in_map_iff in Hin.
    destruct Hin as (t & <- & Ht). rewrite Forall_forall in Hl.
    unfold path. destruct (types_tree_node_path t (Hl t Ht)) as [p E].
    rewrite E. exact (node_path_root t TYPES_TREE p E).
  - destruct (last_name_cons "mixed_scalar_object" tl) as [b ->]. eauto.
Qed.

(** C8.  On a non-empty list of names of nodes of the lattice,
    [common_parent_type] returns a type, and returns the same type on
    every permutation of the list. *)
Theorem common_parent_type_order_independent :
  forall l l' : list string,
    l <> [] ->
    Forall (fun t => In t (nodes TYPES_TREE)) l ->
    Permutation l l' ->
    exists r, common_parent_type l = Ok r /\ common_parent_type l' = Ok r.
Proof.
  intros l l' Hne Hl Hp.
  destruct l as [|a [|b l]]; [contradiction| |].
  - apply Permutation_length_1_inv in Hp. subst. exists a. split; reflexivity.
  - assert (Hlen := Permutation_length Hp).
    destruct l' as [|a' [|b' l']]; try discriminate Hlen.
    apply (get_common_ancestor_perm (a :: b :: l) (a' :: b' :: l')); assumption.
Qed.

Lemma common_parent_type_order_independent_witness :
  exists r, common_parent_type ["boolean"; "float"; "oid"] = Ok r
            /\ common_parent_type ["oid"; "boolean"; "float"] = Ok r.
Proof.
  apply common_parent_type_order_independent.
  - discriminate.
  - repeat constructor; cbn; tauto.
  - apply Permutation_sym. apply (Permutation_cons_append ["boolean"; "float"] "oid").
Defined.

Example common_parent_type_numbers :
  common_parent_type ["integer"; "float"] = Ok "number"
  /\ common_parent_type ["boolean"; "integer"] = Ok "integer"
  /\ common_parent_type ["oid"; "date"; "boolean"] = Ok "general_scalar"
  /\ common_parent_type ["object"; "dbref"] = Ok "mixed_scalar_object".
Proof. repeat split. Qed.

(** ** The order of fields *)







Lemma sort_key_ok (x : string * value) (k : Z * string) :
  sort_key x = Ok k
  <-> exists c, field_count (snd x) = Some c /\ k = (- c, fst x).
Proof.
  unfold sort_key, field_count. destruct (getitem (snd x) "count") as [c|e]; cbn [bind].
  - destruct c; cbn; split;
      try (intros H; discriminate H);
      try (intros (c & H & _); discriminate H).
    + intros H; injection H as <-. eauto.
    + intros (c & H & ->). injection H as <-. reflexivity.
    + intros H; injection H as <-. eauto.
    + intros (c & H & ->). injection H as <-. reflexivity.
  - split; [intros H; discriminate H | intros (c & H & _); discriminate H].
Qed.

Lemma mapM_sort_key_ok (its : dict) (keyed : list ((Z * string) * (string * value))) :
  mapM (fun x => k <- sort_key x ;; Ok (k, x)) its = Ok keyed ->
  keyed = map (fun x => (key_of x, x)) its
  /\ Forall (fun x => sort_key x = Ok (key_of x)) its.
Proof.
  intros H. apply mapM_ok in H.
  induction H as [|x kx its keyed Hx _ [IH1 IH2]]; [split; constructor|].
  apply bind_ok in Hx. destruct Hx as (k & Hk & Hx). injection Hx as <-.
  assert (E : key_of x = k) by (unfold key_of; rewrite Hk; reflexivity).
  split.
  - cbn [map]. rewrite E, IH1. reflexivity.
  - constructor; [rewrite E; exact Hk | exact IH2].
Qed.

Lemma mapM_sort_key_of (its : dict) :
  Forall (fun x => sort_key x = Ok (key_of x)) its ->
  mapM (fun x => k <- sort_key x ;; Ok (k, x)) its
  = Ok (map (fun x => (key_of x, x)) its).
Proof.
  induction 1 as [|x its Hx _ IH]; [reflexivity|].
  cbn [mapM map]. rewrite Hx. cbn [bind]. rewrite IH. reflexivity.
Qed.

Lemma sorted_fields_ok (its sf : dict) :
  sorted_fields its = Ok sf ->
  sf = sorted_by (fun x y => key_leb (key_of x) (key_of y)) its
  /\ Forall (fun x => sort_key x = Ok (key_of x)) its.
Proof.
  unfold sorted_fields. intros H. apply bind_ok in H.
  destruct H as (keyed & Hk & H). injection H as <-.
  apply mapM_sort_key_ok in Hk. destruct Hk as [-> Hall]. split; [|exact Hall].
  rewrite (sorted_by_map (fun x y => key_leb (key_of x) (key_of y)))
    by reflexivity.
  rewrite map_map. cbn [snd]. apply map_id.
Qed.

Lemma sorted_fields_of (its : dict) :
  Forall (fun x => sort_key x = Ok (key_of x)) its ->
  sorted_fields its
  = Ok (sorted_by (fun x y => key_leb (key_of x) (key_of y)) its).
Proof.
  intros H. unfold sorted_fields. rewrite (mapM_sort_key_of its H). cbn [bind].
  rewrite (sorted_by_map (fun x y => key_leb (key_of x) (key_of y)))
    by reflexivity.
  rewrite map_map. cbn [snd]. rewrite map_id. reflexivity.
Qed.

Lemma sorted_fields_perm (its sf : dict) :
  sorted_fields its = Ok sf -> Permutation its sf.
Proof.
  intros H. apply sorted_fields_ok in H. destruct H as [-> _].
  apply sorted_by_perm.
Qed.





(** ** The recursion of [_object_schema_to_line_tuples] *)

Lemma field_lines_ext (self self' : value -> string -> result (list row))
    (cols : list string) (p f : string) (fs : value) :
  (forall o q, getitem fs "object" = Ok o -> self o q = self' o q) ->
  field_lines self cols p (f, fs) = field_lines self' cols p (f, fs).
Proof.
  intros H. unfold field_lines.
  destruct (_field_schema_to_columns f fs p cols); cbn [bind]; [|reflexivity].
  destruct (getitem fs "types_count") as [tc|]; cbn [bind]; [|reflexivity].
  destruct (contains "ARRAY" tc); cbn [bind]; [|reflexivity].
  match goal with |- context [bind (if ?b then ?x else ?y) _] =>
    destruct (if b then x else y) as [[|]|] end; cbn [bind]; [| |reflexivity].
  - destruct (getitem fs "object") as [o|]; cbn [bind]; [|reflexivity].
    rewrite (H o _ eq_refl). reflexivity.
  - destruct (contains "OBJECT" tc) as [[|]|]; cbn [bind]; try reflexivity.
    destruct (getitem fs "object") as [o|]; cbn [bind]; [|reflexivity].
    rewrite (H o _ eq_refl). reflexivity.
Qed.

(** What one turn of the loop appends, by the types of the field. *)
Lemma field_lines_cases (self : value -> string -> result (list row))
    (cols : list string) (p f : string) (fs : value) (block : list row) :
  field_lines self cols p (f, fs) = Ok block ->
  exists line,
    _field_schema_to_columns f fs p cols = Ok line
    /\ ((array_of_object fs = true
         /\ exists o nested,
              getitem fs "object" = Ok o
              /\ self o (p ++ f ++ ":") = Ok nested
              /\ block = line :: nested)
        \/ (array_of_object fs = false /\ plain_object fs = true
            /\ exists o nested,
                 getitem fs "object" = Ok o
                 /\ self o (p ++ f ++ ".") = Ok nested
                 /\ block = line :: nested)
        \/ (array_of_object fs = false /\ plain_object fs = false
            /\ block = [line])).
Proof.
  unfold field_lines, array_of_object, plain_object, has_type. intros H.
  apply bind_ok in H. destruct H as (line & Hline & H). exists line.
  split; [exact Hline|].
  apply bind_ok in H. destruct H as (tc & Htc & H). rewrite Htc in *.
  apply bind_ok in H. destruct H as (has_array & Harr & H). rewrite Harr.
  apply bind_ok in H. destruct H as (aoo & Haoo & H).
  assert (Ea : has_array &&
               match getitem fs "array_types_count" with
               | Ok atc => match contains "OBJECT" atc with
                           | Ok b => b
                           | Raise _ => false
                           end
               | Raise _ => false
               end = aoo).
  { destruct has_array; cbn [andb].
    - apply bind_ok in Haoo. destruct Haoo as (atc & -> & ->). reflexivity.
    - injection Haoo as <-. reflexivity. }
  rewrite Ea. destruct aoo.
  - left. split; [reflexivity|].
    apply bind_ok in H. destruct H as (o & Ho & H).
    apply bind_ok in H. destruct H as (nested & Hn & H). injection H as <-.
    exists o, nested. auto.
  - right. cbn [bind] in H.
    apply bind_ok in H. destruct H as (has_object & Hobj & H). rewrite Hobj.
    destruct has_object.
    + left. repeat split.
      apply bind_ok in H. destruct H as (o & Ho & H).
      apply bind_ok in H. destruct H as (nested & Hn & H). injection H as <-.
      exists o, nested. auto.
    + right. injection H as <-. auto.
Qed.

Lemma line_tuples_fuel_stable (n m : nat) (o : value) (cols : list string) (p : string) :
  (height o < n)%nat -> (height o < m)%nat ->
  line_tuples_fuel n o cols p = line_tuples_fuel m o cols p.
Proof.
  revert m o p. induction n as [|n IH]; intros m o p Hn Hm; [lia|].
  destruct m as [|m]; [lia|]. cbn [line_tuples_fuel].
  destruct (items o) as [its|] eqn:Hi; cbn [bind]; [|reflexivity].
  destruct (sorted_fields its) as [sf|] eqn:Hs; cbn [bind]; [|reflexivity].
  rewrite (mapM_ext_in _ (field_lines (fun o' q => line_tuples_fuel m o' cols q) cols p));
    [reflexivity|].
  intros [f fs] Hx. apply field_lines_ext. intros o' q Ho'.
  destruct o; try discriminate Hi. injection Hi as ->.
  assert (Hfs : (height fs < height (VDict its))%nat).
  { apply (height_dict_entry its (f, fs)).
    eapply Permutation_in; [apply Permutation_sym, sorted_fields_perm; exact Hs|exact Hx]. }
  apply height_getitem in Ho'. apply IH; lia.
Qed.

(** The function, with the recursion written as in the source. *)
Lemma object_schema_to_line_tuples_eq (o : value) (cols : list string) (p : string) :
  _object_schema_to_line_tuples o cols p
  = (its <- items o ;;
     sf <- sorted_fields its ;;
     blocks <- mapM (field_lines
                       (fun o' q => _object_schema_to_line_tuples o' cols q)
                       cols p) sf ;;
     Ok (concat blocks)).
Proof.
  unfold _object_schema_to_line_tuples at 1. cbn [line_tuples_fuel].
  destruct (items o) as [its|] eqn:Hi; cbn [bind]; [|reflexivity].
  destruct (sorted_fields its) as [sf|] eqn:Hs; cbn [bind]; [|reflexivity].
  rewrite (mapM_ext_in _ (field_lines
             (fun o' q => _object_schema_to_line_tuples o' cols q) cols p));
    [reflexivity|].
  intros [f fs] Hx. apply field_lines_ext. intros o' q Ho'.
  destruct o; try discriminate Hi. injection Hi as ->.
  assert (Hfs : (height fs < height (VDict its))%nat).
  { apply (height_dict_entry its (f, fs)).
    eapply Permutation_in; [apply Permutation_sym, sorted_fields_perm; exact Hs|exact Hx]. }
  apply height_getitem in Ho'. unfold _object_schema_to_line_tuples.
  apply line_tuples_fuel_stable; lia.
Qed.

(** The lines of an object: for each field in sorted order, a block made
    of its own line and the lines of what it nests. *)
Lemma object_schema_to_line_tuples_blocks (o : value) (cols : list string)
    (p : string) (lines : list row) :
  _object_schema_to_line_tuples o cols p = Ok lines ->
  exists its sf blocks,
    items o = Ok its /\ sorted_fields its = Ok sf
    /\ Forall2 (fun x block =>
                  field_lines (fun o' q => _object_schema_to_line_tuples o' cols q)
                    cols p x = Ok block) sf blocks
    /\ lines = concat blocks.
Proof.
  rewrite object_schema_to_line_tuples_eq. intros H.
  apply bind_ok in H. destruct H as (its & Hi & H).
  apply bind_ok in H. destruct H as (sf & Hs & H).
  apply bind_ok in H. destruct H as (blocks & Hb & H). injection H as <-.
  exists its, sf, blocks. repeat split; auto. apply mapM_ok. exact Hb.
Qed.

Lemma field_lines_eq (self : value -> string -> result (list row))
    (cols : list string) (p f : string) (fs : value) (line : row) :
  types_recorded fs ->
  _field_schema_to_columns f fs p cols = Ok line ->
  field_lines self cols p (f, fs)
  = if array_of_object fs then
      o <- getitem fs "object" ;;
      nested <- self o (p ++ f ++ ":") ;;
      Ok (line :: nested)
    else if plain_object fs then
      o <- getitem fs "object" ;;
      nested <- self o (p ++ f ++ ".") ;;
      Ok (line :: nested)
    else Ok [line].
Proof.
  intros (tc & Htc & Hatc) Hline.
  unfold field_lines, array_of_object, plain_object, has_type.
  rewrite Hline, Htc. cbn [bind contains].
  destruct (existsb (String.eqb "ARRAY") (keys tc)) eqn:Ea; cbn [andb bind].
  - apply existsb_eqb_In in Ea. destruct (Hatc Ea) as (atc & ->).
    cbn [bind contains].
    destruct (existsb (String.eqb "OBJECT") (keys atc)); reflexivity.
  - reflexivity.
Qed.

Lemma single_field_lines (cols : list string) (p f : string) (fs : value) (c : Z) :
  field_count fs = Some c ->
  _object_schema_to_line_tuples (VDict [(f, fs)]) cols p
  = (block <- field_lines (fun o q => _object_schema_to_line_tuples o cols q)
                cols p (f, fs) ;;
     Ok block).
Proof.
  intros Hc. rewrite object_schema_to_line_tuples_eq. cbn [items bind].
  assert (Hk : sort_key (f, fs) = Ok (- c, f))
    by (apply sort_key_ok; exists c; auto).
  unfold sorted_fields. cbn [mapM]. rewrite Hk. cbn [bind map sorted_by insert_sorted snd mapM].
  match goal with |- context [field_lines ?s cols p (f, fs)] =>
    destruct (field_lines s cols p (f, fs)) as [block|] end; cbn [bind]; [|reflexivity].
  cbn [concat]. rewrite app_nil_r. reflexivity.
Qed.

(** C2.  Part one: when [_object_schema_to_line_tuples] returns, its lines
    are, for each field of the object in sorted order, the field's own
    line followed by the lines of at most one nested object: that of
    [field_schema['object']] under the prefix extended by the field name
    and [':'] when [types_count] contains ['ARRAY'] and
    [array_types_count] contains ['OBJECT']; otherwise under the prefix
    extended by the field name and ['.'] when [types_count] contains
    ['OBJECT']; otherwise none.  Part two: for an object with the single
    field [f] the function is that choice, also when the nested call or a
    lookup fails.  A field that fulfils both conditions is flattened once,
    through [':']. *)
Theorem nested_lines_by_types :
  forall (o : value) (cols : list string) (p : string),
    (forall lines,
        _object_schema_to_line_tuples o cols p = Ok lines ->
        exists its sf blocks,
          items o = Ok its /\ sorted_fields its = Ok sf
          /\ lines = concat blocks
          /\ Forall2
               (fun x block =>
                  exists line,
                    _field_schema_to_columns (fst x) (snd x) p cols = Ok line
                    /\ ((array_of_object (snd x) = true
                         /\ exists ob nested,
                              getitem (snd x) "object" = Ok ob
                              /\ _object_schema_to_line_tuples ob cols
                                   (p ++ fst x ++ ":") = Ok nested
                              /\ block = line :: nested)
                        \/ (array_of_object (snd x) = false
                            /\ plain_object (snd x) = true
                            /\ exists ob nested,
                                 getitem (snd x) "object" = Ok ob
                                 /\ _object_schema_to_line_tuples ob cols
                                      (p ++ fst x ++ ".") = Ok nested
                                 /\ block = line :: nested)
                        \/ (array_of_object (snd x) = false
                            /\ plain_object (snd x) = false
                            /\ block = [line])))
               sf blocks)
    /\ (forall f fs c line,
          o = VDict [(f, fs)] ->
          field_count fs = Some c ->
          types_recorded fs ->
          _field_schema_to_columns f fs p cols = Ok line ->
          _object_schema_to_line_tuples o cols p
          = if array_of_object fs then
              ob <- getitem fs "object" ;;
              nested <- _object_schema_to_line_tuples ob cols (p ++ f ++ ":") ;;
              Ok (line :: nested)
            else if plain_object fs then
              ob <- getitem fs "object" ;;
              nested <- _object_schema_to_line_tuples ob cols (p ++ f ++ ".") ;;
              Ok (line :: nested)
            else Ok [line]).
Proof.
  intros o cols p. split.
  - intros lines H. apply object_schema_to_line_tuples_blocks in H.
    destruct H as (its & sf & blocks & Hi & Hs & Hb & ->).
    exists its, sf, blocks. repeat split; auto.
    eapply Forall2_impl; [|exact Hb].
    intros [f fs] block Hx. cbn [fst snd]. apply field_lines_cases in Hx. exact Hx.
  - intros f fs c line -> Hc Ht Hline.
    rewrite (single_field_lines cols p f fs c Hc).
    rewrite (field_lines_eq _ cols p f fs line Ht Hline).
    destruct (array_of_object fs); [|destruct (plain_object fs)].
    + destruct (getitem fs "object") as [ob|]; cbn [bind]; [|reflexivity].
      destruct (_object_schema_to_line_tuples ob cols (p ++ f ++ ":")); reflexivity.
    + destruct (getitem fs "object") as [ob|]; cbn [bind]; [|reflexivity].
      destruct (_object_schema_to_line_tuples ob cols (p ++ f ++ ".")); reflexivity.
    + reflexivity.
Qed.

Lemma nested_lines_by_types_witness :
  _object_schema_to_line_tuples (VDict [("f", mixed_field)]) ["field_full_name"] ""
  = Ok [[VStr "f"]; [VStr "f:x"]].
Proof.
  rewrite (proj2 (nested_lines_by_types (VDict [("f", mixed_field)])
                    ["field_full_name"] "")
             "f" mixed_field 2 [VStr "f"] eq_refl eq_refl).
  - reflexivity.
  - exists [("OBJECT", VInt 1); ("ARRAY", VInt 1)]. split; [reflexivity|].
    intros _. exists [("OBJECT", VInt 1)]. reflexivity.
  - reflexivity.
Defined.

(** ** Counting fields *)

Lemma fold_object_lookup {A : Type} (g : value -> A) (a : A) (attrs : dict) :
  fold_right (fun kv r => if (fst kv =? "object")%string then g (snd kv) else r)
    a attrs
  = match lookup "object" attrs with
    | Some o => g o
    | None => a
    end.
Proof.
  induction attrs as [|[k v] attrs IH]; [reflexivity|].
  cbn [fold_right lookup fst snd]. destruct (k =? "object")%string; [reflexivity|exact IH].
Qed.

Lemma total_fields_dict (its : dict) :
  total_fields (VDict its)
  = list_sum (map (fun x => S (nested_fields (snd x))) its).
Proof.
  cbn [total_fields]. induction its as [|[f fs] its IH]; [reflexivity|].
  cbn [fold_right map list_sum snd]. rewrite IH. f_equal. f_equal.
  unfold nested_fields.
  destruct (array_of_object fs || plain_object fs); [|reflexivity].
  destruct fs; try reflexivity.
  rewrite fold_object_lookup. cbn [getitem].
  destruct (lookup "object" kvs); reflexivity.
Qed.

Lemma list_sum_perm (l l' : list nat) :
  Permutation l l' -> list_sum l = list_sum l'.
Proof.
  induction 1; simpl; lia.
Qed.

Lemma length_concat_mapM {A B : Type} (f : A -> result (list B)) (g : A -> nat)
    (l : list A) (ys : list (list B)) :
  mapM f l = Ok ys ->
  (forall x y, In x l -> f x = Ok y -> length y = g x) ->
  length (concat ys) = list_sum (map g l).
Proof.
  intros H. apply mapM_ok in H.
  induction H as [|x y l ys Hxy _ IH]; intros Hg; [reflexivity|].
  cbn [concat map list_sum]. rewrite length_app.
  rewrite (Hg x y (or_introl eq_refl) Hxy). rewrite IH; [reflexivity|].
  intros x' y' Hx'. apply Hg. right. exact Hx'.
Qed.

Lemma line_tuples_length (o : value) (cols : list string) :
  forall p lines,
    _object_schema_to_line_tuples o cols p = Ok lines ->
    length lines = total_fields o.
Proof.
  induction o as [o IH] using value_height_ind. intros p lines H.
  rewrite object_schema_to_line_tuples_eq in H.
  apply bind_ok in H. destruct H as (its & Hi & H).
  apply bind_ok in H. destruct H as (sf & Hs & H).
  apply bind_ok in H. destruct H as (blocks & Hb & H). injection H as <-.
  destruct o; try discriminate Hi. injection Hi as ->.
  rewrite total_fields_dict.
  rewrite (list_sum_perm _ _
             (Permutation_map (fun x => S (nested_fields (snd x)))
                (sorted_fields_perm its sf Hs))).
  apply (length_concat_mapM _ _ _ _ Hb).
  intros [f fs] block Hx Hblock. cbn [snd].
  assert (Hfs : (height fs < height (VDict its))%nat).
  { apply (height_dict_entry its (f, fs)).
    eapply Permutation_in; [apply Permutation_sym, sorted_fields_perm; exact Hs|exact Hx]. }
  apply field_lines_cases in Hblock. unfold nested_fields.
  destruct Hblock as (line & _ & [(Ha & ob & nested & Hob & Hn & ->)
                                 |[(Ha & Hp & ob & nested & Hob & Hn & ->)
                                  |(Ha & Hp & ->)]]).
  - rewrite Ha, Hob. cbn [orb length]. f_equal.
    apply (IH ob) in Hn; [exact Hn|]. apply height_getitem in Hob. lia.
  - rewrite Ha, Hp, Hob. cbn [orb length]. f_equal.
    apply (IH ob) in Hn; [exact Hn|]. apply height_getitem in Hob. lia.
  - rewrite Ha, Hp. reflexivity.
Qed.

Lemma sorted_items_perm (d : dict) : Permutation d (sorted_items d).
Proof. apply sorted_by_perm. Qed.

Lemma dataframe_length (data : value) (cols : list string) (df : DataFrame) :
  convert_to_dataframe data cols = Ok df ->
  length (rows df) = schema_fields data.
Proof.
  unfold convert_to_dataframe. intros H.
  apply bind_ok in H. destruct H as (dbs & Hi & H).
  apply bind_ok in H. destruct H as (per_db & Hdb & H). injection H as <-.
  destruct data; try discriminate Hi. injection Hi as ->.
  cbn [rows schema_fields].
  rewrite (list_sum_perm _ _
             (Permutation_map database_fields (sorted_items_perm dbs))).
  apply (length_concat_mapM _ _ _ _ Hdb).
  intros [db dbschema] lines _ Hl. unfold database_lines in Hl.
  apply bind_ok in Hl. destruct Hl as (colls & Hc & Hl).
  apply bind_ok in Hl. destruct Hl as (per_coll & Hpc & Hl). injection Hl as <-.
  destruct dbschema; try discriminate Hc. injection Hc as ->.
  unfold database_fields. cbn [snd].
  rewrite (list_sum_perm _ _
             (Permutation_map collection_fields (sorted_items_perm colls))).
  apply (length_concat_mapM _ _ _ _ Hpc).
  intros [coll cschema] ls _ Hls. unfold collection_lines in Hls.
  apply bind_ok in Hls. destruct Hls as (ob & Hob & Hls).
  apply bind_ok in Hls. destruct Hls as (tuples & Ht & Hls). injection Hls as <-.
  unfold collection_fields. cbn [snd]. rewrite Hob, length_map.
  eapply line_tuples_length. exact Ht.
Qed.

(** ** Schemas on which flattening returns *)

Lemma types_ok_recorded (fs : value) : types_ok fs = true -> types_recorded fs.
Proof.
  unfold types_ok, types_recorded.
  destruct (getitem fs "types_count") as [[| | | | | |tc]|]; try discriminate.
  intros H. exists tc. split; [reflexivity|]. intros Hin.
  apply existsb_eqb_In in Hin. rewrite Hin in H.
  destruct (getitem fs "array_types_count") as [[| | | | | |atc]|]; try discriminate.
  eauto.
Qed.

(** Whether a column can be computed depends on the field schema only. *)
Lemma column_value_ok_indep (f f' p p' : string) (fs : value) (c : string) :
  is_ok (column_value f fs p c) = is_ok (column_value f' fs p' c).
Proof.
  unfold column_value.
  repeat match goal with |- context [if ?b then _ else _] =>
    destruct b; [reflexivity|] end.
  reflexivity.
Qed.

Lemma is_ok_mapM {A B : Type} (f : A -> result B) (l : list A) :
  is_ok (mapM f l) = forallb (fun x => is_ok (f x)) l.
Proof.
  induction l as [|x l IH]; [reflexivity|]. cbn [mapM forallb].
  destruct (f x); cbn [bind is_ok andb]; [|reflexivity].
  rewrite <- IH. destruct (mapM f l); reflexivity.
Qed.

Lemma columns_ok_indep (f p : string) (fs : value) (cols : list string) :
  is_ok (_field_schema_to_columns "" fs "" cols) = true ->
  exists line, _field_schema_to_columns f fs p cols = Ok line.
Proof.
  unfold _field_schema_to_columns, row. rewrite is_ok_mapM. intros H.
  assert (H' : is_ok (mapM (column_value f fs p) cols) = true).
  { rewrite is_ok_mapM. rewrite <- H. clear H.
    induction cols as [|c cols IHc]; [reflexivity|]. cbn [forallb].
    rewrite IHc, (column_value_ok_indep f "" p "" fs c). reflexivity. }
  destruct (mapM (column_value f fs p) cols); [eauto | discriminate].
Qed.

Lemma mapM_all_ok {A B : Type} (f : A -> result B) (l : list A) :
  (forall x, In x l -> exists y, f x = Ok y) -> exists ys, mapM f l = Ok ys.
Proof.
  induction l as [|x l IH]; intros H; [cbn; eauto|].
  destruct (H x (or_introl eq_refl)) as [y Hy].
  destruct IH as [ys Hys]; [intros x' Hx'; apply H; right; exact Hx'|].
  cbn [mapM]. rewrite Hy, Hys. cbn. eauto.
Qed.

Lemma well_formed_returns (cols : list string) (o : value) :
  well_formed cols o = true ->
  forall p, exists lines, _object_schema_to_line_tuples o cols p = Ok lines.
Proof.
  induction o as [o IH] using value_height_ind. intros Hwf p.
  destruct o; try discriminate Hwf. rename kvs into its.
  cbn [well_formed] in Hwf. rewrite forallb_forall in Hwf.
  rewrite object_schema_to_line_tuples_eq. cbn [items bind].
  assert (Hkeys : Forall (fun x => sort_key x = Ok (key_of x)) its).
  { apply Forall_forall. intros x Hx. specialize (Hwf x Hx).
    rewrite !andb_true_iff in Hwf. destruct Hwf as [[[Hc _] _] _].
    destruct (field_count (snd x)) as [c|] eqn:E; [|discriminate].
    assert (Hk : sort_key x = Ok (- c, fst x)) by (apply sort_key_ok; eauto).
    unfold key_of. rewrite Hk. reflexivity. }
  rewrite (sorted_fields_of its Hkeys). cbn [bind].
  match goal with |- context [mapM ?f ?l] =>
    destruct (mapM_all_ok f l) as [blocks Hb] end.
  - intros [f fs] Hx. apply sorted_by_In in Hx.
    assert (Hfs : (height fs < height (VDict its))%nat)
      by (apply (height_dict_entry its (f, fs)); exact Hx).
    specialize (Hwf (f, fs) Hx). cbn [snd] in Hwf.
    rewrite !andb_true_iff in Hwf. destruct Hwf as [[[_ Ht] Hcols] Hnest].
    destruct (columns_ok_indep f p fs cols Hcols) as [line Hline].
    rewrite (field_lines_eq _ cols p f fs line (types_ok_recorded fs Ht) Hline).
    destruct (array_of_object fs) eqn:Ha; cbn [orb] in Hnest.
    + destruct fs; try discriminate Hnest. rewrite fold_object_lookup in Hnest.
      cbn [getitem]. destruct (lookup "object" kvs) as [ob|] eqn:El; [|discriminate].
      cbn [bind]. apply height_lookup in El.
      destruct (IH ob ltac:(lia) Hnest (p ++ f ++ ":")) as [nested ->].
      cbn. eauto.
    + destruct (plain_object fs) eqn:Hp; [|eauto].
      destruct fs; try discriminate Hnest. rewrite fold_object_lookup in Hnest.
      cbn [getitem]. destruct (lookup "object" kvs) as [ob|] eqn:El; [|discriminate].
      cbn [bind]. apply height_lookup in El.
      destruct (IH ob ltac:(lia) Hnest (p ++ f ++ ".")) as [nested ->].
      cbn. eauto.
  - rewrite Hb. cbn. eauto.
Qed.

Lemma well_formed_schema_returns (cols : list string) (data : value) :
  well_formed_schema cols data = true ->
  exists df, convert_to_dataframe data cols = Ok df.
Proof.
  intros Hwf. destruct data; try discriminate Hwf. rename kvs into dbs.
  cbn [well_formed_schema] in Hwf. rewrite forallb_forall in Hwf.
  unfold convert_to_dataframe. cbn [items bind].
  destruct (mapM_all_ok (database_lines cols) (sorted_items dbs)) as [per_db Hdb].
  - intros [db dbschema] Hx. apply sorted_by_In in Hx.
    specialize (Hwf (db, dbschema) Hx). cbn [snd] in Hwf.
    destruct dbschema; try discriminate Hwf. rename kvs into colls.
    rewrite forallb_forall in Hwf. unfold database_lines. cbn [items bind].
    destruct (mapM_all_ok (collection_lines cols db) (sorted_items colls))
      as [per_coll Hpc].
    + intros [coll cschema] Hc. apply sorted_by_In in Hc.
      specialize (Hwf (coll, cschema) Hc). cbn [snd] in Hwf.
      unfold collection_lines.
      destruct (getitem cschema "object") as [ob|]; [|discriminate].
      cbn [bind]. destruct (well_formed_returns cols ob Hwf "") as [lines ->].
      cbn. eauto.
    + rewrite Hpc. cbn. eauto.
  - rewrite Hdb. cbn. eauto.
Qed.

(** ** The recursion bound is never hit *)

Lemma bind_not_raise {A B : Type} (e : exn) (m : result A) (f : A -> result B) :
  m <> Raise e -> (forall a, m = Ok a -> f a <> Raise e) -> bind m f <> Raise e.
Proof.
  intros Hm Hf. destruct m as [a|e']; cbn [bind]; [apply Hf; reflexivity|].
  intros H. apply Hm. injection H as ->. reflexivity.
Qed.

Lemma mapM_not_raise {A B : Type} (e : exn) (f : A -> result B) (l : list A) :
  (forall x, In x l -> f x <> Raise e) -> mapM f l <> Raise e.
Proof.
  induction l as [|x l IH]; intros H; [discriminate|].
  cbn [mapM]. apply bind_not_raise; [apply H; left; reflexivity|].
  intros y _. apply bind_not_raise; [|discriminate].
  apply IH. intros x' Hx'. apply H. right. exact Hx'.
Qed.

Lemma getitem_no_recursion (v : value) (k : string) :
  getitem v k <> Raise RecursionError.
Proof.
  destruct v; try discriminate. cbn [getitem]. destruct (lookup k kvs); discriminate.
Qed.

Lemma get_no_recursion (v : value) (k : string) (d : value) :
  get v k d <> Raise RecursionError.
Proof.
  destruct v; try discriminate. cbn [get]. destruct (lookup k kvs); discriminate.
Qed.

Lemma contains_no_recursion (k : string) (v : value) :
  contains k v <> Raise RecursionError.
Proof. destruct v; discriminate. Qed.

Lemma column_value_no_recursion (f p : string) (fs : value) (c : string) :
  column_value f fs p c <> Raise RecursionError.
Proof.
  unfold column_value.
  repeat match goal with |- (if ?b then _ else _) <> _ =>
    destruct b; [try discriminate|] end.
  - unfold _field_type. apply bind_not_raise; [apply getitem_no_recursion|].
    intros t _. destruct (str_eqb "ARRAY" t); [|discriminate].
    apply bind_not_raise; [apply getitem_no_recursion|].
    intros a _. destruct a; discriminate.
  - apply bind_not_raise; [apply getitem_no_recursion|].
    intros a _. destruct a; discriminate.
  - apply bind_not_raise; [apply getitem_no_recursion|].
    intros tc _. apply bind_not_raise; [apply get_no_recursion|].
    intros atc _. apply bind_not_raise; [|discriminate].
    apply format_types_count_no_recursion_error.
  - apply get_no_recursion.
Qed.

Lemma sorted_fields_no_recursion (its : dict) :
  sorted_fields its <> Raise RecursionError.
Proof.
  unfold sorted_fields. apply bind_not_raise; [|discriminate].
  apply mapM_not_raise. intros x _. apply bind_not_raise; [|discriminate].
  unfold sort_key. apply bind_not_raise; [apply getitem_no_recursion|].
  intros c _. apply bind_not_raise; [|discriminate]. destruct c; discriminate.
Qed.

Lemma field_lines_no_recursion (self : value -> string -> result (list row))
    (cols : list string) (p f : string) (fs : value) :
  (forall o q, getitem fs "object" = Ok o -> self o q <> Raise RecursionError) ->
  field_lines self cols p (f, fs) <> Raise RecursionError.
Proof.
  intros Hself. unfold field_lines.
  apply bind_not_raise.
  { apply mapM_not_raise. intros c _. apply column_value_no_recursion. }
  intros line _. apply bind_not_raise; [apply getitem_no_recursion|].
  intros tc _. apply bind_not_raise; [apply contains_no_recursion|].
  intros has_array _. apply bind_not_raise.
  { destruct has_array; [|discriminate].
    apply bind_not_raise; [apply getitem_no_recursion|].
    intros atc _. apply contains_no_recursion. }
  intros [|] _.
  - apply bind_not_raise; [apply getitem_no_recursion|].
    intros o Ho. apply bind_not_raise; [apply Hself; exact Ho | discriminate].
  - apply bind_not_raise; [apply getitem_no_recursion|].
    intros tc' _. apply bind_not_raise; [apply contains_no_recursion|].
    intros [|] _; [|discriminate].
    apply bind_not_raise; [apply getitem_no_recursion|].
    intros o Ho. apply bind_not_raise; [apply Hself; exact Ho | discriminate].
Qed.

(** The number of activations allowed by [_object_schema_to_line_tuples]
    is never exhausted: every exception it raises is one of the source. *)
Lemma line_tuples_no_recursion_error (o : value) (cols : list string) :
  forall p, _object_schema_to_line_tuples o cols p <> Raise RecursionError.
Proof.
  induction o as [o IH] using value_height_ind. intros p.
  rewrite object_schema_to_line_tuples_eq.
  apply bind_not_raise; [destruct o; discriminate|].
  intros its Hi. apply bind_not_raise; [apply sorted_fields_no_recursion|].
  intros sf Hs. apply bind_not_raise; [|discriminate].
  apply mapM_not_raise. intros [f fs] Hx. apply field_lines_no_recursion.
  intros ob q Hob. apply IH.
  destruct o; try discriminate Hi. injection Hi as ->.
  assert (Hfs : (height fs < height (VDict its))%nat).
  { apply (height_dict_entry its (f, fs)).
    eapply Permutation_in; [apply Permutation_sym, sorted_fields_perm; exact Hs|exact Hx]. }
  apply height_getitem in Hob. lia.
Qed.

Example example_schema_flattened :
  convert_to_dataframe example_schema ["Field_full_name"; "Depth"; "Type"]
  = Ok (mkDataFrame
          ["Database"; "Collection"; "Field_full_name"; "Depth"; "Type"]
          [[VStr "blog"; VStr "posts"; VStr "name"; VInt 0; VStr "string"];
           [VStr "blog"; VStr "posts"; VStr "tags"; VInt 0; VStr "ARRAY(OBJECT)"];
           [VStr "blog"; VStr "posts"; VStr "tags:label"; VInt 1; VStr "string"];
           [VStr "blog"; VStr "posts"; VStr "tags:weight"; VInt 1; VStr "float"];
           [VStr "shop"; VStr "items"; VStr "name"; VInt 0; VStr "string"];
           [VStr "shop"; VStr "items"; VStr "tags"; VInt 0; VStr "ARRAY(OBJECT)"];
           [VStr "shop"; VStr "items"; VStr "tags:label"; VInt 1; VStr "string"];
           [VStr "shop"; VStr "items"; VStr "tags:weight"; VInt 1; VStr "float"]]).
Proof. vm_compute. reflexivity. Qed.

(** ** The number of rows *)

(** C3, as stated, fails in its last part: the field [f] below holds
    arrays whose elements are all scalars, and it is recursed into, through
    the objects it also holds. *)
Lemma scalar_array_field_recursed_into :
  has_type "ARRAY" "types_count" scalar_array_and_object_field = true
  /\ has_type "OBJECT" "array_types_count" scalar_array_and_object_field = false
  /\ _object_schema_to_line_tuples
       (VDict [("f", scalar_array_and_object_field)]) ["field_full_name"] ""
     = Ok [[VStr "f"]; [VStr "f.x"]].
Proof. repeat split. Qed.

(** C3, amended.  The rows of a flattened schema are as many as the fields
    of its collections at all nesting levels, where the fields below a
    field are those of its nested object when the field holds objects or
    arrays of objects ([schema_fields], [total_fields]).  This holds
    whenever flattening returns, and it returns on every well-formed
    schema; the bound on the recursion is never what stops it.  A field
    that holds arrays without objects among their elements is never
    recursed into through [':']: when it holds no objects itself it gives
    exactly one row, whatever it carries under ['object']; when it does,
    the rows below it are those of its object, through ['.']. *)
Theorem flatten_row_count :
  forall (data : value) (cols : list string),
    (forall df,
        convert_to_dataframe data cols = Ok df ->
        length (rows df) = schema_fields data)
    /\ (well_formed_schema cols data = true ->
        exists df,
          convert_to_dataframe data cols = Ok df
          /\ length (rows df) = schema_fields data)
    /\ (forall o p,
          _object_schema_to_line_tuples o cols p <> Raise RecursionError
          /\ (well_formed cols o = true ->
              exists lines, _object_schema_to_line_tuples o cols p = Ok lines)
          /\ forall lines,
               _object_schema_to_line_tuples o cols p = Ok lines ->
               length lines = total_fields o)
    /\ (forall f fs p lines,
          has_type "ARRAY" "types_count" fs = true ->
          has_type "OBJECT" "array_types_count" fs = false ->
          _object_schema_to_line_tuples (VDict [(f, fs)]) cols p = Ok lines ->
          exists line,
            _field_schema_to_columns f fs p cols = Ok line
            /\ ((has_type "OBJECT" "types_count" fs = false
                 /\ lines = [line]
                 /\ total_fields (VDict [(f, fs)]) = 1%nat)
                \/ (has_type "OBJECT" "types_count" fs = true
                    /\ exists ob nested,
                         getitem fs "object" = Ok ob
                         /\ _object_schema_to_line_tuples ob cols (p ++ f ++ ".")
                            = Ok nested
                         /\ lines = line :: nested))).
Proof.
  intros data cols. split; [|split; [|split]].
  - intros df. apply dataframe_length.
  - intros Hwf. destruct (well_formed_schema_returns cols data Hwf) as [df Hdf].
    exists df. split; [exact Hdf | apply (dataframe_length data cols df Hdf)].
  - intros o p. split; [apply line_tuples_no_recursion_error|].
    split; [intros Hwf; apply well_formed_returns; exact Hwf|].
    intros lines. apply line_tuples_length.
  - intros f fs p lines Harr Hobj H.
    assert (Ha : array_of_object fs = false)
      by (unfold array_of_object; rewrite Hobj; apply andb_false_r).
    apply object_schema_to_line_tuples_blocks in H.
    destruct H as (its & sf & blocks & Hi & Hs & Hb & ->).
    injection Hi as <-.
    assert (Hsf : sf = [(f, fs)]).
    { apply sorted_fields_perm in Hs. apply Permutation_length_1_inv in Hs.
      exact Hs. }
    subst sf. inversion Hb as [|x block l bl Hx Hrest]; subst.
    inversion Hrest; subst.
    apply field_lines_cases in Hx.
    destruct Hx as (line & Hline & [(Ha' & _)
                                   |[(_ & Hp' & ob & nested & Hob & Hn & ->)
                                    |(_ & Hp' & ->)]]).
    + congruence.
    + exists line. split; [exact Hline|]. right. split; [exact Hp'|].
      exists ob, nested. cbn [concat]. rewrite app_nil_r. auto.
    + exists line. split; [exact Hline|]. left. split; [exact Hp'|].
      split; [reflexivity|].
      rewrite total_fields_dict. cbn [map list_sum snd]. unfold nested_fields.
      rewrite Ha, Hp'. reflexivity.
Qed.

Lemma flatten_row_count_witness :
  exists df,
    convert_to_dataframe example_schema ["Field_full_name"; "Depth"; "Type"] = Ok df
    /\ length (rows df) = 8%nat.
Proof.
  destruct (proj1 (proj2 (flatten_row_count example_schema
                            ["Field_full_name"; "Depth"; "Type"])))
    as [df [Hdf Hlen]].
  - vm_compute. reflexivity.
  - exists df. split; [exact Hdf|]. rewrite Hlen. vm_compute. reflexivity.
Defined.

(** ** The order of rows *)











(** ** Independence of the order of keys *)








(** ** Reordering the mappings of a schema at all levels *)




Lemma Forall2_In_l {A B : Type} (R : A -> B -> Prop) (l : list A) (l' : list B) (a : A) :
  Forall2 R l l' -> In a l -> exists b, In b l' /\ R a b.
Proof.
  induction 1 as [|x y l l' Hxy _ IH]; intros Hin; [destruct Hin|].
  destruct Hin as [->|Hin].
  - exists y. split; [left; reflexivity | exact Hxy].
  - destruct (IH Hin) as (b & Hb & Hr). exists b. split; [right|]; assumption.
Qed.

















(** ** The order of rows is deterministic *)



(** The example of the specification: fields [a] and [b] with count 5 and
    [c] with count 9 come out as [c], [a], [b], in whatever order the
    object lists them. *)
Example sibling_order :
  _object_schema_to_line_tuples
    (VDict [("b", scalar_field 5 "integer"); ("c", scalar_field 9 "integer");
            ("a", scalar_field 5 "integer")])
    ["field_name"] ""
  = Ok [[VStr "c"]; [VStr "a"]; [VStr "b"]].
Proof. vm_compute. reflexivity. Qed.

(** * Further properties of the code *)

(** ** Splitting and joining *)

Lemma split_on_not_nil (sep : ascii) (s : string) : split_on sep s <> [].
Proof.
  destruct s as [|c s]; simpl; [discriminate|].
  destruct (c =? sep)%char; [discriminate|].
  destruct (split_on sep s); discriminate.
Qed.

Lemma split_dot_split_on (s : string) : split_dot s = split_on "." s.
Proof.
  induction s as [|c s IH]; [reflexivity|]. cbn [split_dot split_on].
  rewrite IH. reflexivity.
Qed.

Lemma concat_cons_cons (sep x : string) (l : list string) :
  l <> [] -> String.concat sep (x :: l) = x ++ sep ++ String.concat sep l.
Proof. destruct l; [contradiction | reflexivity]. Qed.

Lemma join_split_on (sep : ascii) (s : string) :
  String.concat (String sep EmptyString) (split_on sep s) = s.
Proof.
  induction s as [|c s IH]; [reflexivity|]. cbn [split_on].
  destruct (Ascii.eqb_spec c sep) as [->|Hc].
  - rewrite concat_cons_cons by apply split_on_not_nil. rewrite IH. reflexivity.
  - destruct (split_on sep s) as [|h t] eqn:E.
    + exfalso. exact (split_on_not_nil sep s E).
    + destruct t as [|h' t].
      * cbn in IH |- *. rewrite IH. reflexivity.
      * rewrite concat_cons_cons by discriminate.
        rewrite concat_cons_cons in IH by discriminate.
        change (String c h ++ String sep EmptyString
                  ++ String.concat (String sep EmptyString) (h' :: t))
          with (String c (h ++ String sep EmptyString
                  ++ String.concat (String sep EmptyString) (h' :: t))).
        rewrite IH. reflexivity.
Qed.

Lemma join_dot_split_dot (s : string) : join_dot (split_dot s) = s.
Proof. unfold join_dot. rewrite split_dot_split_on. apply (join_split_on "."). Qed.

(** X1.  A diff row gives back the hierarchy path of its record.  When
    the path has three segments or more, database, collection and
    remaining hierarchy, with a ['.'] between them, are the path; when it
    has exactly two, the remaining hierarchy is the empty string and
    database, ['.'] and collection are the path.  On any string,
    ['.'.join(s.split('.'))] is [s]. *)
Theorem diff_row_rebuilds_hierarchy :
  forall (d : value) (s : string) (r : row),
    getitem d "hierarchy" = Ok (VStr s) ->
    (2 <= length (split_dot s))%nat ->
    _DiffPreProcessing.table_row d = Ok r ->
    join_dot (split_dot s) = s
    /\ exists db coll rest prev new,
         r = [VStr db; VStr coll; VStr rest; prev; new]
         /\ (length (split_dot s) = 2%nat ->
             rest = "" /\ db ++ "." ++ coll = s)
         /\ ((3 <= length (split_dot s))%nat ->
             db ++ "." ++ coll ++ "." ++ rest = s).
Proof.
  intros d s r Hh Hlen Hr. split; [apply join_dot_split_dot|].
  apply table_row_columns in Hr.
  destruct Hr as (h & p & n & db & coll & rest & Hh' & _ & _ & -> & Hcols).
  rewrite Hh in Hh'. injection Hh' as <-.
  destruct Hcols as [(Hf & _)|[(s' & d0 & E & _ & Hs & _)
                               |(s' & d0 & c0 & r0 & E & Hs & -> & -> & ->)]].
  - cbn in Hf. destruct s; [cbn in Hlen; lia | discriminate Hf].
  - injection E as <-. rewrite Hs in Hlen. cbn in Hlen. lia.
  - injection E as <-. exists d0, c0, (join_dot r0), p, n.
    split; [reflexivity|].
    pose proof (join_dot_split_dot s) as Hj. rewrite Hs in *. split.
    + intros Hl. destruct r0 as [|x r0]; [|cbn in Hl; lia].
      split; [reflexivity | exact Hj].
    + intros Hl. destruct r0 as [|x r0]; [cbn in Hl; lia|].
      unfold join_dot in *. rewrite !concat_cons_cons in Hj by discriminate.
      exact Hj.
Qed.

Lemma diff_row_rebuilds_hierarchy_witness :
  exists db coll rest prev new,
    [VStr "shop"; VStr "items"; VStr "tags.label"; VStr "string"; VStr "integer"]
    = [VStr db; VStr coll; VStr rest; prev; new]
    /\ (length (split_dot "shop.items.tags.label") = 2%nat ->
        rest = "" /\ db ++ "." ++ coll = "shop.items.tags.label")
    /\ ((3 <= length (split_dot "shop.items.tags.label"))%nat ->
        db ++ "." ++ coll ++ "." ++ rest = "shop.items.tags.label").
Proof.
  apply (proj2 (diff_row_rebuilds_hierarchy
                  (VDict [("hierarchy", VStr "shop.items.tags.label");
                          ("prev_schema", VStr "string");
                          ("new_schema", VStr "integer")])
                  "shop.items.tags.label"
                  [VStr "shop"; VStr "items"; VStr "tags.label";
                   VStr "string"; VStr "integer"]
                  eq_refl ltac:(cbn; lia) eq_refl)).
Defined.

(** ** Records the diff strategy accepts *)

(** X2.  A record that is not a dict raises [TypeError].  A dict raises
    [KeyError] when it has no ['hierarchy'], and [AttributeError] when its
    ['hierarchy'] is truthy and not a string.  It gives a row exactly when
    it has the keys ['hierarchy'], ['prev_schema'] and ['new_schema'] and
    its ['hierarchy'] is falsy or a string. *)
Theorem diff_record_accepted :
  forall d : value,
    (is_dict d = false -> _DiffPreProcessing.table_row d = Raise TypeError)
    /\ (forall kvs, d = VDict kvs ->
          (lookup "hierarchy" kvs = None ->
           _DiffPreProcessing.table_row d = Raise (KeyError "hierarchy"))
          /\ (forall h, lookup "hierarchy" kvs = Some h -> truthy h = true ->
                        (forall s, h <> VStr s) ->
                        _DiffPreProcessing.table_row d = Raise AttributeError)
          /\ ((exists r, _DiffPreProcessing.table_row d = Ok r)
              <-> exists h p n,
                    lookup "hierarchy" kvs = Some h
                    /\ lookup "prev_schema" kvs = Some p
                    /\ lookup "new_schema" kvs = Some n
                    /\ (truthy h = false \/ exists s, h = VStr s))).
Proof.
  intros d. split.
  - intros Hd. destruct d; try reflexivity. discriminate Hd.
  - intros kvs ->. split; [|split].
    + intros Hn. unfold _DiffPreProcessing.table_row. cbn [getitem].
      rewrite Hn. reflexivity.
    + intros h Hh Ht Hns. unfold _DiffPreProcessing.table_row. cbn [getitem].
      rewrite Hh. cbn [bind]. rewrite Ht. cbn [negb].
      destruct h; try reflexivity. exfalso. exact (Hns s eq_refl).
    + split.
      * intros [r Hr]. apply table_row_columns in Hr.
        destruct Hr as (h & p & n & db & coll & rest & Hh & Hp & Hn & _ & Hc).
        cbn [getitem] in Hh, Hp, Hn.
        destruct (lookup "hierarchy" kvs) as [h'|]; [|discriminate Hh].
        destruct (lookup "prev_schema" kvs) as [p'|]; [|discriminate Hp].
        destruct (lookup "new_schema" kvs) as [n'|]; [|discriminate Hn].
        injection Hh as ->. exists h, p', n'. repeat split.
        destruct Hc as [(Hf & _)|[(s & _ & -> & _)|(s & _ & _ & _ & -> & _)]];
          eauto.
      * intros (h & p & n & Hh & Hp & Hn & Hok).
        assert (Gh : getitem (VDict kvs) "hierarchy" = Ok h)
          by (cbn [getitem]; rewrite Hh; reflexivity).
        assert (Gp : getitem (VDict kvs) "prev_schema" = Ok p)
          by (cbn [getitem]; rewrite Hp; reflexivity).
        assert (Gn : getitem (VDict kvs) "new_schema" = Ok n)
          by (cbn [getitem]; rewrite Hn; reflexivity).
        destruct (truthy h) eqn:Ht.
        -- destruct Hok as [Hf|[s ->]]; [discriminate Hf|].
           exact (table_row_ok (VDict kvs) s p n Gh Gp Gn).
        -- unfold _DiffPreProcessing.table_row. rewrite Gh. cbn [bind].
           rewrite Ht. cbn [negb]. rewrite (prev_or_new_eq _ p n Gp Gn).
           cbn [bind]. rewrite Gp, Gn. cbn [bind]. eauto.
Qed.

(** ** The shape of data frames *)

Lemma mapM_length {A B : Type} (f : A -> result B) (l : list A) (ys : list B) :
  mapM f l = Ok ys -> length ys = length l.
Proof.
  intros H. apply mapM_ok in H. induction H; cbn [length]; congruence.
Qed.

Lemma Forall_concat {A : Type} (P : A -> Prop) (ls : list (list A)) :
  Forall (Forall P) ls -> Forall P (concat ls).
Proof.
  induction 1 as [|l ls Hl _ IH]; [constructor|].
  cbn [concat]. apply Forall_app. split; assumption.
Qed.

Lemma mapM_Forall {A B : Type} (f : A -> result B) (P : B -> Prop)
    (l : list A) (ys : list B) :
  mapM f l = Ok ys -> (forall x y, In x l -> f x = Ok y -> P y) -> Forall P ys.
Proof.
  intros H. apply mapM_ok in H.
  induction H as [|x y l ys Hxy _ IH]; intros HP; constructor.
  - apply (HP x y); [left; reflexivity | exact Hxy].
  - apply IH. intros x' y' Hx'. apply HP. right. exact Hx'.
Qed.

Lemma line_tuples_width (o : value) (cols : list string) :
  forall p lines,
    _object_schema_to_line_tuples o cols p = Ok lines ->
    Forall (fun line => length line = length cols) lines.
Proof.
  induction o as [o IH] using value_height_ind. intros p lines H.
  apply object_schema_to_line_tuples_blocks in H.
  destruct H as (its & sf & blocks & Hi & Hs & Hb & ->).
  destruct o as [| | | | | |kvs]; try discriminate Hi. injection Hi as <-.
  apply Forall_concat. apply Forall_forall. intros block Hblock.
  destruct (Forall2_In_l _ _ _ block (Forall2_flip Hb) Hblock) as ([f fs] & Hin & Hx).
  cbn beta in Hx. apply field_lines_cases in Hx.
  assert (Hfs : (height fs < height (VDict kvs))%nat).
  { apply (height_dict_entry kvs (f, fs)).
    eapply Permutation_in; [apply Permutation_sym, sorted_fields_perm; exact Hs|exact Hin]. }
  destruct Hx as (line & Hline & Hcases).
  assert (Hw : length line = length cols)
    by (apply (mapM_length _ _ _ Hline)).
  destruct Hcases as [(_ & ob & nested & Hob & Hn & ->)
                     |[(_ & _ & ob & nested & Hob & Hn & ->)|(_ & _ & ->)]].
  - constructor; [exact Hw|]. apply (IH ob) in Hn; [exact Hn|].
    apply height_getitem in Hob. lia.
  - constructor; [exact Hw|]. apply (IH ob) in Hn; [exact Hn|].
    apply height_getitem in Hob. lia.
  - constructor; [exact Hw | constructor].
Qed.

(** X3.  A data frame built by either strategy is rectangular: every row
    has as many cells as the header has names, which is two more than the
    columns asked for in a schema frame and five in a diff frame. *)
Theorem dataframe_rectangular :
  (forall data cols df,
      convert_to_dataframe data cols = Ok df ->
      length (columns df) = (2 + length cols)%nat
      /\ Forall (fun r => length r = length (columns df)) (rows df))
  /\ (forall data df,
        _DiffPreProcessing.convert_to_dataframe data = Ok df ->
        length (columns df) = 5%nat
        /\ Forall (fun r => length r = length (columns df)) (rows df)).
Proof.
  split.
  - intros data cols df H. unfold convert_to_dataframe in H.
    apply bind_ok in H. destruct H as (dbs & _ & H).
    apply bind_ok in H. destruct H as (per_db & Hdb & H). injection H as <-.
    cbn [columns rows length]. split; [reflexivity|].
    apply Forall_concat. apply (mapM_Forall _ _ _ _ Hdb).
    intros [db s] b _ Hb. unfold database_lines in Hb.
    apply bind_ok in Hb. destruct Hb as (colls & _ & Hb).
    apply bind_ok in Hb. destruct Hb as (per_coll & Hpc & Hb). injection Hb as <-.
    apply Forall_concat. apply (mapM_Forall _ _ _ _ Hpc).
    intros [coll cs] bc _ Hbc. unfold collection_lines in Hbc.
    apply bind_ok in Hbc. destruct Hbc as (ob & _ & Hbc).
    apply bind_ok in Hbc. destruct Hbc as (tuples & Ht & Hbc). injection Hbc as <-.
    apply Forall_forall. intros r Hr. apply in_map_iff in Hr.
    destruct Hr as (line & <- & Hline). cbn [length]. do 2 f_equal.
    apply line_tuples_width in Ht. rewrite Forall_forall in Ht. exact (Ht line Hline).
  - intros data df H. unfold _DiffPreProcessing.convert_to_dataframe in H.
    apply bind_ok in H. destruct H as (ds & _ & H).
    apply bind_ok in H. destruct H as (table & Ht & H). injection H as <-.
    cbn [columns rows]. split; [reflexivity|].
    apply (mapM_Forall _ _ _ _ Ht). intros d r _ Hr.
    apply table_row_columns in Hr.
    destruct Hr as (h & p & n & db & coll & rest & _ & _ & _ & -> & _).
    reflexivity.
Qed.

Lemma dataframe_rectangular_witness :
  Forall (fun r => length r = 4%nat)
    [[VStr "shop"; VStr "items"; VStr "tags"; VInt 0];
     [VStr "shop"; VStr "items"; VStr "tags:label"; VInt 1]].
Proof.
  apply (proj2 (proj1 dataframe_rectangular
                  (VDict [("shop",
                           VDict [("items",
                                   VDict [("object",
                                           VDict [("tags",
                                                   VDict [("count", VInt 7);
                                                          ("types_count", VDict [("ARRAY", VInt 7)]);
                                                          ("array_types_count", VDict [("OBJECT", VInt 9)]);
                                                          ("object",
                                                           VDict [("label", scalar_field 9 "string")])])])])])])
                  ["Field_full_name"; "Depth"]
                  (mkDataFrame ["Database"; "Collection"; "Field_full_name"; "Depth"]
                     [[VStr "shop"; VStr "items"; VStr "tags"; VInt 0];
                      [VStr "shop"; VStr "items"; VStr "tags:label"; VInt 1]])
                  eq_refl)).
Defined.

(** ** Compact names and depths *)

Lemma keep_separators_app (p q : string) :
  keep_separators (p ++ q) = keep_separators p ++ keep_separators q.
Proof.
  induction p as [|c p IH]; [reflexivity|]. cbn [append keep_separators].
  destruct ((c =? ".")%char || (c =? ":")%char); rewrite IH; reflexivity.
Qed.

Lemma separator_marks_app (p q : string) :
  separator_marks (p ++ q) = separator_marks p ++ separator_marks q.
Proof.
  induction p as [|c p IH]; [reflexivity|]. cbn [append separator_marks].
  destruct ((c =? ".")%char || (c =? ":")%char); rewrite IH; reflexivity.
Qed.

Lemma separator_marks_subs (p : string) :
  replace_char ":" " : " (replace_char "." " . " (keep_separators p))
  = separator_marks p.
Proof.
  induction p as [|c p IH]; [reflexivity|]. cbn [keep_separators separator_marks].
  destruct (Ascii.eqb_spec c ".") as [->|Hdot]; cbn [orb].
  - cbn. rewrite IH. reflexivity.
  - destruct (Ascii.eqb_spec c ":") as [->|Hcolon].
    + cbn. rewrite IH. reflexivity.
    + exact IH.
Qed.

Lemma separator_marks_length (p : string) :
  String.length (separator_marks p) = (3 * String.length (keep_separators p))%nat.
Proof.
  induction p as [|c p IH]; [reflexivity|]. cbn [keep_separators separator_marks].
  destruct ((c =? ".")%char || (c =? ":")%char); [|exact IH].
  cbn [String.length]. rewrite IH. lia.
Qed.

Lemma string_app_assoc (s t u : string) : (s ++ t) ++ u = s ++ t ++ u.
Proof. induction s as [|c s IH]; [reflexivity|]. cbn. rewrite IH. reflexivity. Qed.

Lemma string_app_nil_r (s : string) : s ++ "" = s.
Proof. induction s as [|c s IH]; [reflexivity|]. cbn. rewrite IH. reflexivity. Qed.

Lemma string_length_app (s t : string) :
  String.length (s ++ t) = (String.length s + String.length t)%nat.
Proof. induction s as [|c s IH]; [reflexivity|]. cbn. rewrite IH. reflexivity. Qed.

(** X4.  The compact name of a field is its name after one mark per
    separator of the prefix, the separator between two blanks: the two
    substitutions do not disturb each other.  It is three characters
    longer than the name for each level of depth, and depths add up along
    a prefix. *)
Theorem compact_name_and_depth :
  forall (field : string) (field_schema : value) (p q : string),
    _field_compact_name field field_schema p = separator_marks p ++ field
    /\ Z.of_nat (String.length (_field_compact_name field field_schema p))
       = 3 * _field_depth field field_schema p + Z.of_nat (String.length field)
    /\ _field_depth field field_schema (p ++ q)
       = _field_depth field field_schema p + _field_depth field field_schema q
    /\ _field_compact_name field field_schema (p ++ q)
       = separator_marks p ++ _field_compact_name field field_schema q.
Proof.
  intros field fs p q. unfold _field_compact_name, _field_depth.
  rewrite !separator_marks_subs. repeat split.
  - rewrite string_length_app, separator_marks_length. lia.
  - rewrite keep_separators_app, string_length_app. lia.
  - rewrite separator_marks_app. rewrite string_app_assoc. reflexivity.
Qed.

(** ** Lines below a prefix *)

(** X5.  Every line flattened from an object schema under the prefix [p]
    is the row of a field whose own prefix starts with [p]: nested lines
    never leave the prefix they were called with. *)
Theorem nested_lines_keep_prefix :
  forall (o : value) (cols : list string) (p : string) (lines : list row),
    _object_schema_to_line_tuples o cols p = Ok lines ->
    Forall (line_under cols p) lines.
Proof.
  induction o as [o IH] using value_height_ind. intros cols p lines H.
  apply object_schema_to_line_tuples_blocks in H.
  destruct H as (its & sf & blocks & Hi & Hs & Hb & ->).
  apply Forall_concat. apply Forall_forall. intros block Hblock.
  destruct (Forall2_In_l _ _ _ block (Forall2_flip Hb) Hblock) as ([f fs] & Hin & Hx).
  cbn beta in Hx. apply field_lines_cases in Hx.
  destruct Hx as (line & Hline & Hcases).
  assert (Hown : line_under cols p line).
  { exists "", f, fs. rewrite string_app_nil_r. exact Hline. }
  assert (Hnest : forall ob sep nested,
             getitem fs "object" = Ok ob ->
             In (f, fs) its ->
             _object_schema_to_line_tuples ob cols (p ++ f ++ sep) = Ok nested ->
             Forall (line_under cols p) nested).
  { intros ob sep nested Hob Hits Hn.
    assert (Hlt : (height ob < height o)%nat).
    { destruct o as [| | | | | |kvs]; try discriminate Hi. injection Hi as <-.
      apply height_getitem in Hob.
      pose proof (height_dict_entry kvs (f, fs) Hits) as Hfs. cbn [snd] in Hfs. lia. }
    specialize (IH ob Hlt cols _ nested Hn).
    eapply Forall_impl; [|exact IH]. intros l (q & f' & fs' & Hl).
    exists ((f ++ sep) ++ q), f', fs'. rewrite <- string_app_assoc. exact Hl. }
  assert (Hits : In (f, fs) its).
  { eapply Permutation_in; [apply Permutation_sym, sorted_fields_perm; exact Hs|exact Hin]. }
  destruct Hcases as [(_ & ob & nested & Hob & Hn & ->)
                     |[(_ & _ & ob & nested & Hob & Hn & ->)|(_ & _ & ->)]].
  - constructor; [exact Hown|]. exact (Hnest ob ":" nested Hob Hits Hn).
  - constructor; [exact Hown|]. exact (Hnest ob "." nested Hob Hits Hn).
  - constructor; [exact Hown | constructor].
Qed.

Lemma nested_lines_keep_prefix_witness :
  Forall (line_under ["Field_full_name"; "Depth"] "tags:")
    [[VStr "tags:label"; VInt 1]].
Proof.
  apply (nested_lines_keep_prefix (VDict [("label", scalar_field 9 "string")])
           ["Field_full_name"; "Depth"] "tags:"
           [[VStr "tags:label"; VInt 1]] eq_refl).
Defined.

(** ** Column identifiers *)

Lemma lower_ascii_idem (c : ascii) : lower_ascii (lower_ascii c) = lower_ascii c.
Proof. destruct c as [[] [] [] [] [] [] [] []]; reflexivity. Qed.

Lemma lower_idem (s : string) : lower (lower s) = lower s.
Proof.
  induction s as [|c s IH]; [reflexivity|]. cbn [lower].
  rewrite lower_ascii_idem, IH. reflexivity.
Qed.

Lemma column_value_lower (f p : string) (fs : value) (c : string) :
  column_value f fs p (lower c) = column_value f fs p c.
Proof. unfold column_value. rewrite lower_idem. reflexivity. Qed.

Lemma columns_lower (f p : string) (fs : value) (cols : list string) :
  _field_schema_to_columns f fs p (map lower cols)
  = _field_schema_to_columns f fs p cols.
Proof.
  unfold _field_schema_to_columns.
  induction cols as [|c cols IH]; [reflexivity|]. cbn [map mapM].
  rewrite column_value_lower, IH. reflexivity.
Qed.

Lemma bind_ext {A B : Type} (m : result A) (f g : A -> result B) :
  (forall a, m = Ok a -> f a = g a) -> bind m f = bind m g.
Proof. intros H. destruct m; [apply H; reflexivity | reflexivity]. Qed.

Lemma field_lines_columns_ext (self self' : value -> string -> result (list row))
    (cols cols' : list string) (p : string) (x : string * value) :
  (forall f fs q, _field_schema_to_columns f fs q cols
                  = _field_schema_to_columns f fs q cols') ->
  (forall o q, self o q = self' o q) ->
  field_lines self cols p x = field_lines self' cols' p x.
Proof.
  intros Hc Hs. destruct x as [f fs].
  rewrite (field_lines_ext self self' cols p f fs) by (intros; apply Hs).
  unfold field_lines. rewrite Hc. reflexivity.
Qed.

Lemma line_tuples_fuel_columns_ext (cols cols' : list string) :
  (forall f fs q, _field_schema_to_columns f fs q cols
                  = _field_schema_to_columns f fs q cols') ->
  forall n o p, line_tuples_fuel n o cols p = line_tuples_fuel n o cols' p.
Proof.
  intros Hc. induction n as [|n IH]; intros o p; [reflexivity|].
  cbn [line_tuples_fuel]. apply bind_ext. intros its _.
  apply bind_ext. intros sf _. f_equal.
  apply mapM_ext_in. intros x _. apply field_lines_columns_ext; [exact Hc|].
  intros o' q. apply IH.
Qed.

Lemma same_lower_columns (cols cols' : list string) :
  map lower cols = map lower cols' ->
  forall f fs q, _field_schema_to_columns f fs q cols
                 = _field_schema_to_columns f fs q cols'.
Proof.
  intros H f fs q. rewrite <- (columns_lower f q fs cols), H. apply columns_lower.
Qed.

(** X6.  Column identifiers are read without regard to case: two lists of
    columns that agree once lowered give the same lines for every object
    schema and the same rows for every schema, or the same exception. *)
Theorem columns_case_insensitive :
  forall (cols cols' : list string),
    map lower cols = map lower cols' ->
    (forall o p, _object_schema_to_line_tuples o cols p
                 = _object_schema_to_line_tuples o cols' p)
    /\ (forall data, frame_rows (convert_to_dataframe data cols)
                     = frame_rows (convert_to_dataframe data cols')).
Proof.
  intros cols cols' H.
  assert (Hl : forall o p, _object_schema_to_line_tuples o cols p
                           = _object_schema_to_line_tuples o cols' p).
  { intros o p. unfold _object_schema_to_line_tuples.
    apply line_tuples_fuel_columns_ext. apply same_lower_columns. exact H. }
  split; [exact Hl|]. intros data. unfold convert_to_dataframe, frame_rows.
  destruct (items data) as [dbs|e]; cbn [bind]; [|reflexivity].
  rewrite (mapM_ext_in (database_lines cols) (database_lines cols')).
  - destruct (mapM (database_lines cols') (sorted_items dbs)); reflexivity.
  - intros [db s] _. unfold database_lines. apply bind_ext. intros colls _.
    f_equal. apply mapM_ext_in. intros [coll cs] _. unfold collection_lines.
    apply bind_ext. intros ob _. rewrite Hl. reflexivity.
Qed.

Lemma columns_case_insensitive_witness :
  frame_rows (convert_to_dataframe example_schema ["FIELD_FULL_NAME"; "type"])
  = frame_rows (convert_to_dataframe example_schema ["Field_full_name"; "Type"]).
Proof.
  apply (proj2 (columns_case_insensitive
                  ["FIELD_FULL_NAME"; "type"] ["Field_full_name"; "Type"]
                  eq_refl)).
Defined.

(** ** Filtered schemas *)

Lemma no_bookkeeping_entry (d : dict) (kv : string * value) :
  no_bookkeeping (VDict d) = true -> In kv d ->
  bookkeeping (fst kv) = false /\ no_bookkeeping (snd kv) = true.
Proof.
  cbn [no_bookkeeping]. rewrite forallb_forall. intros H Hin.
  specialize (H kv Hin). apply andb_true_iff in H. destruct H as [Hk Hv].
  split; [|exact Hv]. destruct (bookkeeping (fst kv)); [discriminate Hk | reflexivity].
Qed.

Lemma no_bookkeeping_no_count (v : value) :
  no_bookkeeping v = true -> field_count v = None.
Proof.
  intros H. unfold field_count. destruct v as [| | | | | |d]; try reflexivity.
  cbn [getitem]. destruct (lookup "count" d) as [c|] eqn:E; [|reflexivity].
  apply lookup_In in E. destruct (no_bookkeeping_entry d _ H E) as [Hk _].
  discriminate Hk.
Qed.

Lemma mapM_raise_all {A B : Type} (e : exn) (f : A -> result B) (l : list A) :
  l <> [] -> (forall x, In x l -> f x = Raise e) -> mapM f l = Raise e.
Proof.
  destruct l as [|x l]; [contradiction|]. intros _ H. cbn [mapM].
  rewrite (H x) by (left; reflexivity). reflexivity.
Qed.

(** X7.  A schema filtered of its counts cannot be flattened any more: on
    a filtered object schema the flattening returns lines only when no
    field is left, and then none; when the schema has a field and its
    fields are dicts, the sort on ['count'] raises [KeyError]. *)
Theorem filtered_schema_not_flattened :
  forall (o : value) (cols : list string) (p : string),
    (forall lines,
        _object_schema_to_line_tuples (filter_data o) cols p = Ok lines ->
        filter_data o = VDict [] /\ lines = [])
    /\ (forall kvs,
          o = VDict kvs ->
          (exists k, In k (keys kvs) /\ bookkeeping k = false) ->
          (forall k v, In (k, v) kvs -> bookkeeping k = false -> is_dict v = true) ->
          _object_schema_to_line_tuples (filter_data o) cols p
          = Raise (KeyError "count")).
Proof.
  intros o cols p. split.
  - intros lines H. pose proof (filter_data_no_bookkeeping o) as Hnb.
    apply object_schema_to_line_tuples_blocks in H.
    destruct H as (its & sf & blocks & Hi & Hs & Hb & ->).
    destruct (filter_data o) as [| | | | | |kvs]; try discriminate Hi.
    injection Hi as <-. pose proof Hs as Hs'.
    apply sorted_fields_ok in Hs. destruct Hs as [-> Hall].
    destruct kvs as [|x kvs].
    + inversion Hb; subst. split; reflexivity.
    + exfalso. apply Forall_inv in Hall. apply sort_key_ok in Hall.
      destruct Hall as (c & Hc & _).
      destruct (no_bookkeeping_entry _ x Hnb (or_introl eq_refl)) as [_ Hx].
      rewrite (no_bookkeeping_no_count _ Hx) in Hc. discriminate Hc.
  - intros kvs -> (k & Hk & Hbk) Hd.
    rewrite object_schema_to_line_tuples_eq, filter_data_dict. cbn [items bind].
    assert (Hne : fold_left filter_step kvs [] <> []).
    { intros E. pose proof (filter_fold_keeps kvs [] k (or_intror (conj Hk Hbk))) as Hin.
      rewrite E in Hin. destruct Hin. }
    assert (Hall : Forall (fun kv => is_dict (snd kv) = true
                                     /\ no_bookkeeping (snd kv) = true)
                     (fold_left filter_step kvs [])).
    { apply (filter_fold_invariant _ kvs []).
      - intros [k' v'] Hin Hb. cbn [fst snd] in *. split.
        + specialize (Hd k' v' Hin Hb). destruct v'; try discriminate Hd. reflexivity.
        + apply filter_data_no_bookkeeping.
      - constructor.
      - constructor. }
    unfold sorted_fields.
    rewrite (mapM_raise_all (KeyError "count")); [reflexivity | exact Hne |].
    intros [k' v'] Hin. rewrite Forall_forall in Hall.
    destruct (Hall _ Hin) as [Hdict Hnb]. cbn [snd] in *. unfold sort_key. cbn [snd].
    destruct v' as [| | | | | |d]; try discriminate Hdict. cbn [getitem].
    destruct (lookup "count" d) as [c|] eqn:E; [|reflexivity].
    apply lookup_In in E. destruct (no_bookkeeping_entry d _ Hnb E) as [Hc _].
    discriminate Hc.
Qed.

Lemma filtered_schema_not_flattened_witness :
  _object_schema_to_line_tuples
    (filter_data (VDict [("name", scalar_field 10 "string")]))
    ["Field_full_name"] ""
  = Raise (KeyError "count").
Proof.
  apply (proj2 (filtered_schema_not_flattened
                  (VDict [("name", scalar_field 10 "string")])
                  ["Field_full_name"] "")
               [("name", scalar_field 10 "string")] eq_refl).
  - exists "name". split; [left; reflexivity | reflexivity].
  - intros k v [E|[]] _. injection E as <- <-. reflexivity.
Defined.

(** ** Arrays whose element types are missing *)

(** X8.  When ['ARRAY'] is a key of [types_count], the text cannot be
    built without the element types: [_format_types_count] raises
    [AttributeError] when [array_types_count] is [None], and also when it
    has an ['ARRAY'] key itself (arrays of arrays).  So the column
    [Types_count] raises for a field schema that has ['ARRAY'] among its
    types and no ['array_types_count']. *)
Theorem array_types_count_needed :
  forall (tc : list (string * Z)) (atc : value),
    In "ARRAY" (map fst tc) ->
    atc = VNone
    \/ (exists la, atc = types_count_dict la /\ In "ARRAY" (map fst la)) ->
    _format_types_count (types_count_dict tc) atc = Raise AttributeError
    /\ (forall f p kvs,
          lookup "types_count" kvs = Some (types_count_dict tc) ->
          lookup "array_types_count" kvs
          = (match atc with VNone => None | _ => Some atc end) ->
          column_value f (VDict kvs) p "Types_count" = Raise AttributeError).
Proof.
  intros tc atc Harr Hatc.
  assert (H : _format_types_count (types_count_dict tc) atc = Raise AttributeError).
  { unfold _format_types_count. apply format_types_count_fuel_raise; [exact Harr|].
    destruct Hatc as [->|(la & -> & Hla)]; [reflexivity|].
    apply format_types_count_fuel_raise; [exact Hla | reflexivity]. }
  split; [exact H|]. intros f p kvs Htc Ha. unfold column_value.
  change (lower "Types_count") with "types_count". cbn [String.eqb Ascii.eqb Bool.eqb].
  cbn [getitem get]. rewrite Htc, Ha. cbn [bind].
  destruct Hatc as [->|(la & -> & Hla)]; cbn [bind].
  - rewrite H. reflexivity.
  - unfold types_count_dict at 1. cbn [bind]. fold (types_count_dict la).
    rewrite H. reflexivity.
Qed.

Lemma array_types_count_needed_witness :
  _format_types_count (types_count_dict [("ARRAY", 10); ("null", 3)]) VNone
  = Raise AttributeError.
Proof.
  apply (proj1 (array_types_count_needed [("ARRAY", 10); ("null", 3)] VNone
                  (or_introl eq_refl) (or_introl eq_refl))).
Defined.

(** ** Finding the right subclass *)

Lemma class_height_ind (P : class -> Prop) :
  (forall c, (forall s, (class_height s < class_height c)%nat -> P s) -> P c) ->
  forall c, P c.
Proof.
  intros Hstep c.
  assert (H : forall n s, (class_height s < n)%nat -> P s).
  { induction n as [|n IH]; intros s Hs; [lia|].
    apply Hstep. intros s' Hs'. apply IH. lia. }
  apply (H (S (class_height c))). lia.
Qed.

Lemma class_height_subclass (c s : class) :
  In s (__subclasses__ c) -> (class_height s < class_height c)%nat.
Proof.
  destruct c as [name attrs subs]. cbn [__subclasses__ class_height].
  induction subs as [|x subs IH]; intros Hin; [destruct Hin|].
  cbn [fold_right]. destruct Hin as [->|Hin]; [lia|]. specialize (IH Hin). lia.
Qed.

Lemma candidates_output_format (c : class) :
  candidates "output_format" c
  = map (fun d => (d, "output_format")) (descendants c).
Proof.
  destruct c as [name attrs subs]. unfold candidates.
  cbn [__subclasses__ descendants].
  induction subs as [|s subs IH]; [reflexivity|].
  cbn [flat_map]. rewrite map_app, IH. reflexivity.
Qed.

Lemma find_app {A : Type} (p : A -> bool) (l l' : list A) :
  find p (l ++ l')%list
  = match find p l with Some x => Some x | None => find p l' end.
Proof.
  induction l as [|x l IH]; [reflexivity|]. cbn [app find].
  destruct (p x); [reflexivity | exact IH].
Qed.

Lemma rec_find_unfold (attribute_value attr name : string)
    (attrs : list (string * attribute)) (s : class) (subs : list class) :
  rec_find_right_subclass attribute_value attr (Class name attrs (s :: subs))
  = (x <- getattr s attr ;;
     if attribute_eqb x attribute_value then Ok (Some s)
     else
       rec_res <- rec_find_right_subclass attribute_value "output_format" s ;;
       match rec_res with
       | Some c => Ok (Some c)
       | None => rec_find_right_subclass attribute_value attr
                   (Class name attrs subs)
       end).
Proof. reflexivity. Qed.

Lemma candidates_cons (attr name : string) (attrs : list (string * attribute))
    (s : class) (subs : list class) :
  candidates attr (Class name attrs (s :: subs))
  = ((s, attr) :: map (fun c => (c, "output_format")) (descendants s)
     ++ candidates attr (Class name attrs subs))%list.
Proof. reflexivity. Qed.

Lemma rec_find_first (attribute_value : string) (start_class : class) :
  forall attr,
    (forall c a, In (c, a) (candidates attr start_class) ->
                 exists x, getattr c a = Ok x) ->
    rec_find_right_subclass attribute_value attr start_class
    = Ok (option_map fst (find (right_candidate attribute_value)
                               (candidates attr start_class))).
Proof.
  induction start_class as [start_class IH] using class_height_ind.
  intros attr Hattr. destruct start_class as [name attrs subs].
  assert (Hsub : forall s, In s subs ->
                   (class_height s < class_height (Class name attrs subs))%nat).
  { intros s Hs. apply class_height_subclass. exact Hs. }
  assert (IH' : forall s, In s subs ->
                  (forall c a, In (c, a) (candidates "output_format" s) ->
                               exists x, getattr c a = Ok x) ->
                  rec_find_right_subclass attribute_value "output_format" s
                  = Ok (option_map fst (find (right_candidate attribute_value)
                                             (candidates "output_format" s)))).
  { intros s Hs. apply IH. apply Hsub. exact Hs. }
  clear IH Hsub. revert Hattr IH'.
  induction subs as [|s subs IHs]; intros Hattr IH'; [reflexivity|].
  rewrite rec_find_unfold, candidates_cons. cbn [find].
  destruct (Hattr s attr) as [x Hx]; [rewrite candidates_cons; left; reflexivity|].
  unfold right_candidate at 1. cbn [fst snd]. unfold has_attribute_value.
  rewrite Hx. cbn [bind]. destruct (attribute_eqb x attribute_value); [reflexivity|].
  rewrite find_app. rewrite IH'.
  - rewrite candidates_output_format. cbn [bind].
    destruct (find (right_candidate attribute_value)
                (map (fun c => (c, "output_format")) (descendants s))) as [y|];
      [reflexivity|].
    apply IHs.
    + intros c a Hin. apply Hattr. rewrite candidates_cons. right.
      apply in_or_app. right. exact Hin.
    + intros s' Hs'. apply IH'. right. exact Hs'.
  - left; reflexivity.
  - intros c a Hin. apply Hattr. rewrite candidates_cons. right.
    apply in_or_app. left. rewrite <- candidates_output_format. exact Hin.
Qed.

(** X9.  On any tree of classes whose candidates have the attribute they
    are looked at for, [rec_find_right_subclass] returns the first class,
    depth first, that has the value looked for, and [None] when there is
    none.  Only the direct subclasses of [start_class] are compared on
    [attribute]; the classes below them are compared on
    ['output_format'], whatever [attribute] is. *)
Theorem rec_find_right_subclass_first_candidate :
  forall (attribute_value attribute : string) (start_class : class),
    (forall c a, In (c, a) (candidates attribute start_class) ->
                 exists x, getattr c a = Ok x) ->
    rec_find_right_subclass attribute_value attribute start_class
    = Ok (option_map fst (find (right_candidate attribute_value)
                               (candidates attribute start_class)))
    /\ (forall c, rec_find_right_subclass attribute_value attribute start_class
                  = Ok (Some c) ->
                  (In c (__subclasses__ start_class)
                   /\ has_attribute_value attribute attribute_value c = true)
                  \/ (exists s, In s (__subclasses__ start_class)
                                /\ In c (descendants s)
                                /\ has_attribute_value "output_format"
                                     attribute_value c = true)).
Proof.
  intros v a start Hattr. pose proof (rec_find_first v start a Hattr) as H.
  split; [exact H|]. intros c Hc. rewrite H in Hc. injection Hc as Hc.
  destruct (find (right_candidate v) (candidates a start)) as [[c' a']|] eqn:E;
    [|discriminate Hc].
  cbn in Hc. injection Hc as ->. apply find_some in E. destruct E as [Hin Hright].
  unfold right_candidate in Hright. cbn [fst snd] in Hright.
  unfold candidates in Hin. apply in_flat_map in Hin. destruct Hin as (s & Hs & Hin).
  destruct Hin as [E|Hin].
  - injection E as <- <-. left. split; assumption.
  - apply in_map_iff in Hin. destruct Hin as (d & E & Hd). injection E as <- <-.
    right. exists s. repeat split; assumption.
Qed.

Lemma rec_find_right_subclass_first_candidate_witness :
  rec_find_right_subclass "schema" "category" OutputPreProcessing
  = Ok (Some SchemaPreProcessing_class).
Proof.
  apply (proj1 (rec_find_right_subclass_first_candidate
                  "schema" "category" OutputPreProcessing
                  ltac:(intros c a [E|[E|[]]]; injection E as <- <-;
                        eexists; reflexivity))).
Defined.

(** ** The classes of the formats *)

Lemma base_output_candidates :
  candidates "output_format" BaseOutput
  = map (fun c => (c, "output_format"))
        [HierarchicalOutput; JsonOutput; YamlOutput; ListOutput;
         TsvOutput; HtmlOutput; MdOutput; XlsxOutput].
Proof. reflexivity. Qed.

Lemma find_format (output_format : string) :
  rec_find_right_subclass output_format "output_format" BaseOutput
  = Ok (if ("json" =? output_format)%string then Some JsonOutput
        else if ("yaml" =? output_format)%string then Some YamlOutput
        else if ("tsv" =? output_format)%string then Some TsvOutput
        else if ("html" =? output_format)%string then Some HtmlOutput
        else if ("md" =? output_format)%string then Some MdOutput
        else if ("xlsx" =? output_format)%string then Some XlsxOutput
        else None).
Proof.
  rewrite rec_find_first.
  - rewrite base_output_candidates. f_equal.
    unfold right_candidate, has_attribute_value.
    cbn -[String.eqb JsonOutput YamlOutput TsvOutput HtmlOutput MdOutput XlsxOutput].
    change (getattr JsonOutput "output_format") with (Ok (StrAttr "json")).
    change (getattr YamlOutput "output_format") with (Ok (StrAttr "yaml")).
    change (getattr TsvOutput "output_format") with (Ok (StrAttr "tsv")).
    change (getattr HtmlOutput "output_format") with (Ok (StrAttr "html")).
    change (getattr MdOutput "output_format") with (Ok (StrAttr "md")).
    change (getattr XlsxOutput "output_format") with (Ok (StrAttr "xlsx")).
    cbn [attribute_eqb].
    repeat match goal with
           | |- context [if ?b then _ else _] => destruct b; [reflexivity|]
           end.
    reflexivity.
  - rewrite base_output_candidates. intros c a Hin.
    repeat (destruct Hin as [E|Hin];
            [injection E as <- <-; eexists; reflexivity|]).
    destruct Hin.
Qed.

Lemma supported_formats_eqb (output_format : string) :
  In output_format supported_formats
  <-> (("json" =? output_format) || ("yaml" =? output_format)
       || ("tsv" =? output_format) || ("html" =? output_format)
       || ("md" =? output_format) || ("xlsx" =? output_format))%string = true.
Proof.
  unfold supported_formats. cbn [In]. rewrite !orb_true_iff, !String.eqb_eq.
  intuition congruence.
Qed.

(** X10.  The formats [write_output_dict] lets through are the formats a
    class of the module is found for: for each of them
    [rec_find_right_subclass] returns a class without subclasses whose
    [output_format] is that format, and for any other string it returns
    [None]. *)
Theorem supported_formats_have_a_class :
  forall output_format : string,
    (In output_format supported_formats <->
     exists cls,
       rec_find_right_subclass output_format "output_format" BaseOutput
       = Ok (Some cls))
    /\ (forall cls,
          rec_find_right_subclass output_format "output_format" BaseOutput
          = Ok (Some cls) ->
          getattr cls "output_format" = Ok (StrAttr output_format)
          /\ __subclasses__ cls = [])
    /\ (~ In output_format supported_formats ->
        rec_find_right_subclass output_format "output_format" BaseOutput
        = Ok None).
Proof.
  intros f. rewrite supported_formats_eqb, find_format.
  assert (Hfound : forall c : class,
             getattr c "output_format" = Ok (StrAttr f) ->
             __subclasses__ c = [] ->
             (true = true <-> exists cls, Ok (Some c) = Ok (Some cls) :> result (option class))
             /\ (forall cls, Ok (Some c) = Ok (Some cls) :> result (option class) ->
                             getattr cls "output_format" = Ok (StrAttr f)
                             /\ __subclasses__ cls = [])
             /\ (~ true = true -> Ok (Some c) = Ok None :> result (option class))).
  { intros c Hf Hs. split; [split; [intros _; exists c; reflexivity | reflexivity]|].
    split; [intros cls E; injection E as <-; split; assumption|].
    intros H. exfalso. apply H. reflexivity. }
  destruct (String.eqb_spec "json" f) as [E|_]; [apply Hfound; [rewrite <- E; reflexivity | reflexivity]|].
  destruct (String.eqb_spec "yaml" f) as [E|_]; [apply Hfound; [rewrite <- E; reflexivity | reflexivity]|].
  destruct (String.eqb_spec "tsv" f) as [E|_]; [apply Hfound; [rewrite <- E; reflexivity | reflexivity]|].
  destruct (String.eqb_spec "html" f) as [E|_]; [apply Hfound; [rewrite <- E; reflexivity | reflexivity]|].
  destruct (String.eqb_spec "md" f) as [E|_]; [apply Hfound; [rewrite <- E; reflexivity | reflexivity]|].
  destruct (String.eqb_spec "xlsx" f) as [E|_]; [apply Hfound; [rewrite <- E; reflexivity | reflexivity]|].
  cbn [orb]. split; [split; [discriminate | intros [cls E]; discriminate E]|].
  split; [discriminate | reflexivity].
Qed.

(** ** The strategy of a category *)

Lemma new_processor (category : string) :
  OutputPreProcessing_new category
  = if ("diff" =? category)%string then Ok DiffPreProcessing_class
    else if ("schema" =? category)%string then Ok SchemaPreProcessing_class
    else Raise TypeError.
Proof.
  unfold OutputPreProcessing_new. rewrite rec_find_first.
  - change (candidates "category" OutputPreProcessing)
      with [(DiffPreProcessing_class, "category");
            (SchemaPreProcessing_class, "category")].
    unfold right_candidate, has_attribute_value. cbn [find fst snd].
    change (getattr DiffPreProcessing_class "category") with (Ok (StrAttr "diff")).
    change (getattr SchemaPreProcessing_class "category") with (Ok (StrAttr "schema")).
    cbn [attribute_eqb].
    destruct ("diff" =? category)%string; [reflexivity|].
    destruct ("schema" =? category)%string; reflexivity.
  - intros c a [E|[E|[]]]; injection E as <- <-; eexists; reflexivity.
Qed.

(** X11.  The category decides how a list output builds its table:
    ['schema'] flattens the schema for the columns asked for, ['diff']
    builds the diff table and does not read the columns, and any other
    category raises [TypeError] before the data is looked at. *)
Theorem category_selects_strategy :
  forall (self : class) (data : value) (category : string)
         (columns_to_get : value) (cols : list string),
    columns_argument self columns_to_get = Ok cols ->
    ListOutput_init self data category columns_to_get
    = (if (category =? "schema")%string
       then _SchemaPreProcessing.convert_to_dataframe data cols
       else if (category =? "diff")%string
            then _DiffPreProcessing.convert_to_dataframe data
            else Raise TypeError).
Proof.
  intros self data category c cols Hc. unfold ListOutput_init.
  rewrite new_processor, (String.eqb_sym category "schema"),
    (String.eqb_sym category "diff").
  destruct (String.eqb_spec "diff" category) as [<-|_]; cbn [bind].
  - rewrite Hc. reflexivity.
  - destruct ("schema" =? category)%string; cbn [bind]; [|reflexivity].
    rewrite Hc. reflexivity.
Qed.

Lemma category_selects_strategy_witness :
  ListOutput_init TsvOutput (VList []) "diff" (VStr "Depth Type")
  = _DiffPreProcessing.convert_to_dataframe (VList []).
Proof.
  apply (category_selects_strategy TsvOutput (VList []) "diff"
           (VStr "Depth Type") ["Depth"; "Type"] eq_refl).
Defined.

(** X12.  A hierarchical output keeps its data as it is, unless the
    category is ['schema'] and counts are unwanted: then the data is the
    filtered copy.  In the copy no dict reached from the top through the
    values of dicts has a bookkeeping key.  A value that is not a dict, a
    list included, is kept as it is, at the top and wherever a path of
    kept keys leads to it: the dicts inside a list keep all their keys.
    For a diff, [without_counts] changes nothing, and a category other
    than the two gives no output. *)
Theorem without_counts_only_for_schemas :
  forall (data : value) (category : string) (without_counts : bool) (d : value),
    HierarchicalOutput_init data category without_counts = Ok d ->
    (category = "schema" \/ category = "diff")
    /\ (if without_counts && (category =? "schema")%string
        then d = filter_data data
             /\ no_bookkeeping d = true
             /\ (is_dict data = false -> d = data)
             /\ (forall path v,
                   distinct_keys data ->
                   Forall (fun k => bookkeeping k = false) path ->
                   lookup_path path data = Some v ->
                   is_dict v = false -> lookup_path path d = Some v)
        else d = data).
Proof.
  intros data category wc d. unfold HierarchicalOutput_init.
  rewrite new_processor, (String.eqb_sym category "schema").
  destruct (String.eqb_spec "diff" category) as [<-|Hd]; cbn [bind].
  - intros H. split; [right; reflexivity|]. rewrite andb_false_r.
    destruct wc; injection H as <-; reflexivity.
  - destruct (String.eqb_spec "schema" category) as [<-|Hs]; cbn [bind];
      [|discriminate].
    intros H. split; [left; reflexivity|].
    destruct wc; injection H as <-; cbn [andb]; [|reflexivity].
    change (processor_filter_data SchemaPreProcessing_class data)
      with (filter_data data).
    split; [reflexivity|]. split; [apply filter_data_no_bookkeeping|].
    split; [apply filter_data_not_dict|].
    intros path v Hu Hall Hl Hv.
    rewrite (filter_data_keeps_path path data v Hu Hall Hl).
    rewrite (filter_data_not_dict v Hv). reflexivity.
Qed.

Lemma without_counts_only_for_schemas_witness :
  lookup_path ["a"] (VDict [("a", VList [VDict [("count", VInt 1)]])])
  = Some (VList [VDict [("count", VInt 1)]]).
Proof.
  apply (proj2 (proj2 (proj2 (proj2
           (without_counts_only_for_schemas
              (VDict [("count", VInt 3);
                      ("a", VList [VDict [("count", VInt 1)]])])
              "schema" true
              (VDict [("a", VList [VDict [("count", VInt 1)]])])
              eq_refl))))
           ["a"] (VList [VDict [("count", VInt 1)]])
           ltac:(cbn; repeat split; repeat constructor; cbn; intuition discriminate)
           ltac:(repeat constructor)
           eq_refl eq_refl).
Defined.

(** ** Files of the outputs *)

Lemma ends_with_app (a s : string) : ends_with (a ++ s) s = true.
Proof.
  induction a as [|c a IH].
  - destruct s; cbn [append ends_with]; rewrite String.eqb_refl; reflexivity.
  - cbn [append ends_with]. rewrite IH. apply orb_true_r.
Qed.

Lemma ends_with_split (s suffix : string) :
  ends_with s suffix = true -> exists a, s = a ++ suffix.
Proof.
  induction s as [|c s IH]; cbn [ends_with]; intros H.
  - rewrite orb_false_r in H. apply String.eqb_eq in H. exists "". exact H.
  - apply orb_true_iff in H. destruct H as [H|H].
    + apply String.eqb_eq in H. exists "". exact H.
    + destruct (IH H) as [a ->]. exists (String c a). reflexivity.
Qed.

Lemma dot_free_app_dot (a b : string) : dot_free (a ++ String "." b) = false.
Proof.
  induction a as [|c a IH]; [reflexivity|]. cbn [append dot_free].
  rewrite IH. apply andb_false_r.
Qed.

Lemma same_extension (a b f1 f2 : string) :
  dot_free f1 = true -> dot_free f2 = true ->
  a ++ String "." f1 = b ++ String "." f2 -> f1 = f2.
Proof.
  intros H1 H2. revert b. induction a as [|c a IH]; intros [|c' b] E;
    cbn [append] in E.
  - injection E as E. exact E.
  - injection E as _ E. rewrite E, dot_free_app_dot in H1. discriminate H1.
  - injection E as _ E. rewrite <- E, dot_free_app_dot in H2. discriminate H2.
  - injection E as _ E. exact (IH b E).
Qed.

Lemma open_target (output_format name target : string) :
  BaseOutput_open output_format (VStr name) = Ok (Some target) ->
  name <> ""
  /\ ends_with target ("." ++ output_format) = true
  /\ (target = name \/ target = name ++ "." ++ output_format).
Proof.
  unfold BaseOutput_open. cbn [truthy]. rewrite negb_involutive.
  destruct (String.eqb_spec name "") as [->|Hn]; cbn [negb]; [discriminate|].
  destruct (ends_with name ("." ++ output_format)) eqn:E; cbn [negb]; intros H;
    injection H as <-; (split; [exact Hn|]); split.
  - exact E.
  - left; reflexivity.
  - apply ends_with_app.
  - right; reflexivity.
Qed.

(** X13.  The file an output is written to has the extension of its
    format: the name given is kept when it ends with the extension, and
    gets the extension appended otherwise, so that opening under the
    resulting name changes nothing more.  An empty name means standard
    output, and a name that is not a string raises [AttributeError]
    unless it is falsy. *)
Theorem open_adds_extension_once :
  forall (output_format : string) (filename : value),
    (truthy filename = false ->
     BaseOutput_open output_format filename = Ok None)
    /\ (truthy filename = true -> (forall name, filename <> VStr name) ->
        BaseOutput_open output_format filename = Raise AttributeError)
    /\ (forall name, filename = VStr name -> name <> "" ->
        exists target,
          BaseOutput_open output_format filename = Ok (Some target)
          /\ ends_with target ("." ++ output_format) = true
          /\ (target = name \/ (ends_with name ("." ++ output_format) = false
                                /\ target = name ++ "." ++ output_format))
          /\ BaseOutput_open output_format (VStr target) = Ok (Some target)).
Proof.
  intros fmt filename. split; [|split].
  - intros Hf. unfold BaseOutput_open. rewrite Hf. reflexivity.
  - intros Ht Hns. unfold BaseOutput_open. rewrite Ht. cbn [negb].
    destruct filename; try reflexivity. exfalso. exact (Hns s eq_refl).
  - intros name -> Hn.
    assert (Ht : forall s, s <> "" -> truthy (VStr s) = true).
    { intros s Hs. cbn [truthy]. destruct (String.eqb_spec s ""); [contradiction|reflexivity]. }
    unfold BaseOutput_open. rewrite (Ht name Hn). cbn [negb].
    destruct (ends_with name ("." ++ fmt)) eqn:E; cbn [negb].
    + exists name. repeat split; auto. rewrite (Ht name Hn), E. reflexivity.
    + exists (name ++ "." ++ fmt). repeat split; auto using ends_with_app.
      rewrite Ht, ends_with_app; [reflexivity|].
      destruct name; [contradiction | discriminate].
Qed.

(** X14.  Two outputs of different formats are never written to the same
    file: for formats without ['.'], as the six supported ones are, the
    files opened for one name differ when the formats do. *)
Theorem formats_write_to_different_files :
  forall (f1 f2 name t1 t2 : string),
    dot_free f1 = true -> dot_free f2 = true ->
    BaseOutput_open f1 (VStr name) = Ok (Some t1) ->
    BaseOutput_open f2 (VStr name) = Ok (Some t2) ->
    f1 <> f2 -> t1 <> t2.
Proof.
  intros f1 f2 name t1 t2 H1 H2 E1 E2 Hne Heq. apply Hne. subst t2.
  apply open_target in E1, E2.
  destruct E1 as (_ & E1 & _). destruct E2 as (_ & E2 & _).
  apply ends_with_split in E1, E2. destruct E1 as [a Ea]. destruct E2 as [b Eb].
  apply (same_extension a b f1 f2 H1 H2).
  transitivity t1; [symmetry; exact Ea | exact Eb].
Qed.

Lemma formats_write_to_different_files_witness :
  "schema.json" <> "schema.json.yaml"
  /\ Forall (fun f => dot_free f = true) supported_formats.
Proof.
  split.
  - apply (formats_write_to_different_files "json" "yaml" "schema.json"
             "schema.json" "schema.json.yaml" eq_refl eq_refl eq_refl eq_refl).
    discriminate.
  - repeat constructor.
Defined.

(** ** Writing all formats *)







(** X16.  Unsupported formats are refused before anything is written:
    when a format is not one of the six, [write_output_dict] raises the
    [ValueError] that lists the unsupported formats, and those only, and
    makes no output, whatever the other formats, the data and the
    environment are. *)
Theorem unsupported_format_writes_nothing :
  forall (env : environment) (output_formats : list string)
         (data filename columns_to_get : value)
         (without_counts : bool) (category f : string),
    In f output_formats -> ~ In f supported_formats ->
    exists wrong,
      write_output_dict env data output_formats filename columns_to_get
        without_counts category
      = ValueError wrong
      /\ In f wrong
      /\ forall g, In g wrong <-> In g output_formats /\ ~ In g supported_formats.
Proof.
  intros env formats data filename cols wc category f Hin Hns.
  assert (Hw : forall g, In g (wrong_formats formats)
                         <-> In g formats /\ ~ In g supported_formats).
  { intros g. unfold wrong_formats. rewrite filter_In. apply and_iff_compat_l.
    rewrite negb_true_iff. split.
    - intros E Hg. assert (E' : existsb (String.eqb g) supported_formats = true).
      { apply existsb_exists. exists g. split; [exact Hg | apply String.eqb_refl]. }
      congruence.
    - intros Hg. destruct (existsb (String.eqb g) supported_formats) eqn:E;
        [|reflexivity].
      exfalso. apply Hg. apply existsb_exists in E. destruct E as (x & Hx & E).
      apply String.eqb_eq in E. subst. exact Hx. }
  assert (Hf : In f (wrong_formats formats)) by (apply Hw; split; assumption).
  exists (wrong_formats formats). unfold write_output_dict.
  destruct (wrong_formats formats) as [|w ws] eqn:E; [destruct Hf|].
  split; [reflexivity|]. split; [exact Hf | exact Hw].
Qed.

Lemma unsupported_format_writes_nothing_witness :
  exists wrong,
    write_output_dict (mkEnvironment (fun _ => None) (fun _ => false))
      example_schema ["json"; "csv"] VNone VNone false "schema"
    = ValueError wrong
    /\ In "csv" wrong
    /\ forall g, In g wrong <-> In g ["json"; "csv"] /\ ~ In g supported_formats.
Proof.
  apply (unsupported_format_writes_nothing
           (mkEnvironment (fun _ => None) (fun _ => false))
           ["json"; "csv"] example_schema VNone VNone false "schema" "csv").
  - right. left. reflexivity.
  - cbn. intros H. repeat (destruct H as [H|H]; [discriminate H|]). exact H.
Defined.

(** ** [type_name] and the dict it fills *)

Lemma pytype_eqb_eq (a b : pytype) : pytype_eqb a b = true <-> a = b.
Proof.
  split.
  - destruct a, b; cbn [pytype_eqb]; intros H; try discriminate H; try reflexivity.
    apply String.eqb_eq in H. subst. reflexivity.
  - intros <-. destruct a; cbn [pytype_eqb]; try reflexivity. apply String.eqb_refl.
Qed.

Lemma type_to_str_get_app (d d' : list (pytype * string)) (t : pytype) :
  type_to_str_get (d ++ d')%list t
  = match type_to_str_get d t with
    | Some s => Some s
    | None => type_to_str_get d' t
    end.
Proof.
  induction d as [|[t' s'] d IH]; [reflexivity|]. cbn [app type_to_str_get].
  destruct (pytype_eqb t' t); [reflexivity | exact IH].
Qed.

Lemma type_to_str_get_self (t : pytype) (s : string) :
  type_to_str_get [(t, s)] t = Some s.
Proof.
  cbn [type_to_str_get]. rewrite (proj2 (pytype_eqb_eq t t) eq_refl). reflexivity.
Qed.

(** X17.  A call of [type_name] leaves the type registered under the
    string it returned: a second call for the same type returns the same
    string, changes nothing and logs nothing, and every type that had a
    string before the call still has the same one.  For a type that has a
    string, the call returns it and changes and logs nothing; for a type
    that has none, the answer is ['unknown'], one warning is logged, about
    that type, and the type is entered in the dict under ['unknown']. *)
Theorem type_name_registers_once :
  forall (st : registry) (t : pytype),
    type_name (snd (type_name st t)) t = type_name st t
    /\ (forall t' s, type_to_str_get (type_to_str st) t' = Some s ->
                     type_name (snd (type_name st t)) t'
                     = (s, snd (type_name st t)))
    /\ match type_to_str_get (type_to_str st) t with
       | Some s => type_name st t = (s, st)
       | None =>
           fst (type_name st t) = "unknown"
           /\ warned (snd (type_name st t)) = (warned st ++ [t])%list
           /\ type_to_str (snd (type_name st t))
              = (type_to_str st ++ [(t, "unknown")])%list
           /\ type_to_str_get (type_to_str (snd (type_name st t))) t
              = Some "unknown"
       end.
Proof.
  intros st t.
  destruct (type_to_str_get (type_to_str st) t) as [s|] eqn:E.
  - assert (Hs : type_name st t = (s, st))
      by (unfold type_name; rewrite E; reflexivity).
    rewrite Hs. cbn [fst snd]. split; [exact Hs|]. split.
    + intros t' s' H. unfold type_name. rewrite H. reflexivity.
    + reflexivity.
  - assert (Hs : type_name st t
                 = ("unknown",
                    mkRegistry (type_to_str st ++ [(t, "unknown")])%list
                               (warned st ++ [t])%list))
      by (unfold type_name; rewrite E; reflexivity).
    rewrite Hs. cbn [fst snd warned type_to_str]. split; [|split].
    + unfold type_name. cbn [type_to_str]. rewrite type_to_str_get_app, E.
      rewrite type_to_str_get_self. reflexivity.
    + intros t' s' H. unfold type_name. cbn [type_to_str].
      rewrite type_to_str_get_app, H. reflexivity.
    + repeat split. rewrite type_to_str_get_app, E. apply type_to_str_get_self.
Qed.

Lemma after_calls_type_to_str (ts : list pytype) :
  forall st,
    (forall t s, type_to_str_get (type_to_str st) t = Some s ->
                 type_to_str_get (type_to_str (after_calls st ts)) t = Some s)
    /\ (forall t, type_to_str_get (type_to_str (after_calls st ts)) t
                  = type_to_str_get (type_to_str st) t
                  \/ (type_to_str_get (type_to_str st) t = None
                      /\ type_to_str_get (type_to_str (after_calls st ts)) t
                         = Some "unknown")).
Proof.
  induction ts as [|t0 ts IH]; intros st.
  - split; [auto | left; reflexivity].
  - unfold after_calls. cbn [fold_left]. fold (after_calls (snd (type_name st t0)) ts).
    destruct (IH (snd (type_name st t0))) as [IH1 IH2].
    assert (Hstep : forall t,
               type_to_str_get (type_to_str (snd (type_name st t0))) t
               = match type_to_str_get (type_to_str st) t with
                 | Some s => Some s
                 | None => if pytype_eqb t0 t
                           then match type_to_str_get (type_to_str st) t0 with
                                | Some _ => None
                                | None => Some "unknown"
                                end
                           else None
                 end).
    { intros t. unfold type_name.
      destruct (type_to_str_get (type_to_str st) t0) as [s0|] eqn:E0; cbn [snd].
      - destruct (type_to_str_get (type_to_str st) t); [reflexivity|].
        destruct (pytype_eqb t0 t); reflexivity.
      - cbn [type_to_str]. rewrite type_to_str_get_app.
        destruct (type_to_str_get (type_to_str st) t); [reflexivity|].
        cbn [type_to_str_get]. destruct (pytype_eqb t0 t); reflexivity. }
    split.
    + intros t s H. apply IH1. rewrite Hstep, H. reflexivity.
    + intros t. destruct (type_to_str_get (type_to_str st) t) as [s|] eqn:E.
      * left. apply IH1. rewrite Hstep, E. reflexivity.
      * destruct (IH2 t) as [H|[H1 H2]].
        -- rewrite H, Hstep, E. destruct (pytype_eqb t0 t); [|left; reflexivity].
           destruct (type_to_str_get (type_to_str st) t0);
             [left; reflexivity | right; split; reflexivity].
        -- right. split; [reflexivity | exact H2].
Qed.

Lemma type_name_answer (st : registry) (t : pytype) :
  fst (type_name st t)
  = match type_to_str_get (type_to_str st) t with
    | Some s => s
    | None => "unknown"
    end.
Proof.
  unfold type_name. destruct (type_to_str_get (type_to_str st) t); reflexivity.
Qed.

(** X18.  What [type_name] answers for a type does not depend on the
    calls made before: after any calls, starting from the module as
    loaded, the answer is the one the fresh module gives, which is the
    string of [TYPE_TO_STR] for a type the dict maps and ['unknown'] for
    any other. *)
Theorem type_name_history_independent :
  forall (ts : list pytype) (t : pytype),
    fst (type_name (after_calls initial_registry ts) t)
    = fst (type_name initial_registry t)
    /\ (mapped t = false ->
        fst (type_name (after_calls initial_registry ts) t) = "unknown").
Proof.
  intros ts t.
  assert (H : fst (type_name (after_calls initial_registry ts) t)
              = fst (type_name initial_registry t)).
  { rewrite !type_name_answer.
    destruct (after_calls_type_to_str ts initial_registry) as [_ H].
    destruct (H t) as [E|[E1 E2]].
    - rewrite E. reflexivity.
    - rewrite E1, E2. reflexivity. }
  split; [exact H|]. intros Hm. rewrite H, type_name_answer.
  unfold mapped in Hm. cbn [initial_registry type_to_str].
  destruct (type_to_str_get TYPE_TO_STR t); [discriminate Hm | reflexivity].
Qed.

Lemma type_name_history_independent_witness :
  fst (type_name
         (after_calls initial_registry
            [other_type "Decimal128"; int_type; other_type "Decimal128"])
         (other_type "Decimal128"))
  = "unknown".
Proof.
  apply (proj2 (type_name_history_independent
                  [other_type "Decimal128"; int_type; other_type "Decimal128"]
                  (other_type "Decimal128")) eq_refl).
Defined.

(** ** From a value to a PSQL type *)

Lemma psql_type_unknown : psql_type "unknown" = Raise (KeyError "unknown").
Proof. reflexivity. Qed.

(** X19.  The type string of a value has a PSQL type exactly for
    booleans, the two integer types, floats, the two string types, dates
    and object ids, whatever calls of [type_name] came before; for every
    other type, lists, dicts, [None], timestamps, DBRefs and unmapped
    types included, [psql_type] raises [KeyError] on the string
    [type_name] returned. *)
Theorem psql_type_of_type_name :
  forall (ts : list pytype) (t : pytype),
    let mongo_type := fst (type_name (after_calls initial_registry ts) t) in
    ((exists psql_type_str, psql_type mongo_type = Ok psql_type_str)
     <-> In t psql_types)
    /\ (~ In t psql_types -> psql_type mongo_type = Raise (KeyError mongo_type)).
Proof.
  intros ts t mongo_type. subst mongo_type.
  destruct (type_name_history_independent ts t) as [-> _].
  unfold psql_types.
  destruct t; cbn; try (split; [split; [intros _; tauto | intros _; eexists; reflexivity]
                               | intros H; exfalso; apply H; tauto]);
    (split; [split; [intros [s H]; discriminate H
                    | intros H; repeat (destruct H as [H|H]; [discriminate H|]);
                      destruct H]
            | reflexivity]).
Qed.

(** ** Type strings and the tree of types *)

(** X20.  The string [type_name] returns is the name of a node of
    [TYPES_TREE] for every type but three: lists, dicts and [None], whose
    strings ['ARRAY'], ['OBJECT'] and ['null'] the tree does not have.
    In particular ['unknown'], the answer for the types the module does
    not map, is a node of the tree. *)
Theorem type_name_in_types_tree :
  forall (ts : list pytype) (t : pytype),
    In (fst (type_name (after_calls initial_registry ts) t)) (nodes TYPES_TREE)
    <-> ~ In t [list_type; dict_type; NoneType].
Proof.
  intros ts t. destruct (type_name_history_independent ts t) as [-> _].
  destruct t; vm_compute; split;
    try (intros _ H; repeat (destruct H as [H|H]; [discriminate H|]); exact H);
    try (intros _; tauto);
    try (intros H _; repeat (destruct H as [H|H]; [discriminate H|]); exact H);
    try (intros H; exfalso; apply H; tauto).
Qed.
